(** * Task board: the badge classifier and the REST handlers around it

    A shallow embedding of the Express routers of the task-board back end
    (backend/routes/tasks.js, users.js, comments.js and
    backend/middleware/auth.js) over a relational store modelled as finite
    maps keyed by the AUTO_INCREMENT primary key, with the two interceptors
    of the client's axios instance (frontend services/api.js) and the
    columns of its board (context/TaskContext.js).

    Conventions.
    - An instant is a number of milliseconds since the epoch ([Z]), the time
      value of a JavaScript [Date]. A DATETIME column read back through the
      driver is a [Date] (or null), hence [option Z].
    - [new Date()] and CURRENT_TIMESTAMP are effects: every function that
      reads the clock takes the reading [now] as an explicit argument. The
      store keeps the AUTO_INCREMENT counter of the tasks table; the key that
      the comments table gives to a new comment is an argument of the one
      route that inserts a comment.
    - The quotient [timeDiff / (1000 * 3600)] is taken in the rationals. The
      IEEE quotient of the source compares to 0 and to 24 exactly as the
      rational one: rounding is monotone, and the closest a quotient of an
      integer by 3600000 comes to 24 without being 24 is 1/3600000, far above
      the spacing of doubles around 24.
    - A string is held as the bytes of its UTF-8 encoding. The white space
      that [trim] removes is that of JavaScript's class [\s], and the length
      that [isLength] bounds is a number of characters, both read off the
      encoding. A JSON number is modelled when it is written as an integer;
      its value is the nearest double, and [String] prints it as JavaScript
      does. *)

From stdpp Require Import base numbers option list strings gmap.
From Stdlib Require Import Ascii QArith DecimalString Sorted.

Local Open Scope string_scope.
Local Open Scope Z_scope.

#[local] Set Default Proof Using "Type".

(** ** JavaScript values *)

(** A scalar JSON value as it appears as a member of [req.body], [req.query]
    or [req.params]. [undefined] is the absence of the member: members are read
    as [option JsValue]. A string is held as its UTF-8 encoding. [JNum n] is
    the JSON number that the body writes as the integer [n] (in any
    notation: 1e21 is [JNum (10 ^ 21)]): its JavaScript value is the double
    nearest to [n]. Numbers with a fractional part are not modelled. *)
Inductive JsValue : Type :=
  | JNull
  | JBool (b : bool)
  | JNum (n : Z)
  | JStr (s : string).

Global Instance JsValue_eq_dec : EqDecision JsValue.
Proof. solve_decision. Defined.

(** Truthiness of [if (v)], [v || null], [v ? a : b]. *)
Definition truthy (v : option JsValue) : bool :=
  match v with
  | None | Some JNull => false
  | Some (JBool b) => b
  | Some (JNum n) => negb (n =? 0)
  | Some (JStr s) => negb (String.eqb s "")
  end.

(** ** The badge classifier (routes/tasks.js) *)

Definition Qltb (x y : Q) : bool :=
  match (x ?= y)%Q with Lt => true | _ => false end.

(** [new Date(dueDate).getTime()]: the time value of the Date read from the
    store; [new Date(null)] is the epoch. *)
Definition new_Date (dueDate : option Z) : Z := default 0 dueDate.

Module TasksRouter.

Definition getTaskBadge (now : Z) (dueDate : option Z) (status : string) : string :=
  if negb (bool_decide (is_Some dueDate)) || String.eqb status "Done" then
    "On Track"
  else
    let due := new_Date dueDate in
    let timeDiff := due - now in
    let hoursDiff := (inject_Z timeDiff / inject_Z (1000 * 3600))%Q in
    if Qltb hoursDiff 0 then "Overdue"
    else if Qle_bool hoursDiff 24 then "At Risk"
    else "On Track".

End TasksRouter.

Module UsersRouter.

(** The copy declared inside the GET /me/tasks handler of routes/users.js. *)
Definition getTaskBadge (now : Z) (dueDate : option Z) (status : string) : string :=
  if negb (bool_decide (is_Some dueDate)) || String.eqb status "Done" then
    "On Track"
  else
    let due := new_Date dueDate in
    let timeDiff := due - now in
    let hoursDiff := (inject_Z timeDiff / inject_Z (1000 * 3600))%Q in
    if Qltb hoursDiff 0 then "Overdue"
    else if Qle_bool hoursDiff 24 then "At Risk"
    else "On Track".

End UsersRouter.

(** The quantity the specification calls [hoursRemaining]. *)
Definition hoursRemaining (now due : Z) : Q := (due - now) # 3600000.


(** ** Numbers and strings

    *** Numbers

    [JSON.parse] reads an integer literal as the nearest double, ties to
    the even significand; [None] is an infinity. *)
Definition round_to_double (a : Z) : Z :=
  let bits := Z.log2 a + 1 in
  if bits <=? 53 then a
  else
    let sh := bits - 53 in
    let q := Z.shiftr a sh in
    let r := Z.land a (Z.ones sh) in
    let half := Z.shiftl 1 (sh - 1) in
    let q' := if (half <? r) || ((r =? half) && Z.odd q) then q + 1 else q in
    Z.shiftl q' sh.

Definition to_double (n : Z) : option Z :=
  let m := round_to_double (Z.abs n) in
  if m <? 2 ^ 1024 then Some (Z.sgn n * m) else None.

(** The decimal notation of an integer. *)
Definition decimal (m : Z) : string := NilZero.string_of_int (Z.to_int m).

(** [Number::toString] on a double [a > 0] with an integer value of [L]
    digits: the integer with the fewest significant digits that reads back
    as [a], the closest one when several have as few, the one with the even
    last digit when two are as close. *)
Definition shortest_step (a L k : Z) : option Z :=
  let p := 10 ^ (L - k) in
  let s := a / p in
  let lo := s * p in
  let hi := (s + 1) * p in
  match bool_decide (round_to_double lo = a), bool_decide (round_to_double hi = a) with
  | true, true =>
      Some (if a - lo <? hi - a then lo
            else if hi - a <? a - lo then hi
            else if Z.even s then lo else hi)
  | true, false => Some lo
  | false, true => Some hi
  | false, false => None
  end.

Fixpoint shortest (fuel : nat) (a L k : Z) : Z :=
  match fuel with
  | O => a
  | S fuel' =>
      if L <=? k then a
      else match shortest_step a L k with
           | Some m => m
           | None => shortest fuel' a L (k + 1)
           end
  end.

Fixpoint drop_zeros (s : string) : string :=
  match s with
  | String a r => if Ascii.eqb a "0" then drop_zeros r else s
  | EmptyString => EmptyString
  end.

(** [String(d)] for a finite double [d] with an integer value: the digits
    when there are at most 21 of them, the exponent notation beyond. *)
Definition js_number_string (d : Z) : string :=
  if d =? 0 then "0"
  else
    let a := Z.abs d in
    let m := shortest 17 a (Z.of_nat (String.length (decimal a))) 1 in
    let digits := decimal m in
    let n := String.length digits in
    (if d <? 0 then "-" else "") ++
    (if (n <=? 21)%nat then digits
     else match String.rev (drop_zeros (String.rev digits)) with
          | String c EmptyString =>
              String c EmptyString ++ "e+" ++ decimal (Z.of_nat n - 1)
          | String c rest =>
              String c ("." ++ rest) ++ "e+" ++ decimal (Z.of_nat n - 1)
          | EmptyString => digits
          end).

(** *** Strings: what the validators and the driver do to them *)

(** [String(v)] as express-validator's [toString] computes it before every
    standard validator and sanitizer: the empty string for null and
    undefined. *)
Definition toString (v : option JsValue) : string :=
  match v with
  | None | Some JNull => ""
  | Some (JBool true) => "true"
  | Some (JBool false) => "false"
  | Some (JNum n) =>
      match to_double n with
      | Some d => js_number_string d
      | None => if n <? 0 then "-Infinity" else "Infinity"
      end
  | Some (JStr s) => s
  end.

Definition digit_of (a : ascii) : option Z :=
  let n := Z.of_N (N_of_ascii a) in
  if (48 <=? n) && (n <=? 57) then Some (n - 48) else None.

Fixpoint parse_digits (acc : Z) (s : string) : option Z :=
  match s with
  | EmptyString => Some acc
  | String a r =>
      match digit_of a with
      | Some d => parse_digits (10 * acc + d) r
      | None => None
      end
  end.

(** The strings of the regular expression [^[-+]?[0-9]+$] of validator.js's
    [isInt], with the integer they denote: also the integer MySQL reads when
    such a string is bound to an INT column or compared with one. *)
Definition parse_int (s : string) : option Z :=
  match s with
  | EmptyString => None
  | String a r =>
      if Ascii.eqb a "+" then (if String.eqb r "" then None else parse_digits 0 r)
      else if Ascii.eqb a "-" then
        (if String.eqb r "" then None else Z.opp <$> parse_digits 0 r)
      else parse_digits 0 s
  end.

(** The integer a value stands for, for [isInt] and for the store. A number
    passes [isInt] when [String] prints it without an exponent, that is
    below 10^21 in magnitude, and is then bound to the statement as the
    double it is; anything else goes through its string. *)
Definition to_int (v : option JsValue) : option Z :=
  match v with
  | Some (JNum n) =>
      match to_double n with
      | Some d => if Z.abs d <? 10 ^ 21 then Some d else None
      | None => None
      end
  | _ => parse_int (toString v)
  end.

(** White space of the regular expression class [\s]: the six characters
    of ASCII, and in two and three bytes of UTF-8 the characters U+00A0,
    U+1680, U+2000 to U+200A, U+2028, U+2029, U+202F, U+205F, U+3000 and
    U+FEFF. *)
Definition byte (a : ascii) : Z := Z.of_N (N_of_ascii a).

Definition is_space (a : ascii) : bool :=
  let n := byte a in
  ((9 <=? n) && (n <=? 13)) || (n =? 32).

Definition is_space2 (a b : ascii) : bool :=
  (byte a =? 194) && (byte b =? 160).

Definition is_space3 (a b c : ascii) : bool :=
  let '(x, y, z) := (byte a, byte b, byte c) in
  ((x =? 225) && (y =? 154) && (z =? 128)) ||
  ((x =? 226) && (y =? 128) &&
   (((128 <=? z) && (z <=? 138)) || (z =? 168) || (z =? 169) || (z =? 175))) ||
  ((x =? 226) && (y =? 129) && (z =? 159)) ||
  ((x =? 227) && (y =? 128) && (z =? 128)) ||
  ((x =? 239) && (y =? 187) && (z =? 191)).

(** [str.replace(/^\s+/g, '')] of validator.js's [ltrim]. With [backwards]
    the string is read from its end, as [rtrim] reads it: the bytes of a
    character then come last first. *)
Fixpoint strip_spaces (backwards : bool) (s : string) : string :=
  match s with
  | EmptyString => EmptyString
  | String a r =>
      if is_space a then strip_spaces backwards r
      else
        match r with
        | String b r' =>
            if (if backwards then is_space2 b a else is_space2 a b)
            then strip_spaces backwards r'
            else
              match r' with
              | String c r'' =>
                  if (if backwards then is_space3 c b a else is_space3 a b c)
                  then strip_spaces backwards r''
                  else s
              | EmptyString => s
              end
        | EmptyString => s
        end
  end.

Definition ltrim (s : string) : string := strip_spaces false s.

Definition rtrim (s : string) : string :=
  String.rev (strip_spaces true (String.rev s)).

(** [validator.trim]: [rtrim(ltrim(str))]. *)
Definition trim_string (s : string) : string := rtrim (ltrim s).

(** The length that validator.js's [isLength] compares (validator 13.9 and
    later): the UTF-16 length less the surrogate pairs and less the
    variation selectors U+FE0E and U+FE0F, that is, on the UTF-8 encoding,
    the bytes that start a character, those of the two selectors apart. *)
Fixpoint js_length (s : string) : nat :=
  match s with
  | EmptyString => O
  | String a r =>
      let n := byte a in
      if (128 <=? n) && (n <? 192) then js_length r
      else
        match r with
        | String b (String c _) =>
            if (n =? 239) && (byte b =? 184) && ((byte c =? 142) || (byte c =? 143))
            then js_length r
            else S (js_length r)
        | _ => S (js_length r)
        end
  end.

(** [s.split(sep)] for a one-character separator. *)
Fixpoint split (sep : ascii) (s : string) : list string :=
  match s with
  | EmptyString => [EmptyString]
  | String a r =>
      if Ascii.eqb a sep then EmptyString :: split sep r
      else match split sep r with
           | [] => [String a EmptyString]
           | w :: ws => String a w :: ws
           end
  end.

(** ** Objects *)

(** [o.hasOwnProperty(field)] on a parsed JSON object [o]. The method is
    looked up on the object first: a member of [o] that is itself named
    hasOwnProperty shadows [Object.prototype.hasOwnProperty], and calling a
    JSON scalar throws a TypeError ([None]). *)
Definition js_hasOwnProperty (o : gmap string JsValue) (field : string) : option bool :=
  match o !! "hasOwnProperty" with
  | Some _ => None
  | None => Some (bool_decide (is_Some (o !! field)))
  end.

(** ** The store (schema of README.md) *)

Module User.
Record t := { email : string; password_hash : string; name : string }.
End User.

Module Task.
Record t := {
  title : string;
  description : option string;
  priority : string;
  assignee_id : option Z;
  status : string;
  due_date : option Z;
  created_at : Z;
  updated_at : Z
}.
End Task.

Module Comment.
Record t := { task_id : Z; author_id : Z; body : string; created_at : Z }.
End Comment.

Record Db := {
  users : gmap Z User.t;
  tasks : gmap Z Task.t;
  comments : gmap Z Comment.t;
  tasks_auto_increment : Z
}.

Definition priorities : list string := ["Low"; "Medium"; "High"].
Definition statuses : list string := ["Backlog"; "In Progress"; "Review"; "Done"].

(** ** Requests and responses *)

(** [req.user], the row [SELECT id, email, name FROM users] that
    [authenticateToken] attaches to the request. *)
Record UserInfo := { user_id : Z; user_email : string; user_name : string }.

Record Request := {
  req_authorization : option string;      (* req.headers['authorization'] *)
  req_params : gmap string JsValue;
  req_query : gmap string JsValue;
  req_body : gmap string JsValue;
  req_user : option UserInfo
}.

(** The row of [SELECT t.id, ..., u.name as assignee_name, u.email as
    assignee_email FROM tasks t LEFT JOIN users u ON t.assignee_id = u.id]. *)
Module TaskRow.
Record t := {
  id : Z;
  title : string;
  description : option string;
  priority : string;
  status : string;
  due_date : option Z;
  created_at : Z;
  updated_at : Z;
  assignee_id : option Z;
  assignee_name : option string;
  assignee_email : option string
}.
End TaskRow.

Record Assignee := {
  assignee_id : Z;
  assignee_name : option string;
  assignee_email : option string
}.

(** [{...task, badge: ..., assignee: ...}] *)
Record TaskWithBadge := {
  row : TaskRow.t;
  badge : string;
  assignee : option Assignee
}.

Record Author := { author_id : Z; author_name : string; author_email : string }.

Record FormattedComment := {
  fc_id : Z;
  fc_taskId : Z;
  fc_body : string;
  fc_createdAt : Z;
  fc_author : Author
}.

Inductive Json : Type :=
  | JMessage (message : string)
  | JErrors (message : string) (errors : list string)
  | JTasks (tasks : list TaskWithBadge)
  | JTask (task : TaskWithBadge)
  | JMessageTask (message : string) (task : TaskWithBadge)
  | JMessageComment (message : string) (comment : FormattedComment).

Record Response := { statusCode : Z; json : Json }.

(** [res.status(code).json(j)]; [res.json(j)] answers 200. *)
Definition res_status_json (code : Z) (j : Json) : Response :=
  {| statusCode := code; json := j |}.
Definition res_json (j : Json) : Response := res_status_json 200 j.

Definition tasks_of (r : Response) : list TaskWithBadge :=
  match json r with
  | JTasks l => l
  | JTask t | JMessageTask _ t => [t]
  | _ => []
  end.

(** ** express-validator chains

    A chain is the list of its items in source order. The semantics is the
    library's: with [optional()] anywhere in the chain, a member that is
    undefined is skipped altogether; otherwise sanitizers replace the value
    (written back to the request when it changed) and every validator is run
    on [toString] of the current value, failures being collected without
    stopping the chain. Messages of single failures are not modelled: the
    errors array is the list of the fields that failed. *)

Inductive Location := in_body | in_params | in_query.

Inductive ChainItem : Type :=
  | optional
  | trim
  | isLength (min max : nat)
  | isIn (values : list string)
  | isInt (min : Z)
  | isISO8601.

Record ValidationChain := {
  vc_location : Location;
  vc_field : string;
  vc_items : list ChainItem
}.

Definition body (field : string) (items : list ChainItem) : ValidationChain :=
  {| vc_location := in_body; vc_field := field; vc_items := items |}.
Definition param (field : string) (items : list ChainItem) : ValidationChain :=
  {| vc_location := in_params; vc_field := field; vc_items := items |}.
Definition query (field : string) (items : list ChainItem) : ValidationChain :=
  {| vc_location := in_query; vc_field := field; vc_items := items |}.

Definition is_optional (items : list ChainItem) : bool :=
  existsb (λ i, match i with optional => true | _ => false end) items.

Definition req_at (l : Location) (req : Request) : gmap string JsValue :=
  match l with
  | in_body => req_body req
  | in_params => req_params req
  | in_query => req_query req
  end.

Definition req_set (l : Location) (field : string) (v : JsValue) (req : Request) : Request :=
  match l with
  | in_body =>
      {| req_authorization := req_authorization req; req_params := req_params req;
         req_query := req_query req; req_body := <[field := v]> (req_body req);
         req_user := req_user req |}
  | in_params =>
      {| req_authorization := req_authorization req;
         req_params := <[field := v]> (req_params req);
         req_query := req_query req; req_body := req_body req;
         req_user := req_user req |}
  | in_query =>
      {| req_authorization := req_authorization req; req_params := req_params req;
         req_query := <[field := v]> (req_query req); req_body := req_body req;
         req_user := req_user req |}
  end.

(** ** jsonwebtoken *)

Inductive VerifyResult : Type :=
  | Decoded (userId : Z)        (* the payload { userId } signed by /auth/login *)
  | JsonWebTokenError           (* malformed token, bad signature *)
  | TokenExpiredError
  | NotBeforeError.             (* any other error thrown by verify *)

(** ** SQL statements *)

(** [WHERE id = ?] on a primary key: at most one row. [rows.length === 0] is
    [None] and [rows[0]] is the row. A bound value that is not an integer
    matches no row. *)
Definition where_id {A : Type} (table : gmap Z A) (v : option JsValue) : option (Z * A) :=
  n ← to_int v; r ← table !! n; Some (n, r).

Definition task_row (db : Db) (n : Z) (t : Task.t) : TaskRow.t :=
  let u := Task.assignee_id t ≫= (λ a, users db !! a) in
  {| TaskRow.id := n;
     TaskRow.title := Task.title t;
     TaskRow.description := Task.description t;
     TaskRow.priority := Task.priority t;
     TaskRow.status := Task.status t;
     TaskRow.due_date := Task.due_date t;
     TaskRow.created_at := Task.created_at t;
     TaskRow.updated_at := Task.updated_at t;
     TaskRow.assignee_id := Task.assignee_id t;
     TaskRow.assignee_name := User.name <$> u;
     TaskRow.assignee_email := User.email <$> u |}.

(** [... WHERE t.id = ?] *)
Definition select_task (db : Db) (id : option JsValue) : option TaskRow.t :=
  '(n, t) ← where_id (tasks db) id; Some (task_row db n t).

(** The same statement bound to a key that the store itself gave
    ([result.insertId]): the value of an INT column, which a JavaScript
    number holds exactly. *)
Definition select_task_key (db : Db) (n : Z) : option TaskRow.t :=
  t ← tasks db !! n; Some (task_row db n t).

(** [ORDER BY t.created_at DESC] *)
Fixpoint insert_desc (x : Z * Task.t) (l : list (Z * Task.t)) : list (Z * Task.t) :=
  match l with
  | [] => [x]
  | y :: r =>
      if Task.created_at y.2 <=? Task.created_at x.2 then x :: l
      else y :: insert_desc x r
  end.

Definition order_by_created_at_desc (l : list (Z * Task.t)) : list (Z * Task.t) :=
  foldr insert_desc [] l.

(** [SELECT ... FROM tasks t LEFT JOIN users u ... WHERE 1=1 AND c1 AND ...
    ORDER BY t.created_at DESC] *)
Definition select_tasks (db : Db) (conds : list (Task.t → bool)) : list TaskRow.t :=
  (λ nt, task_row db nt.1 nt.2) <$>
    order_by_created_at_desc
      (List.filter (λ nt : Z * Task.t, forallb (λ c, c nt.2) conds) (map_to_list (tasks db))).

(** [t.assignee_id = ?] *)
Definition assignee_id_eq (v : option JsValue) (t : Task.t) : bool :=
  match Task.assignee_id t, to_int v with
  | Some a, Some b => a =? b
  | _, _ => false
  end.

(** [t.assignee_id = ?] bound to [req.user.id], a key of the users table. *)
Definition assignee_id_is (b : Z) (t : Task.t) : bool :=
  match Task.assignee_id t with
  | Some a => a =? b
  | None => false
  end.

(** [t.priority = ?], [t.status = ?] *)
Definition priority_eq (v : option JsValue) (t : Task.t) : bool :=
  String.eqb (Task.priority t) (toString v).
Definition status_eq (v : option JsValue) (t : Task.t) : bool :=
  String.eqb (Task.status t) (toString v).

(** Values bound to a column. [None]: the statement is rejected and the
    driver throws. *)
Definition sql_text (v : JsValue) : option string :=
  match v with
  | JNull => None
  | _ => Some (toString (Some v))
  end.

Definition sql_enum (values : list string) (v : JsValue) : option string :=
  match v with
  | JStr s => if bool_decide (s ∈ values) then Some s else None
  | _ => None
  end.

Definition sql_int (v : JsValue) : option Z := to_int (Some v).

Definition sql_nullable {A : Type} (conv : JsValue → option A) (v : JsValue)
  : option (option A) :=
  match v with
  | JNull => Some None
  | _ => Some <$> conv v
  end.

(** [v || null] *)
Definition or_null (v : option JsValue) : JsValue :=
  if truthy v then default JNull v else JNull.

(** [DELETE FROM tasks WHERE id = ?], with ON DELETE CASCADE on
    comments.task_id. *)
Definition delete_task (db : Db) (id : option JsValue) : Db :=
  match to_int id with
  | None => db
  | Some n =>
      {| users := users db;
         tasks := delete n (tasks db);
         comments := filter (λ kc, Comment.task_id kc.2 ≠ n) (comments db);
         tasks_auto_increment := tasks_auto_increment db |}
  end.

(** [UPDATE comments SET body = ? WHERE id = ?] *)
Definition update_comment (db : Db) (v : option JsValue) (id : option JsValue) : option Db :=
  b ← sql_text (default JNull v);
  Some match where_id (comments db) id with
       | None => db
       | Some (n, c) =>
           {| users := users db; tasks := tasks db;
              comments :=
                <[n := {| Comment.task_id := Comment.task_id c;
                          Comment.author_id := Comment.author_id c;
                          Comment.body := b;
                          Comment.created_at := Comment.created_at c |}]> (comments db);
              tasks_auto_increment := tasks_auto_increment db |}
       end.

(** [DELETE FROM comments WHERE id = ?] *)
Definition delete_comment (db : Db) (id : option JsValue) : Db :=
  match to_int id with
  | None => db
  | Some n =>
      {| users := users db; tasks := tasks db;
         comments := delete n (comments db);
         tasks_auto_increment := tasks_auto_increment db |}
  end.

(** [SELECT c.id, ..., u.name as author_name, u.email as author_email FROM
    comments c JOIN users u ON c.author_id = u.id WHERE c.id = ?], already in
    the shape of [formattedComment]. *)
Definition select_comment (db : Db) (id : option JsValue) : option FormattedComment :=
  '(n, c) ← where_id (comments db) id;
  u ← users db !! Comment.author_id c;
  Some {| fc_id := n; fc_taskId := Comment.task_id c; fc_body := Comment.body c;
          fc_createdAt := Comment.created_at c;
          fc_author := {| author_id := Comment.author_id c;
                          author_name := User.name u;
                          author_email := User.email u |} |}.

(** The same statement bound to [result.insertId]. *)
Definition select_comment_key (db : Db) (n : Z) : option FormattedComment :=
  c ← comments db !! n;
  u ← users db !! Comment.author_id c;
  Some {| fc_id := n; fc_taskId := Comment.task_id c; fc_body := Comment.body c;
          fc_createdAt := Comment.created_at c;
          fc_author := {| author_id := Comment.author_id c;
                          author_name := User.name u;
                          author_email := User.email u |} |}.

(** [{...task, badge: getTaskBadge(task.due_date, task.status), assignee:
    task.assignee_id ? {...} : null}], for the [getTaskBadge] in scope. *)
Definition with_badge (getTaskBadge : option Z → string → string) (task : TaskRow.t)
  : TaskWithBadge :=
  {| row := task;
     badge := getTaskBadge (TaskRow.due_date task) (TaskRow.status task);
     assignee :=
       match TaskRow.assignee_id task with
       | Some a =>
           if a =? 0 then None
           else Some {| assignee_id := a;
                        assignee_name := TaskRow.assignee_name task;
                        assignee_email := TaskRow.assignee_email task |}
       | None => None
       end |}.

(** A stored column, by its name. *)
Inductive SqlValue : Type :=
  | SqlNull
  | SqlText (s : string)
  | SqlInt (n : Z)
  | SqlDatetime (ms : Z).

Definition column (c : string) (t : Task.t) : SqlValue :=
  if String.eqb c "title" then SqlText (Task.title t)
  else if String.eqb c "description" then from_option SqlText SqlNull (Task.description t)
  else if String.eqb c "priority" then SqlText (Task.priority t)
  else if String.eqb c "assignee_id" then from_option SqlInt SqlNull (Task.assignee_id t)
  else if String.eqb c "status" then SqlText (Task.status t)
  else if String.eqb c "due_date" then from_option SqlDatetime SqlNull (Task.due_date t)
  else if String.eqb c "created_at" then SqlDatetime (Task.created_at t)
  else if String.eqb c "updated_at" then SqlDatetime (Task.updated_at t)
  else SqlNull.

(** ** Invariants of the store, and other notions *)

(** How bad a badge is, in the order On Track, At Risk, Overdue. *)
Definition severity (badge : string) : nat :=
  if String.eqb badge "Overdue" then 2
  else if String.eqb badge "At Risk" then 1
  else 0.

(** The stored priority and status of every task are values of the
    columns' ENUMs. *)
Definition enums_valid (db : Db) : Prop :=
  ∀ n t, tasks db !! n = Some t →
    Task.priority t ∈ priorities ∧ Task.status t ∈ statuses.

(** Every task's key lies below the table's AUTO_INCREMENT counter. *)
Definition ids_below_counter (db : Db) : Prop :=
  ∀ n, is_Some (tasks db !! n) → n < tasks_auto_increment db.

(** The foreign keys of the comments table: every comment belongs to a
    stored task and to a stored user. *)
Definition comments_reference (db : Db) : Prop :=
  ∀ k c, comments db !! k = Some c →
    is_Some (tasks db !! Comment.task_id c) ∧
    is_Some (users db !! Comment.author_id c).

(** Two requests that carry the same path parameters, query and body: they
    may differ in the Authorization header and in [req.user]. *)
Definition same_input (req req' : Request) : Prop :=
  req_params req = req_params req' ∧
  req_query req = req_query req' ∧
  req_body req = req_body req'.

(** The request [req'] with the parameters, query and body of [r]. *)
Definition with_input_of (r req' : Request) : Request :=
  {| req_authorization := req_authorization req';
     req_params := req_params r; req_query := req_query r; req_body := req_body r;
     req_user := req_user req' |}.

(** A string without the separator of [split(' ')]. *)
Fixpoint no_space (s : string) : bool :=
  match s with
  | EmptyString => true
  | String a r => negb (Ascii.eqb a " ") && no_space r
  end.

(** ** The client (services/api.js, context/TaskContext.js) *)

(** What the interceptors of the axios instance read and write in the
    browser: the item [token] of [localStorage] ([None] for null) and
    [window.location.href]. *)
Record Browser := {
  localStorage_token : option string;
  location_href : string
}.

(** The request interceptor: [if (token) config.headers.Authorization =
    `Bearer ${token}`]. The server reads the header under its lower-case
    name. *)
Definition request_interceptor (b : Browser) (config : Request) : Request :=
  match localStorage_token b with
  | Some token =>
      if negb (String.eqb token "") then
        {| req_authorization := Some ("Bearer " ++ token);
           req_params := req_params config; req_query := req_query config;
           req_body := req_body config; req_user := req_user config |}
      else config
  | None => config
  end.

(** The response interceptor, on the status of the response: its error
    branch runs for the statuses outside 2xx, [None] is an error without a
    response, and [error.response?.status === 401] holds of no other
    status. *)
Definition response_interceptor (status : option Z) (b : Browser) : Browser :=
  match status with
  | Some 401 => {| localStorage_token := None; location_href := "/login" |}
  | _ => b
  end.

(** [getTasksByStatus] of context/TaskContext.js: the four columns of the
    board, from the tasks that the client holds. *)
Definition getTasksByStatus (tasks : list TaskWithBadge)
  : list (string * list TaskWithBadge) :=
  [ ("Backlog",
      List.filter (λ task, String.eqb (TaskRow.status (row task)) "Backlog") tasks);
    ("In Progress",
      List.filter (λ task, String.eqb (TaskRow.status (row task)) "In Progress") tasks);
    ("Review",
      List.filter (λ task, String.eqb (TaskRow.status (row task)) "Review") tasks);
    ("Done",
      List.filter (λ task, String.eqb (TaskRow.status (row task)) "Done") tasks) ].

(** [deleteTask] of context/TaskContext.js, as to the list of tasks that
    the client holds: when the DELETE is answered with a status from 200 to
    299 the task with that id is dropped from the list
    ([prev.filter(task => task.id !== taskId)]); on any other answer the
    request fails and the list stays. *)
Definition deleteTask_tasks (taskId status : Z) (prev : list TaskWithBadge)
  : list TaskWithBadge :=
  if (200 <=? status) && (status <? 300) then
    List.filter (λ task, negb (TaskRow.id (row task) =? taskId)) prev
  else prev.

(** ** The statements of the comments router *)

(** [ORDER BY c.created_at ASC] *)
Fixpoint insert_asc (x : Z * Comment.t) (l : list (Z * Comment.t))
  : list (Z * Comment.t) :=
  match l with
  | [] => [x]
  | y :: r =>
      if Comment.created_at x.2 <=? Comment.created_at y.2 then x :: l
      else y :: insert_asc x r
  end.

Definition order_by_created_at_asc (l : list (Z * Comment.t)) : list (Z * Comment.t) :=
  foldr insert_asc [] l.

(** One row of [comments c JOIN users u ON c.author_id = u.id], in the
    shape of [formattedComments]: no row when the author is not stored. *)
Definition formattedComment (db : Db) (kc : Z * Comment.t) : option FormattedComment :=
  u ← users db !! Comment.author_id kc.2;
  Some {| fc_id := kc.1; fc_taskId := Comment.task_id kc.2;
          fc_body := Comment.body kc.2; fc_createdAt := Comment.created_at kc.2;
          fc_author := {| author_id := Comment.author_id kc.2;
                          author_name := User.name u;
                          author_email := User.email u |} |}.

(** [SELECT ... FROM comments c JOIN users u ON c.author_id = u.id WHERE
    c.task_id = ? ORDER BY c.created_at ASC], then [comments.map(...)]. *)
Definition select_comments (db : Db) (taskId : option JsValue) : list FormattedComment :=
  match to_int taskId with
  | None => []
  | Some n =>
      omap (formattedComment db)
        (order_by_created_at_asc
           (List.filter (λ kc : Z * Comment.t, Comment.task_id kc.2 =? n)
              (map_to_list (comments db))))
  end.

(** [INSERT INTO comments (task_id, author_id, body) VALUES (?, ?, ?)]
    under the key [insertId] that the table's AUTO_INCREMENT counter gives:
    created_at is CURRENT_TIMESTAMP, and the statement is rejected when a
    bound value does not fit its column or a foreign key has no row. *)
Definition insert_comment (db : Db) (insertId now : Z)
    (taskId : JsValue) (authorId : Z) (body : JsValue) : option Db :=
  task_id ← sql_int taskId;
  body' ← sql_text body;
  if bool_decide (is_Some (tasks db !! task_id)) &&
     bool_decide (is_Some (users db !! authorId)) then
    match comments db !! insertId with
    | Some _ => None
    | None =>
        Some {| users := users db; tasks := tasks db;
                comments :=
                  <[insertId := {| Comment.task_id := task_id;
                                   Comment.author_id := authorId;
                                   Comment.body := body';
                                   Comment.created_at := now |}]> (comments db);
                tasks_auto_increment := tasks_auto_increment db |}
    end
  else None.

(** ** A small store and a few requests, for the examples *)

Definition example_isISO8601 (s : string) : bool :=
  String.eqb s "2031-01-01T00:00:00".

Definition example_datetime (s : string) : option Z :=
  if String.eqb s "2031-01-01T00:00:00" then Some 1924992000000 else None.

Definition example_jwt_verify (token : string) : VerifyResult :=
  if String.eqb token "alice" then Decoded 1
  else if String.eqb token "bob" then Decoded 2
  else if String.eqb token "expired" then TokenExpiredError
  else if String.eqb token "early" then NotBeforeError
  else JsonWebTokenError.

Definition alice : User.t :=
  {| User.email := "alice@example.com"; User.password_hash := "$2a$12$a";
     User.name := "Alice" |}.
Definition bob : User.t :=
  {| User.email := "bob@example.com"; User.password_hash := "$2a$12$b";
     User.name := "Bob" |}.

Definition example_task : Task.t :=
  {| Task.title := "Write report"; Task.description := None;
     Task.priority := "Medium"; Task.assignee_id := Some 1;
     Task.status := "Review"; Task.due_date := Some 1000000;
     Task.created_at := 500; Task.updated_at := 500 |}.

Definition example_comment : Comment.t :=
  {| Comment.task_id := 1; Comment.author_id := 1; Comment.body := "First";
     Comment.created_at := 600 |}.

Definition example_db : Db :=
  {| users := <[1 := alice]> (<[2 := bob]> ∅);
     tasks := <[1 := example_task]> ∅;
     comments := <[1 := example_comment]> ∅;
     tasks_auto_increment := 2 |}.

Definition example_request (authorization : option string)
    (params query body : gmap string JsValue) (user : option UserInfo) : Request :=
  {| req_authorization := authorization; req_params := params; req_query := query;
     req_body := body; req_user := user |}.

Definition as_alice : option UserInfo :=
  Some {| user_id := 1; user_email := "alice@example.com"; user_name := "Alice" |}.
Definition as_bob : option UserInfo :=
  Some {| user_id := 2; user_email := "bob@example.com"; user_name := "Bob" |}.

(** PUT /api/tasks/1 with body [{"hasOwnProperty": 1}] *)
Definition put_shadowed_request : Request :=
  example_request (Some "Bearer alice") {[ "id" := JStr "1" ]} ∅
    {[ "hasOwnProperty" := JNum 1 ]} as_alice.

(** PUT /api/tasks/1 with body [{"priority": "High"}] *)
Definition put_priority_request : Request :=
  example_request (Some "Bearer alice") {[ "id" := JStr "1" ]} ∅
    {[ "priority" := JStr "High" ]} as_alice.

(** PUT /api/tasks/1 with body [{"status": "Done"}] *)
Definition put_done_request : Request :=
  example_request (Some "Bearer alice") {[ "id" := JStr "1" ]} ∅
    {[ "status" := JStr "Done" ]} as_alice.

(** POST /api/tasks with body [{"title": "New", "priority": "Low", "status":
    "Done"}] *)
Definition post_done_request : Request :=
  example_request (Some "Bearer alice") ∅ ∅
    (<["title" := JStr "New"]> (<["priority" := JStr "Low"]>
       (<["status" := JStr "Done"]> ∅))) as_alice.

(** The row that request creates at instant 1000. *)
Definition post_done_row : Task.t :=
  {| Task.title := "New"; Task.description := None; Task.priority := "Low";
     Task.assignee_id := None; Task.status := "Backlog"; Task.due_date := None;
     Task.created_at := 1000; Task.updated_at := 1000 |}.

(** PUT /api/comments/1 with body [{"body": "edited"}], by Bob *)
Definition comment_put_by_bob : Request :=
  example_request (Some "Bearer bob") {[ "id" := JStr "1" ]} ∅
    {[ "body" := JStr "edited" ]} as_bob.

(** GET /api/tasks?status=Review *)
Definition get_review_request : Request :=
  example_request (Some "Bearer alice") ∅ {[ "status" := JStr "Review" ]} ∅ None.

(** GET /api/tasks with an expired token *)
Definition get_expired_request : Request :=
  example_request (Some "Bearer expired") ∅ ∅ ∅ None.

(** GET /api/tasks?status=Closed *)
Definition get_closed_request : Request :=
  example_request (Some "Bearer alice") ∅ {[ "status" := JStr "Closed" ]} ∅ as_alice.

(** GET /api/tasks?assignee=1, by Alice *)
Definition get_mine_request : Request :=
  example_request (Some "Bearer alice") ∅ {[ "assignee" := JStr "1" ]} ∅ as_alice.

(** GET /api/tasks/2 *)
Definition get_second_request : Request :=
  example_request (Some "Bearer alice") {[ "id" := JStr "2" ]} ∅ ∅ as_alice.

(** POST /api/tasks with body [{"title": "   ", "priority": "Low"}] *)
Definition post_blank_request : Request :=
  example_request (Some "Bearer alice") ∅ ∅
    (<["title" := JStr "   "]> (<["priority" := JStr "Low"]> ∅)) as_alice.

(** The row that [put_priority_request] leaves at instant 1000. *)
Definition put_priority_row : Task.t :=
  {| Task.title := "Write report"; Task.description := None;
     Task.priority := "High"; Task.assignee_id := Some 1;
     Task.status := "Review"; Task.due_date := Some 1000000;
     Task.created_at := 500; Task.updated_at := 1000 |}.

(** PUT /api/tasks/1 with body [{"due_date": "2031-01-01T00:00:00"}] *)
Definition put_due_request : Request :=
  example_request (Some "Bearer alice") {[ "id" := JStr "1" ]} ∅
    {[ "due_date" := JStr "2031-01-01T00:00:00" ]} as_alice.

(** DELETE /api/tasks/1, DELETE /api/comments/1, by Alice *)
Definition delete_first_request : Request :=
  example_request (Some "Bearer alice") {[ "id" := JStr "1" ]} ∅ ∅ as_alice.

(** PUT /api/comments/1 with body [{"body": " edited "}], by Alice *)
Definition comment_put_by_alice_request : Request :=
  example_request (Some "Bearer alice") {[ "id" := JStr "1" ]} ∅
    {[ "body" := JStr " edited " ]} as_alice.

(** GET /api/comments/task/1 *)
Definition comments_get_request : Request :=
  example_request (Some "Bearer alice") {[ "taskId" := JStr "1" ]} ∅ ∅ as_alice.

(** POST /api/comments with body [{"taskId": 1, "body": " Second ",
    "author_id": 2}], by Alice *)
Definition comment_post_request : Request :=
  example_request (Some "Bearer alice") ∅ ∅
    (<["taskId" := JNum 1]> (<["body" := JStr " Second "]>
       (<["author_id" := JNum 2]> ∅))) as_alice.

(** The comment that request stores under key 2 at instant 1000, as the
    201 response shows it. *)
Definition comment_post_formatted : FormattedComment :=
  {| fc_id := 2; fc_taskId := 1; fc_body := "Second"; fc_createdAt := 1000;
     fc_author := {| author_id := 1; author_name := "Alice";
                     author_email := "alice@example.com" |} |}.

(** Browsers that hold Alice's token and an expired one, and a request
    before the interceptor. *)
Definition browser_alice : Browser :=
  {| localStorage_token := Some "alice"; location_href := "/dashboard" |}.
Definition browser_expired : Browser :=
  {| localStorage_token := Some "expired"; location_href := "/dashboard" |}.
Definition get_tasks_config : Request := example_request None ∅ ∅ ∅ None.

(** PUT /api/tasks/1 with body [{"priority": "High"}], by Bob *)
Definition put_priority_by_bob : Request :=
  example_request (Some "Bearer bob") {[ "id" := JStr "1" ]} ∅
    {[ "priority" := JStr "High" ]} as_bob.

(** U+00A0 NO-BREAK SPACE, in UTF-8 *)
Definition no_break_space : string := String "194" (String "160" "").

(** POST /api/tasks or PUT /api/tasks/1 with body [{"title": "New",
    "priority": "Low", "assignee_id": 99}] *)
Definition put_dangling_request : Request :=
  example_request (Some "Bearer alice") {[ "id" := JStr "1" ]} ∅
    (<["title" := JStr "New"]> (<["priority" := JStr "Low"]>
       (<["assignee_id" := JNum 99]> ∅))) as_alice.

(** POST /api/tasks with body [{"title": "   ", "priority": "Low",
    "assignee_id": 99}] *)
Definition post_blank_dangling_request : Request :=
  example_request (Some "Bearer alice") ∅ ∅
    (<["title" := JStr "   "]> (<["priority" := JStr "Low"]>
       (<["assignee_id" := JNum 99]> ∅))) as_alice.

(** PUT /api/tasks/999 with body [{"assignee_id": 99}] *)
Definition put_missing_dangling_request : Request :=
  example_request (Some "Bearer alice") {[ "id" := JStr "999" ]} ∅
    {[ "assignee_id" := JNum 99 ]} as_alice.

(** PUT /api/comments/1 by Bob, the body a single no-break space *)
Definition comment_put_blank_by_bob : Request :=
  example_request (Some "Bearer bob") {[ "id" := JStr "1" ]} ∅
    {[ "body" := JStr no_break_space ]} as_bob.

(** DELETE /api/tasks/1, by Bob *)
Definition delete_first_by_bob : Request :=
  example_request (Some "Bearer bob") {[ "id" := JStr "1" ]} ∅ ∅ as_bob.

(** GET /api/tasks with a token that is not valid yet, and with Alice's
    token after another scheme name *)
Definition get_early_request : Request :=
  example_request (Some "Bearer early") ∅ ∅ ∅ None.
Definition get_basic_request : Request :=
  example_request (Some "Basic alice") ∅ ∅ ∅ None.

(** ** The routes *)

Section Routes.

(** What the code takes from its libraries and from the store: the ISO 8601
    test of validator.js, the instant MySQL reads from a string bound to a
    DATETIME column ([None] when it rejects the string), and
    [jwt.verify(token, process.env.JWT_SECRET)] at the time of the
    request. *)
Variable validator_isISO8601 : string → bool.
Variable mysql_datetime : string → option Z.
Variable jwt_verify : string → VerifyResult.

(** *** Running the chains *)

Definition run_item (st : option JsValue * bool) (item : ChainItem)
  : option JsValue * bool :=
  let '(v, ok) := st in
  match item with
  | optional => (v, ok)
  | trim => (Some (JStr (trim_string (toString v))), ok)
  | isLength min max =>
      let n := js_length (toString v) in
      (v, ok && (min <=? n)%nat && (n <=? max)%nat)
  | isIn values => (v, ok && bool_decide (toString v ∈ values))
  | isInt min =>
      (v, ok && match to_int v with Some n => min <=? n | None => false end)
  | isISO8601 => (v, ok && validator_isISO8601 (toString v))
  end.

Definition run_chain (c : ValidationChain) (req : Request) : Request * bool :=
  let v := req_at (vc_location c) req !! vc_field c in
  if is_optional (vc_items c) && negb (bool_decide (is_Some v)) then (req, true)
  else
    let '(v', ok) := foldl run_item (v, true) (vc_items c) in
    (match v' with
     | Some x => if bool_decide (v' = v) then req
                 else req_set (vc_location c) (vc_field c) x req
     | None => req
     end, ok).

(** The chains of a route run in order, each on the request the previous
    ones left; [validationResult(req)] is the list of the failed fields. *)
Fixpoint run_chains (cs : list ValidationChain) (req : Request)
  : Request * list string :=
  match cs with
  | [] => (req, [])
  | c :: r =>
      let '(req1, ok) := run_chain c req in
      let '(req2, errors) := run_chains r req1 in
      (req2, if ok then errors else vc_field c :: errors)
  end.

(** [validationResult(req)] after the chains of a route, and its
    [isEmpty()]. *)
Definition validationResult (cs : list ValidationChain) (req : Request) : list string :=
  (run_chains cs req).2.

Definition isEmpty (errors : list string) : bool := bool_decide (errors = []).

(** *** middleware/auth.js *)

Definition set_user (u : UserInfo) (req : Request) : Request :=
  {| req_authorization := req_authorization req; req_params := req_params req;
     req_query := req_query req; req_body := req_body req; req_user := Some u |}.

(** [authHeader && authHeader.split(' ')[1]] *)
Definition bearer_token (req : Request) : option string :=
  match req_authorization req with
  | None => None
  | Some authHeader =>
      if String.eqb authHeader "" then Some ""
      else split " " authHeader !! 1%nat
  end.

(** [inl]: the middleware answered; [inr]: it called [next()] with
    [req.user] set. *)
Definition authenticateToken (req : Request) (db : Db) : Response + Request :=
  let token := bearer_token req in
  if negb (truthy (JStr <$> token)) then
    inl (res_status_json 401 (JMessage "Access token required"))
  else
    match jwt_verify (default "" token) with
    | Decoded userId =>
        match users db !! userId with
        | None => inl (res_status_json 401 (JMessage "User not found"))
        | Some u =>
            inr (set_user {| user_id := userId; user_email := User.email u;
                             user_name := User.name u |} req)
        end
    | JsonWebTokenError => inl (res_status_json 403 (JMessage "Invalid token"))
    | TokenExpiredError => inl (res_status_json 403 (JMessage "Token expired"))
    | NotBeforeError => inl (res_status_json 500 (JMessage "Authentication error"))
    end.

(** A handler serves a request at an instant on a store and leaves a store
    and a response. *)
Definition Handler : Type := Z → Request → Db → Db * Response.

(** [router.use(authenticateToken)], [router.get(path, authenticateToken,
    handler)] *)
Definition protected (handler : Handler) : Handler :=
  λ now req db,
    match authenticateToken req db with
    | inl res => (db, res)
    | inr req' => handler now req' db
    end.

(** *** routes/tasks.js *)

(** GET /api/tasks *)
Definition tasks_get_all_chains : list ValidationChain :=
  [ query "assignee" [optional; isInt 1];
    query "priority" [optional; isIn priorities];
    query "status" [optional; isIn statuses] ].

Definition tasks_get_all : Handler := λ now req db,
  let '(req, errors) := run_chains tasks_get_all_chains req in
  if negb (isEmpty errors) then
    (db, res_status_json 400 (JErrors "Invalid query parameters" errors))
  else
    let assignee := req_query req !! "assignee" in
    let priority := req_query req !! "priority" in
    let status := req_query req !! "status" in
    let conds :=
      ((if truthy assignee then [assignee_id_eq assignee] else []) ++
       (if truthy priority then [priority_eq priority] else []) ++
       (if truthy status then [status_eq status] else []))%list in
    let tasks := select_tasks db conds in
    (db, res_json (JTasks (with_badge (TasksRouter.getTaskBadge now) <$> tasks))).

(** GET /api/tasks/:id, DELETE /api/tasks/:id, DELETE /api/comments/:id *)
Definition id_chains : list ValidationChain := [ param "id" [isInt 1] ].

(** GET /api/tasks/:id *)
Definition tasks_get_one : Handler := λ now req db,
  let '(req, errors) := run_chains id_chains req in
  if negb (isEmpty errors) then
    (db, res_status_json 400 (JErrors "Invalid task ID" errors))
  else
    match select_task db (req_params req !! "id") with
    | None => (db, res_status_json 404 (JMessage "Task not found"))
    | Some task =>
        (db, res_json (JTask (with_badge (TasksRouter.getTaskBadge now) task)))
    end.

(** [INSERT INTO tasks (title, description, priority, assignee_id, due_date)
    VALUES (?, ?, ?, ?, ?)]: the status is the column's DEFAULT 'Backlog',
    both timestamps CURRENT_TIMESTAMP, the key the table's AUTO_INCREMENT
    counter. Returns [result.insertId]. *)
Definition insert_task (db : Db) (now : Z)
    (title description priority assignee_id due_date : JsValue) : option (Z * Db) :=
  title' ← sql_text title;
  description' ← sql_nullable sql_text description;
  priority' ← sql_enum priorities priority;
  assignee_id' ← sql_nullable sql_int assignee_id;
  due_date' ← sql_nullable (λ v, match v with
                                 | JStr s => mysql_datetime s
                                 | _ => None
                                 end) due_date;
  let insertId := tasks_auto_increment db in
  match tasks db !! insertId with
  | Some _ => None
  | None =>
      Some (insertId,
            {| users := users db;
               tasks := <[insertId :=
                           {| Task.title := title';
                              Task.description := description';
                              Task.priority := priority';
                              Task.assignee_id := assignee_id';
                              Task.status := "Backlog";
                              Task.due_date := due_date';
                              Task.created_at := now;
                              Task.updated_at := now |}]> (tasks db);
               comments := comments db;
               tasks_auto_increment := insertId + 1 |})
  end.

(** POST /api/tasks. The driver rejects an undefined bind parameter, as the
    column rejects NULL for the title: both are [JNull] here. *)
Definition tasks_post_chains : list ValidationChain :=
  [ body "title" [trim; isLength 1 255];
    body "description" [optional; trim];
    body "priority" [isIn priorities];
    body "assignee_id" [optional; isInt 1];
    body "due_date" [optional; isISO8601] ].

Definition tasks_post : Handler := λ now req db,
  let '(req, errors) := run_chains tasks_post_chains req in
  if negb (isEmpty errors) then
    (db, res_status_json 400 (JErrors "Validation failed" errors))
  else
    let title := req_body req !! "title" in
    let description := req_body req !! "description" in
    let priority := default (JStr "Medium") (req_body req !! "priority") in
    let assignee_id := req_body req !! "assignee_id" in
    let due_date := req_body req !! "due_date" in
    if truthy assignee_id && negb (bool_decide (is_Some (where_id (users db) assignee_id)))
    then (db, res_status_json 400 (JMessage "Assignee not found"))
    else
      match insert_task db now (default JNull title) (or_null description) priority
              (or_null assignee_id) (or_null due_date) with
      | None => (db, res_status_json 500 (JMessage "Error creating task"))
      | Some (insertId, db') =>
          match select_task_key db' insertId with
          | None => (db', res_status_json 500 (JMessage "Error creating task"))
          | Some task =>
              (db', res_status_json 201
                      (JMessageTask "Task created successfully"
                         (with_badge (TasksRouter.getTaskBadge now) task)))
          end
      end.

Definition updatable_fields : list string :=
  ["title"; "description"; "priority"; "status"; "assignee_id"; "due_date"].

(** The [forEach] that builds [updateFields] and [updateValues]: the pairs
    (column, value) of the fields the body has, in the order of the list.
    [None] when [hasOwnProperty] throws. *)
Fixpoint collect_updates (o : gmap string JsValue) (fields : list string)
  : option (list (string * JsValue)) :=
  match fields with
  | [] => Some []
  | field :: r =>
      has ← js_hasOwnProperty o field;
      rest ← collect_updates o r;
      Some (if has : bool then (field, default JNull (o !! field)) :: rest else rest)
  end.

(** One assignment [column = ?] of the SET list. *)
Definition set_column (t : Task.t) (cv : string * JsValue) : option Task.t :=
  let '(column, v) := cv in
  if String.eqb column "title" then
    x ← sql_text v;
    Some {| Task.title := x; Task.description := Task.description t;
            Task.priority := Task.priority t; Task.assignee_id := Task.assignee_id t;
            Task.status := Task.status t; Task.due_date := Task.due_date t;
            Task.created_at := Task.created_at t; Task.updated_at := Task.updated_at t |}
  else if String.eqb column "description" then
    x ← sql_nullable sql_text v;
    Some {| Task.title := Task.title t; Task.description := x;
            Task.priority := Task.priority t; Task.assignee_id := Task.assignee_id t;
            Task.status := Task.status t; Task.due_date := Task.due_date t;
            Task.created_at := Task.created_at t; Task.updated_at := Task.updated_at t |}
  else if String.eqb column "priority" then
    x ← sql_enum priorities v;
    Some {| Task.title := Task.title t; Task.description := Task.description t;
            Task.priority := x; Task.assignee_id := Task.assignee_id t;
            Task.status := Task.status t; Task.due_date := Task.due_date t;
            Task.created_at := Task.created_at t; Task.updated_at := Task.updated_at t |}
  else if String.eqb column "status" then
    x ← sql_enum statuses v;
    Some {| Task.title := Task.title t; Task.description := Task.description t;
            Task.priority := Task.priority t; Task.assignee_id := Task.assignee_id t;
            Task.status := x; Task.due_date := Task.due_date t;
            Task.created_at := Task.created_at t; Task.updated_at := Task.updated_at t |}
  else if String.eqb column "assignee_id" then
    x ← sql_nullable sql_int v;
    Some {| Task.title := Task.title t; Task.description := Task.description t;
            Task.priority := Task.priority t; Task.assignee_id := x;
            Task.status := Task.status t; Task.due_date := Task.due_date t;
            Task.created_at := Task.created_at t; Task.updated_at := Task.updated_at t |}
  else if String.eqb column "due_date" then
    x ← sql_nullable (λ v, match v with
                           | JStr s => mysql_datetime s
                           | _ => None
                           end) v;
    Some {| Task.title := Task.title t; Task.description := Task.description t;
            Task.priority := Task.priority t; Task.assignee_id := Task.assignee_id t;
            Task.status := Task.status t; Task.due_date := x;
            Task.created_at := Task.created_at t; Task.updated_at := Task.updated_at t |}
  else None.

Fixpoint set_columns (t : Task.t) (updates : list (string * JsValue)) : option Task.t :=
  match updates with
  | [] => Some t
  | cv :: r => t' ← set_column t cv; set_columns t' r
  end.

Definition touch (now : Z) (t : Task.t) : Task.t :=
  {| Task.title := Task.title t; Task.description := Task.description t;
     Task.priority := Task.priority t; Task.assignee_id := Task.assignee_id t;
     Task.status := Task.status t; Task.due_date := Task.due_date t;
     Task.created_at := Task.created_at t; Task.updated_at := now |}.

(** [UPDATE tasks SET c1 = ?, ..., updated_at = CURRENT_TIMESTAMP WHERE
    id = ?] *)
Definition update_task (db : Db) (now : Z) (updates : list (string * JsValue))
    (id : option JsValue) : option Db :=
  match where_id (tasks db) id with
  | None => Some db
  | Some (n, t) =>
      t' ← set_columns t updates;
      Some {| users := users db;
              tasks := <[n := touch now t']> (tasks db);
              comments := comments db;
              tasks_auto_increment := tasks_auto_increment db |}
  end.

(** PUT /api/tasks/:id *)
Definition tasks_put_chains : list ValidationChain :=
  [ param "id" [isInt 1];
    body "title" [optional; trim; isLength 1 255];
    body "description" [optional; trim];
    body "priority" [optional; isIn priorities];
    body "status" [optional; isIn statuses];
    body "assignee_id" [optional; isInt 1];
    body "due_date" [optional; isISO8601] ].

Definition tasks_put : Handler := λ now req db,
  let '(req, errors) := run_chains tasks_put_chains req in
  if negb (isEmpty errors) then
    (db, res_status_json 400 (JErrors "Validation failed" errors))
  else
    let id := req_params req !! "id" in
    match where_id (tasks db) id with
    | None => (db, res_status_json 404 (JMessage "Task not found"))
    | Some _ =>
        if truthy (req_body req !! "assignee_id") &&
           negb (bool_decide (is_Some (where_id (users db) (req_body req !! "assignee_id"))))
        then (db, res_status_json 400 (JMessage "Assignee not found"))
        else
          match collect_updates (req_body req) updatable_fields with
          | None => (db, res_status_json 500 (JMessage "Error updating task"))
          | Some [] => (db, res_status_json 400 (JMessage "No fields to update"))
          | Some updates =>
              match update_task db now updates id with
              | None => (db, res_status_json 500 (JMessage "Error updating task"))
              | Some db' =>
                  match select_task db' id with
                  | None => (db', res_status_json 500 (JMessage "Error updating task"))
                  | Some task =>
                      (db', res_json
                              (JMessageTask "Task updated successfully"
                                 (with_badge (TasksRouter.getTaskBadge now) task)))
                  end
              end
          end
    end.

(** DELETE /api/tasks/:id *)
Definition tasks_delete : Handler := λ now req db,
  let '(req, errors) := run_chains id_chains req in
  if negb (isEmpty errors) then
    (db, res_status_json 400 (JErrors "Invalid task ID" errors))
  else
    let id := req_params req !! "id" in
    match where_id (tasks db) id with
    | None => (db, res_status_json 404 (JMessage "Task not found"))
    | Some _ => (delete_task db id, res_json (JMessage "Task deleted successfully"))
    end.

(** *** routes/users.js *)

(** GET /api/users/me/tasks. [req.user.id] throws when no middleware set
    [req.user]. *)
Definition users_me_tasks : Handler := λ now req db,
  match req_user req with
  | None => (db, res_status_json 500 (JMessage "Error fetching user tasks"))
  | Some user =>
      let userId := user_id user in
      let tasks := select_tasks db [assignee_id_is userId] in
      (db, res_json (JTasks (with_badge (UsersRouter.getTaskBadge now) <$> tasks)))
  end.

(** *** routes/comments.js *)

(** PUT /api/comments/:id *)
Definition comments_put_chains : list ValidationChain :=
  [ param "id" [isInt 1];
    body "body" [trim; isLength 1 1000] ].

Definition comments_put : Handler := λ now req db,
  let '(req, errors) := run_chains comments_put_chains req in
  if negb (isEmpty errors) then
    (db, res_status_json 400 (JErrors "Validation failed" errors))
  else
    let id := req_params req !! "id" in
    let body := req_body req !! "body" in
    match req_user req with
    | None => (db, res_status_json 500 (JMessage "Error updating comment"))
    | Some user =>
        let userId := user_id user in
        match where_id (comments db) id with
        | None => (db, res_status_json 404 (JMessage "Comment not found"))
        | Some (_, c) =>
            if negb (Comment.author_id c =? userId) then
              (db, res_status_json 403
                     (JMessage "Access denied: You can only edit your own comments"))
            else
              match update_comment db body id with
              | None => (db, res_status_json 500 (JMessage "Error updating comment"))
              | Some db' =>
                  match select_comment db' id with
                  | None => (db', res_status_json 500 (JMessage "Error updating comment"))
                  | Some comment =>
                      (db', res_json (JMessageComment "Comment updated successfully" comment))
                  end
              end
        end
    end.

(** DELETE /api/comments/:id *)
Definition comments_delete : Handler := λ now req db,
  let '(req, errors) := run_chains id_chains req in
  if negb (isEmpty errors) then
    (db, res_status_json 400 (JErrors "Invalid comment ID" errors))
  else
    let id := req_params req !! "id" in
    match req_user req with
    | None => (db, res_status_json 500 (JMessage "Error deleting comment"))
    | Some user =>
        let userId := user_id user in
        match where_id (comments db) id with
        | None => (db, res_status_json 404 (JMessage "Comment not found"))
        | Some (_, c) =>
            if negb (Comment.author_id c =? userId) then
              (db, res_status_json 403
                     (JMessage "Access denied: You can only delete your own comments"))
            else (delete_comment db id, res_json (JMessage "Comment deleted successfully"))
        end
    end.

(** *** server.js: the routers, each behind [authenticateToken] *)

Inductive Route : Type :=
  | GET_tasks
  | GET_tasks_id
  | POST_tasks
  | PUT_tasks_id
  | DELETE_tasks_id
  | GET_users_me_tasks
  | PUT_comments_id
  | DELETE_comments_id.

Definition handler_of (r : Route) : Handler :=
  match r with
  | GET_tasks => tasks_get_all
  | GET_tasks_id => tasks_get_one
  | POST_tasks => tasks_post
  | PUT_tasks_id => tasks_put
  | DELETE_tasks_id => tasks_delete
  | GET_users_me_tasks => users_me_tasks
  | PUT_comments_id => comments_put
  | DELETE_comments_id => comments_delete
  end.

Definition app (r : Route) : Handler := protected (handler_of r).


(** *** The chains, seen from one member of the request *)

(** What one chain does to the value of its member, and whether it
    passed. *)
Definition chain_value (items : list ChainItem) (v : option JsValue)
  : option JsValue * bool :=
  if is_optional items && negb (bool_decide (is_Some v)) then (v, true)
  else foldl run_item (v, true) items.

Definition loc_eqb (a b : Location) : bool :=
  match a, b with
  | in_body, in_body | in_params, in_params | in_query, in_query => true
  | _, _ => false
  end.

Definition chain_at (l : Location) (f : string) (c : ValidationChain) : bool :=
  loc_eqb l (vc_location c) && String.eqb f (vc_field c).

(** The value of member [f] of [req[l]] once the chains have run. *)
Fixpoint chains_value (cs : list ValidationChain) (l : Location) (f : string)
    (v : option JsValue) : option JsValue :=
  match cs with
  | [] => v
  | c :: r =>
      chains_value r l f (if chain_at l f c then (chain_value (vc_items c) v).1 else v)
  end.

(** The errors of the chains, from the members of the request alone. *)
Fixpoint chains_errors (cs : list ValidationChain)
    (get : Location → string → option JsValue) : list string :=
  match cs with
  | [] => []
  | c :: r =>
      let vo := chain_value (vc_items c) (get (vc_location c) (vc_field c)) in
      let errors :=
        chains_errors r (λ l f, if chain_at l f c then vo.1 else get l f) in
      if vo.2 then errors else vc_field c :: errors
  end.

(** *** Notions of the specification *)

(** A returned task is a stored row, joined with its assignee, and carries
    the classifier's verdict on the stored due date and status. *)
Definition decorated (now : Z) (db : Db) (t : TaskWithBadge) : Prop :=
  ∃ n stored,
    tasks db !! n = Some stored ∧
    row t = task_row db n stored ∧
    badge t = TasksRouter.getTaskBadge now (Task.due_date stored) (Task.status stored).

(** A task's assignee, if set, references an existing user. *)
Definition assignee_exists (db : Db) : Prop :=
  ∀ n t a, tasks db !! n = Some t → Task.assignee_id t = Some a → is_Some (users db !! a).

(** The row after [UPDATE tasks SET status = ?, updated_at =
    CURRENT_TIMESTAMP]. *)
Definition with_status (s : string) (now : Z) (t : Task.t) : Task.t :=
  {| Task.title := Task.title t; Task.description := Task.description t;
     Task.priority := Task.priority t; Task.assignee_id := Task.assignee_id t;
     Task.status := s; Task.due_date := Task.due_date t;
     Task.created_at := Task.created_at t; Task.updated_at := now |}.

(** The creation rule as the specification words it: the status named by
    the request when it names one, Backlog otherwise. *)
Definition status_unless_specified (req : Request) : string :=
  match req_body req !! "status" with
  | Some v => toString (Some v)
  | None => "Backlog"
  end.

(** *** routes/comments.js, the two other routes *)

(** GET /api/comments/task/:taskId. The answer is a response with a
    message ([inl]) or, with status 200, the array of the formatted
    comments ([inr]). *)
Definition comments_get_chains : list ValidationChain :=
  [ param "taskId" [isInt 1] ].

Definition comments_get (now : Z) (req : Request) (db : Db)
  : Db * (Response + list FormattedComment) :=
  let '(req, errors) := run_chains comments_get_chains req in
  if negb (isEmpty errors) then
    (db, inl (res_status_json 400 (JErrors "Invalid task ID" errors)))
  else
    let taskId := req_params req !! "taskId" in
    match where_id (tasks db) taskId with
    | None => (db, inl (res_status_json 404 (JMessage "Task not found")))
    | Some _ => (db, inr (select_comments db taskId))
    end.

(** POST /api/comments. [insertId] is the value of the AUTO_INCREMENT
    counter of the comments table at the request, read as the clock is. *)
Definition comments_post_chains : list ValidationChain :=
  [ body "taskId" [isInt 1];
    body "body" [trim; isLength 1 1000] ].

Definition comments_post (insertId : Z) : Handler := λ now req db,
  let '(req, errors) := run_chains comments_post_chains req in
  if negb (isEmpty errors) then
    (db, res_status_json 400 (JErrors "Validation failed" errors))
  else
    let taskId := req_body req !! "taskId" in
    let body := req_body req !! "body" in
    match req_user req with
    | None => (db, res_status_json 500 (JMessage "Error creating comment"))
    | Some user =>
        let authorId := user_id user in
        match where_id (tasks db) taskId with
        | None => (db, res_status_json 404 (JMessage "Task not found"))
        | Some _ =>
            match insert_comment db insertId now (default JNull taskId) authorId
                    (default JNull body) with
            | None => (db, res_status_json 500 (JMessage "Error creating comment"))
            | Some db' =>
                match select_comment_key db' insertId with
                | None => (db', res_status_json 500 (JMessage "Error creating comment"))
                | Some comment =>
                    (db', res_status_json 201
                            (JMessageComment "Comment created successfully" comment))
                end
            end
        end
    end.

(** A body that PUT /api/tasks/:id accepts and writes: it has no member
    named hasOwnProperty and one of the six fields at least, and each field
    it has passes its validators and is a value its column takes (the
    bounds in bytes are on the safe side of VARCHAR(255), which counts
    characters, and are those of TEXT, which holds 65535 bytes). *)
Definition acceptable_update (db : Db) (o : gmap string JsValue) : Prop :=
  o !! "hasOwnProperty" = None ∧
  (∃ c, c ∈ updatable_fields ∧ is_Some (o !! c)) ∧
  (∀ v, o !! "title" = Some v →
        (1 ≤ js_length (trim_string (toString (Some v))) ≤ 255)%nat ∧
        (String.length (trim_string (toString (Some v))) ≤ 255)%nat) ∧
  (∀ v, o !! "description" = Some v →
        Z.of_nat (String.length (trim_string (toString (Some v)))) ≤ 65535) ∧
  (∀ v, o !! "priority" = Some v → ∃ s, v = JStr s ∧ s ∈ priorities) ∧
  (∀ v, o !! "status" = Some v → ∃ s, v = JStr s ∧ s ∈ statuses) ∧
  (∀ v, o !! "assignee_id" = Some v →
        ∃ a, to_int (Some v) = Some a ∧ 1 ≤ a ∧ is_Some (users db !! a)) ∧
  (∀ v, o !! "due_date" = Some v →
        ∃ s, v = JStr s ∧ validator_isISO8601 s = true ∧ is_Some (mysql_datetime s)).

Ltac elem_cases H :=
  repeat (apply elem_of_cons in H as [H | H]);
  [ .. | apply elem_of_nil in H; destruct H ].

Ltac elem_solve :=
  repeat first [apply list_elem_of_here | apply list_elem_of_further].

(** A response that carries no task. *)
Ltac no_tasks :=
  simpl; let H := fresh in intros H; apply elem_of_nil in H; destruct H.

(** [tauto] and [intuition] read a function of the context as an
    implication and apply it to whatever inhabits its domain: the library
    functions of the section are put out of their reach where the goal does
    not mention them. *)
Ltac forget_libraries :=
  try clear jwt_verify; try clear mysql_datetime; try clear validator_isISO8601.

Ltac pure_tauto := forget_libraries; tauto.

(** ** Validation chains *)

Lemma chain_at_spec l f c :
  chain_at l f c = true ↔ l = vc_location c ∧ f = vc_field c.
Proof.
  unfold chain_at. rewrite andb_true_iff, String.eqb_eq.
  destruct l, (vc_location c); simpl; forget_libraries; intuition congruence.
Qed.

Lemma req_at_req_set l f x req l' f' :
  req_at l' (req_set l f x req) !! f' =
    if loc_eqb l' l && String.eqb f' f then Some x else req_at l' req !! f'.
Proof.
  destruct l, l'; simpl; try reflexivity;
    (destruct (String.eqb f' f) eqn:E;
     [apply String.eqb_eq in E; subst; apply lookup_insert_eq
     |apply String.eqb_neq in E; apply lookup_insert_ne; congruence]).
Qed.

Lemma req_user_req_set l f x req : req_user (req_set l f x req) = req_user req.
Proof. destruct l; reflexivity. Qed.

Lemma run_item_keeps_some st item x :
  st.1 = Some x → is_Some (run_item st item).1.
Proof. destruct st as [v ok], item; simpl; intros ->; eauto. Qed.

Lemma foldl_run_item_none items v ok :
  (foldl run_item (v, ok) items).1 = None → v = None.
Proof.
  revert v ok. induction items as [ | item items IH]; intros v ok; [done | ].
  cbn [foldl]. intros H. destruct v as [x | ]; [ | done].
  destruct (run_item_keeps_some (Some x, ok) item x eq_refl) as [y Hy].
  destruct (run_item (Some x, ok) item) as [v' ok'] eqn:E. simpl in Hy. subst v'.
  apply IH in H. discriminate.
Qed.

Lemma run_chain_at c req l f :
  req_at l (run_chain c req).1 !! f =
    if chain_at l f c
    then (chain_value (vc_items c) (req_at l req !! f)).1
    else req_at l req !! f.
Proof.
  unfold run_chain, chain_value.
  destruct (chain_at l f c) eqn:Hat.
  - apply chain_at_spec in Hat as [-> ->].
    destruct (is_optional (vc_items c) && _); [reflexivity | ].
    destruct (foldl run_item _ _) as [v' ok] eqn:E. simpl.
    destruct v' as [x | ].
    + case_bool_decide as Hv; [congruence | ].
      rewrite req_at_req_set.
      assert (Ht : chain_at (vc_location c) (vc_field c) c = true)
        by (apply chain_at_spec; done).
      unfold chain_at in Ht. rewrite Ht. reflexivity.
    + apply (f_equal fst) in E. simpl in E. apply foldl_run_item_none in E. exact E.
  - destruct (is_optional (vc_items c) && _); [reflexivity | ].
    destruct (foldl run_item _ _) as [v' ok] eqn:E. simpl.
    destruct v' as [x | ]; [ | reflexivity].
    case_bool_decide; [reflexivity | ].
    rewrite req_at_req_set. unfold chain_at in Hat. rewrite Hat. reflexivity.
Qed.

Lemma run_chain_ok c req :
  (run_chain c req).2 =
    (chain_value (vc_items c) (req_at (vc_location c) req !! vc_field c)).2.
Proof.
  unfold run_chain, chain_value.
  destruct (is_optional (vc_items c) && _); [reflexivity | ].
  destruct (foldl run_item _ _) as [v' ok]. reflexivity.
Qed.

Lemma run_chain_user c req : req_user (run_chain c req).1 = req_user req.
Proof.
  unfold run_chain.
  destruct (is_optional (vc_items c) && _); [reflexivity | ].
  destruct (foldl run_item _ _) as [v' ok]. simpl.
  destruct v'; [ | reflexivity].
  case_bool_decide; [reflexivity | apply req_user_req_set].
Qed.

Lemma run_chains_at cs req l f :
  req_at l (run_chains cs req).1 !! f = chains_value cs l f (req_at l req !! f).
Proof.
  revert req. induction cs as [ | c r IH]; intros req; simpl; [reflexivity | ].
  destruct (run_chain c req) as [req1 ok] eqn:E1.
  destruct (run_chains r req1) as [req2 errors] eqn:E2. simpl.
  specialize (IH req1). rewrite E2 in IH. simpl in IH. rewrite IH.
  f_equal. rewrite <- (run_chain_at c req l f), E1. reflexivity.
Qed.

Lemma chains_errors_ext cs get get' :
  (∀ l f, get l f = get' l f) → chains_errors cs get = chains_errors cs get'.
Proof.
  revert get get'. induction cs as [ | c r IH]; intros get get' H; simpl; [reflexivity | ].
  rewrite H.
  rewrite (IH _ (λ l f, if chain_at l f c
                        then (chain_value (vc_items c) (get' (vc_location c) (vc_field c))).1
                        else get' l f)); [reflexivity | ].
  intros l f. destruct (chain_at l f c); [reflexivity | apply H].
Qed.

Lemma run_chains_errors cs req :
  (run_chains cs req).2 = chains_errors cs (λ l f, req_at l req !! f).
Proof.
  revert req. induction cs as [ | c r IH]; intros req; simpl; [reflexivity | ].
  destruct (run_chain c req) as [req1 ok] eqn:E1.
  destruct (run_chains r req1) as [req2 errors] eqn:E2. simpl.
  specialize (IH req1). rewrite E2 in IH. simpl in IH.
  rewrite <- (run_chain_ok c req), E1. simpl.
  assert (errors = chains_errors r
            (λ l f, if chain_at l f c
                    then (chain_value (vc_items c)
                            (req_at (vc_location c) req !! vc_field c)).1
                    else req_at l req !! f)) as ->; [ | reflexivity].
  rewrite IH. apply chains_errors_ext. intros l f.
  replace req1 with (run_chain c req).1 by (rewrite E1; reflexivity).
  rewrite run_chain_at.
  destruct (chain_at l f c) eqn:Hat; [ | reflexivity].
  apply chain_at_spec in Hat as [-> ->]. reflexivity.
Qed.

Lemma run_chains_user cs req : req_user (run_chains cs req).1 = req_user req.
Proof.
  revert req. induction cs as [ | c r IH]; intros req; simpl; [reflexivity | ].
  destruct (run_chain c req) as [req1 ok] eqn:E1.
  destruct (run_chains r req1) as [req2 errors] eqn:E2. simpl.
  specialize (IH req1). rewrite E2 in IH. simpl in IH. rewrite IH.
  rewrite <- (run_chain_user c req), E1. reflexivity.
Qed.

(** The three facts a handler needs about the request it reads after its
    chains. *)
Lemma run_chains_view cs req req' errors :
  run_chains cs req = (req', errors) →
  (∀ l f, req_at l req' !! f = chains_value cs l f (req_at l req !! f)) ∧
  errors = chains_errors cs (λ l f, req_at l req !! f) ∧
  req_user req' = req_user req.
Proof.
  intros H. split; [ | split].
  - intros l f. rewrite <- run_chains_at, H. reflexivity.
  - rewrite <- run_chains_errors, H. reflexivity.
  - rewrite <- (run_chains_user cs req), H. reflexivity.
Qed.

Lemma chains_errors_nil c r get :
  chains_errors (c :: r) get = [] →
  (chain_value (vc_items c) (get (vc_location c) (vc_field c))).2 = true ∧
  chains_errors r
    (λ l f, if chain_at l f c
            then (chain_value (vc_items c) (get (vc_location c) (vc_field c))).1
            else get l f) = [].
Proof.
  simpl. destruct (chain_value _ _).2; [pure_tauto | discriminate].
Qed.

Lemma parse_int_nonempty s n : parse_int s = Some n → s ≠ "".
Proof. intros H ->. discriminate. Qed.

(** A value that [isInt({ min: 1 })] accepts is truthy. *)
Lemma to_int_truthy v n : to_int v = Some n → 1 ≤ n → truthy v = true.
Proof.
  destruct v as [[ | [ | ] | m | s] | ]; try discriminate.
  - intros H Hn. simpl. apply negb_true_iff, Z.eqb_neq. intros ->.
    vm_compute in H. injection H as <-. lia.
  - simpl. intros H _. apply parse_int_nonempty in H.
    apply negb_true_iff, String.eqb_neq. exact H.
Qed.

Lemma chain_value_isInt min v :
  (chain_value [isInt min] v).2 = true → ∃ n, to_int v = Some n ∧ min ≤ n.
Proof.
  unfold chain_value. simpl. destruct (to_int v) as [n | ]; [ | discriminate].
  intros H. exists n. split; [reflexivity | lia].
Qed.

Lemma chain_value_optional_isInt min v :
  (chain_value [optional; isInt min] v).2 = true →
  v = None ∨ ∃ n, to_int v = Some n ∧ min ≤ n.
Proof.
  unfold chain_value. simpl. case_bool_decide as Hv; simpl.
  - destruct (to_int v) as [n | ]; [ | discriminate].
    intros H. right. exists n. split; [reflexivity | lia].
  - intros _. left. destruct v; [exfalso; eauto | reflexivity].
Qed.

Lemma chain_value_optional_isIn values v :
  (chain_value [optional; isIn values] v).2 = true →
  v = None ∨ toString v ∈ values.
Proof.
  unfold chain_value. simpl. case_bool_decide as Hv; simpl.
  - case_bool_decide; [pure_tauto | discriminate].
  - intros _. left. destruct v; [exfalso; eauto | reflexivity].
Qed.

(** A chain without sanitizer leaves the value alone. *)
Lemma chain_value_optional_1 item v :
  item ≠ trim → (chain_value [optional; item] v).1 = v.
Proof.
  intros H. unfold chain_value. simpl.
  destruct (negb _); [reflexivity | ]. destruct item; done.
Qed.

(** A chain with [optional()] leaves an absent member absent. *)
Lemma chain_value_optional_None items :
  is_optional items = true → chain_value items None = (None, true).
Proof.
  intros H. unfold chain_value. rewrite H. rewrite bool_decide_eq_false_2; [done | ].
  intros [x Hx]. discriminate.
Qed.

(** *** The chains of PUT /api/tasks/:id *)

Lemma tasks_put_chains_params f v :
  chains_value tasks_put_chains in_params f v = v.
Proof.
  unfold tasks_put_chains. cbn [chains_value chain_at loc_eqb vc_location param body andb].
  destruct (String.eqb f (vc_field _)); reflexivity.
Qed.

Lemma tasks_put_chains_body_None f :
  chains_value tasks_put_chains in_body f None = None.
Proof.
  unfold tasks_put_chains.
  cbn [chains_value chain_at loc_eqb vc_location vc_field vc_items param body andb].
  repeat match goal with
         | |- context [if String.eqb f ?s then _ else _] =>
             destruct (String.eqb f s)
         end; reflexivity.
Qed.

Lemma tasks_put_chains_body_other f v :
  f ≠ "title" → f ≠ "description" →
  chains_value tasks_put_chains in_body f v = v.
Proof.
  intros H1 H2. apply String.eqb_neq in H1, H2.
  unfold tasks_put_chains.
  cbn [chains_value chain_at loc_eqb vc_location vc_field vc_items param body andb].
  rewrite H1, H2.
  repeat match goal with
         | |- context [if String.eqb f ?s then _ else _] =>
             destruct (String.eqb f s)
         end; try reflexivity;
    repeat (rewrite chain_value_optional_1 by discriminate); reflexivity.
Qed.

Lemma tasks_put_run req req' errors :
  run_chains tasks_put_chains req = (req', errors) →
  req_user req' = req_user req ∧
  req_params req' !! "id" = req_params req !! "id" ∧
  (∀ f, req_body req !! f = None → req_body req' !! f = None) ∧
  (∀ f, f ≠ "title" → f ≠ "description" → req_body req' !! f = req_body req !! f) ∧
  errors = validationResult tasks_put_chains req.
Proof.
  intros H. unfold validationResult. rewrite H.
  apply run_chains_view in H as (Hat & _ & Hu).
  split; [exact Hu | ]. split; [ | split; [ | split; [ | reflexivity]]].
  - rewrite (Hat in_params). apply tasks_put_chains_params.
  - intros f Hf. rewrite (Hat in_body). simpl. rewrite Hf.
    apply tasks_put_chains_body_None.
  - intros f H1 H2. rewrite (Hat in_body). apply tasks_put_chains_body_other; assumption.
Qed.

(** What a request that passed the chains of PUT /api/tasks/:id carries. *)
Lemma tasks_put_valid req :
  validationResult tasks_put_chains req = [] →
  (∃ n, to_int (req_params req !! "id") = Some n ∧ 1 ≤ n) ∧
  (req_body req !! "status" = None ∨ toString (req_body req !! "status") ∈ statuses) ∧
  (req_body req !! "assignee_id" = None ∨
   ∃ a, to_int (req_body req !! "assignee_id") = Some a ∧ 1 ≤ a).
Proof.
  unfold validationResult. rewrite run_chains_errors. unfold tasks_put_chains.
  intros H.
  apply chains_errors_nil in H as [Hid H].
  apply chains_errors_nil in H as [_ H].
  apply chains_errors_nil in H as [_ H].
  apply chains_errors_nil in H as [_ H].
  apply chains_errors_nil in H as [Hstatus H].
  apply chains_errors_nil in H as [Hassignee _].
  cbn [chain_at loc_eqb vc_location vc_field vc_items param body andb]
    in Hid, Hstatus, Hassignee.
  simpl String.eqb in Hstatus, Hassignee.
  cbv iota in Hstatus, Hassignee.
  split; [ | split].
  - apply chain_value_isInt in Hid. exact Hid.
  - apply chain_value_optional_isIn in Hstatus. exact Hstatus.
  - apply chain_value_optional_isInt in Hassignee. exact Hassignee.
Qed.

Lemma isEmpty_nil : isEmpty [] = true.
Proof. reflexivity. Qed.

Lemma isEmpty_true errors : isEmpty errors = true → errors = [].
Proof. unfold isEmpty. intros H. apply bool_decide_eq_true in H. exact H. Qed.

Lemma tasks_put_validationResult req :
  validationResult tasks_put_chains req = [] ↔
    (chain_value [isInt 1] (req_params req !! "id")).2 = true ∧
    (chain_value [optional; trim; isLength 1 255] (req_body req !! "title")).2 = true ∧
    (chain_value [optional; trim] (req_body req !! "description")).2 = true ∧
    (chain_value [optional; isIn priorities] (req_body req !! "priority")).2 = true ∧
    (chain_value [optional; isIn statuses] (req_body req !! "status")).2 = true ∧
    (chain_value [optional; isInt 1] (req_body req !! "assignee_id")).2 = true ∧
    (chain_value [optional; isISO8601] (req_body req !! "due_date")).2 = true.
Proof.
  unfold validationResult. rewrite run_chains_errors. unfold tasks_put_chains.
  cbn [chains_errors chain_at loc_eqb vc_location vc_field vc_items param body andb req_at].
  simpl String.eqb. cbv iota.
  repeat match goal with
         | |- context [(chain_value ?i ?v).2] => destruct (chain_value i v).2
         end; split; try discriminate; try pure_tauto;
    forget_libraries; intuition discriminate.
Qed.

(** The empty-update guard of PUT /api/tasks/:id: a body with none of the
    six fields is answered 400 when the body has no member named
    hasOwnProperty, and 500 when it has one; nothing is written. *)
Lemma tasks_put_no_fields now req db n t :
  to_int (req_params req !! "id") = Some n → 1 ≤ n →
  tasks db !! n = Some t →
  (∀ f, f ∈ updatable_fields → req_body req !! f = None) →
  tasks_put now req db =
    (db, match req_body req !! "hasOwnProperty" with
         | Some _ => res_status_json 500 (JMessage "Error updating task")
         | None => res_status_json 400 (JMessage "No fields to update")
         end).
Proof.
  intros Hid Hn Ht Hnone.
  assert (Hf : ∀ f, f ∈ updatable_fields → req_body req !! f = None) by exact Hnone.
  unfold updatable_fields in Hf.
  assert (Hvalid : validationResult tasks_put_chains req = []).
  { apply tasks_put_validationResult.
    rewrite !Hf by elem_solve.
    repeat split; try reflexivity.
    unfold chain_value. simpl. rewrite Hid. apply Z.leb_le in Hn. rewrite Hn. reflexivity. }
  unfold tasks_put.
  destruct (run_chains tasks_put_chains req) as [req' errors] eqn:Hrun.
  apply tasks_put_run in Hrun as (_ & Hparam & Habsent & Hother & ->).
  rewrite Hvalid, isEmpty_nil. cbn [negb]. rewrite Hparam.
  unfold where_id at 1. rewrite Hid. simpl. rewrite Ht. simpl.
  rewrite (Habsent "assignee_id") by (apply Hf; elem_solve). cbn [truthy andb].
  unfold collect_updates, updatable_fields, js_hasOwnProperty.
  rewrite (Hother "hasOwnProperty") by discriminate.
  destruct (req_body req !! "hasOwnProperty"); [reflexivity | ].
  rewrite !Habsent by (apply Hf; elem_solve).
  reflexivity.
Qed.

(** ** The UPDATE statement of PUT /api/tasks/:id *)

Lemma collect_updates_elem o fields updates c v :
  collect_updates o fields = Some updates → (c, v) ∈ updates →
  c ∈ fields ∧ o !! c = Some v.
Proof.
  revert updates. induction fields as [ | f r IH]; intros updates; simpl.
  - intros [= <-] H. inversion H.
  - unfold js_hasOwnProperty.
    destruct (o !! "hasOwnProperty"); [discriminate | ]. simpl.
    destruct (collect_updates o r) as [rest | ] eqn:E; [ | discriminate]. simpl.
    intros [= <-] H.
    case_bool_decide as Hf.
    + apply elem_of_cons in H as [[= -> ->] | H].
      * split; [left | ]. destruct Hf as [x ->]. reflexivity.
      * destruct (IH rest eq_refl H) as [H1 H2]. split; [right | ]; assumption.
    + destruct (IH rest eq_refl H) as [H1 H2]. split; [right | ]; assumption.
Qed.

Lemma set_column_frame t t' c v c' :
  set_column t (c, v) = Some t' → c' ≠ c → column c' t' = column c' t.
Proof.
  unfold set_column. intros H Hne.
  repeat match type of H with
         | (if String.eqb c ?s then _ else _) = _ =>
             let E := fresh "E" in
             destruct (String.eqb c s) eqn:E;
             [apply String.eqb_eq in E; subst c;
              apply bind_Some in H as (x & _ & [= <-]);
              apply String.eqb_neq in Hne; unfold column; simpl;
              repeat match goal with
                     | |- context [String.eqb c' ?s'] =>
                         let E' := fresh "E" in
                         destruct (String.eqb c' s') eqn:E'; try reflexivity;
                         try congruence
                     end
             | ]
         end.
  discriminate.
Qed.

Lemma set_columns_frame t t' updates c :
  set_columns t updates = Some t' → (∀ v, (c, v) ∉ updates) →
  column c t' = column c t.
Proof.
  revert t. induction updates as [ | [c0 v0] r IH]; intros t; simpl.
  - intros [= ->] _. reflexivity.
  - intros H Hnot. apply bind_Some in H as (t1 & H1 & H2).
    rewrite (IH t1 H2).
    + apply (set_column_frame t t1 c0 v0); [exact H1 | ].
      intros ->. apply (Hnot v0). left.
    + intros v Hv. apply (Hnot v). right. exact Hv.
Qed.

Lemma column_touch now t c : c ≠ "updated_at" → column c (touch now t) = column c t.
Proof.
  intros H. apply String.eqb_neq in H. unfold column, touch. simpl. rewrite H.
  reflexivity.
Qed.

Lemma where_id_Some {A : Type} (table : gmap Z A) v n r :
  to_int v = Some n → table !! n = Some r → where_id table v = Some (n, r).
Proof. intros H1 H2. unfold where_id. rewrite H1. simpl. rewrite H2. reflexivity. Qed.

Lemma where_id_inv {A : Type} (table : gmap Z A) v n r :
  where_id table v = Some (n, r) → to_int v = Some n ∧ table !! n = Some r.
Proof.
  unfold where_id. intros H.
  apply bind_Some in H as (m & H1 & H).
  apply bind_Some in H as (x & H2 & [= <- <-]). done.
Qed.

Lemma update_task_inv db now updates id n t db' :
  update_task db now updates id = Some db' →
  to_int id = Some n → tasks db !! n = Some t →
  ∃ t', set_columns t updates = Some t' ∧
        tasks db' = <[n := touch now t']> (tasks db) ∧
        users db' = users db ∧ comments db' = comments db.
Proof.
  intros H Hid Ht. unfold update_task in H.
  rewrite (where_id_Some _ _ _ _ Hid Ht) in H.
  apply bind_Some in H as (t' & H1 & [= <-]).
  exists t'. simpl. done.
Qed.

(** ** Creation and status transitions *)

Lemma insert_task_inv db now title description priority assignee due insertId db' :
  insert_task db now title description priority assignee due = Some (insertId, db') →
  ∃ t, tasks db' = <[insertId := t]> (tasks db) ∧
       tasks db !! insertId = None ∧
       users db' = users db ∧ comments db' = comments db ∧
       Task.status t = "Backlog" ∧
       sql_nullable sql_int assignee = Some (Task.assignee_id t).
Proof.
  unfold insert_task. intros H.
  apply bind_Some in H as (x1 & H1 & H).
  apply bind_Some in H as (x2 & H2 & H).
  apply bind_Some in H as (x3 & H3 & H).
  apply bind_Some in H as (x4 & H4 & H).
  apply bind_Some in H as (x5 & H5 & H).
  destruct (tasks db !! tasks_auto_increment db) eqn:E; [discriminate | ].
  injection H as <- <-. eexists. simpl. done.
Qed.

Lemma select_task_inv db id task :
  select_task db id = Some task →
  ∃ n t, to_int id = Some n ∧ tasks db !! n = Some t ∧ task = task_row db n t.
Proof.
  unfold select_task. intros H.
  apply bind_Some in H as ([n t] & H1 & [= <-]).
  apply where_id_inv in H1 as [H1 H2]. eauto.
Qed.

Lemma select_task_Some db id n t :
  to_int id = Some n → tasks db !! n = Some t →
  select_task db id = Some (task_row db n t).
Proof.
  intros H1 H2. unfold select_task. rewrite (where_id_Some _ _ _ _ H1 H2). reflexivity.
Qed.

Lemma select_task_key_inv db n task :
  select_task_key db n = Some task →
  ∃ t, tasks db !! n = Some t ∧ task = task_row db n t.
Proof.
  unfold select_task_key. intros H.
  apply bind_Some in H as (t & Ht & [= <-]). eauto.
Qed.

Lemma select_task_key_Some db n t :
  tasks db !! n = Some t → select_task_key db n = Some (task_row db n t).
Proof. intros H. unfold select_task_key. rewrite H. reflexivity. Qed.

(** Every row that POST /api/tasks adds has status Backlog, whatever the
    body is. *)
Lemma tasks_post_backlog now req db n t :
  tasks (tasks_post now req db).1 !! n = Some t →
  tasks db !! n = Some t ∨ (tasks db !! n = None ∧ Task.status t = "Backlog").
Proof.
  unfold tasks_post.
  destruct (run_chains tasks_post_chains req) as [req' errors].
  destruct (negb (isEmpty errors)); [simpl; pure_tauto | ].
  destruct (truthy _ && _); [simpl; pure_tauto | ].
  destruct (insert_task _ _ _ _ _ _ _) as [[insertId db'] | ] eqn:Hins; [ | simpl; pure_tauto].
  apply insert_task_inv in Hins as (t0 & Htasks & Hfresh & _ & _ & Hstatus & _).
  assert (Hn : tasks db' !! n = Some t →
               tasks db !! n = Some t ∨ (tasks db !! n = None ∧ Task.status t = "Backlog")).
  { rewrite Htasks. destruct (decide (insertId = n)) as [-> | Hne].
    - rewrite lookup_insert_eq. intros [= <-]. right. done.
    - rewrite lookup_insert_ne by exact Hne. pure_tauto. }
  destruct (select_task_key db' _); simpl; exact Hn.
Qed.

Lemma tasks_post_created now req db task :
  statusCode (tasks_post now req db).2 = 201 →
  task ∈ tasks_of (tasks_post now req db).2 →
  TaskRow.status (row task) = "Backlog".
Proof.
  unfold tasks_post.
  destruct (run_chains tasks_post_chains req) as [req' errors].
  destruct (negb (isEmpty errors)); [simpl; discriminate | ].
  destruct (truthy _ && _); [simpl; discriminate | ].
  destruct (insert_task _ _ _ _ _ _ _) as [[insertId db'] | ] eqn:Hins;
    [ | simpl; discriminate].
  apply insert_task_inv in Hins as (t0 & Htasks & _ & _ & _ & Hstatus & _).
  destruct (select_task_key db' _) as [task' | ] eqn:Hsel; [ | simpl; discriminate].
  simpl. intros _ Hin. apply list_elem_of_singleton in Hin as ->.
  apply select_task_key_inv in Hsel as (t & Ht & ->).
  rewrite Htasks, lookup_insert_eq in Ht. injection Ht as <-. exact Hstatus.
Qed.

(** A PUT /api/tasks/:id whose body is [{ status: s }], for one of the four
    statuses, is written whatever the stored status is. *)
Lemma tasks_put_status now req db n t s :
  to_int (req_params req !! "id") = Some n → 1 ≤ n →
  tasks db !! n = Some t →
  req_body req = {[ "status" := JStr s ]} →
  s ∈ statuses →
  statusCode (tasks_put now req db).2 = 200 ∧
  tasks (tasks_put now req db).1 = <[n := with_status s now t]> (tasks db).
Proof.
  intros Hid Hn Ht Hbody Hs.
  assert (Hlk : ∀ f, f ≠ "status" → req_body req !! f = None).
  { intros f Hf. rewrite Hbody. apply lookup_singleton_ne. congruence. }
  assert (Hst : req_body req !! "status" = Some (JStr s)).
  { rewrite Hbody. apply lookup_singleton_eq. }
  assert (Hvalid : validationResult tasks_put_chains req = []).
  { apply tasks_put_validationResult.
    rewrite (Hlk "title"), (Hlk "description"), (Hlk "priority"),
      (Hlk "assignee_id"), (Hlk "due_date"), Hst by discriminate.
    repeat split; try reflexivity.
    - unfold chain_value. simpl. rewrite Hid. apply Z.leb_le in Hn. rewrite Hn. reflexivity.
    - unfold chain_value. simpl. apply bool_decide_eq_true_2. exact Hs. }
  unfold tasks_put.
  destruct (run_chains tasks_put_chains req) as [req' errors] eqn:Hrun.
  apply tasks_put_run in Hrun as (_ & Hparam & Habsent & Hother & ->).
  rewrite Hvalid, isEmpty_nil. cbn [negb]. rewrite Hparam.
  rewrite (where_id_Some _ _ _ _ Hid Ht).
  rewrite (Habsent "assignee_id") by (apply Hlk; discriminate). cbn [truthy andb].
  assert (Hc : collect_updates (req_body req') updatable_fields = Some [("status", JStr s)]).
  { unfold collect_updates, updatable_fields, js_hasOwnProperty.
    rewrite (Habsent "hasOwnProperty") by (apply Hlk; discriminate).
    rewrite (Habsent "title"), (Habsent "description"), (Habsent "priority"),
      (Habsent "assignee_id"), (Habsent "due_date") by (apply Hlk; discriminate).
    rewrite (Hother "status") by discriminate. rewrite Hst. reflexivity. }
  rewrite Hc.
  assert (Hu : update_task db now [("status", JStr s)] (req_params req !! "id") =
               Some {| users := users db;
                       tasks := <[n := with_status s now t]> (tasks db);
                       comments := comments db;
                       tasks_auto_increment := tasks_auto_increment db |}).
  { unfold update_task. rewrite (where_id_Some _ _ _ _ Hid Ht).
    unfold set_columns, set_column. simpl.
    rewrite bool_decide_eq_true_2 by exact Hs. reflexivity. }
  rewrite Hu.
  erewrite select_task_Some; [ | exact Hid | simpl; apply lookup_insert_eq].
  simpl. done.
Qed.

(** C4 (amended). Every task that POST /api/tasks creates has status
    Backlog, also when the body names a status: the handler does not read
    it. A PUT /api/tasks/:id with any of the four statuses replaces the
    stored status whatever it was. *)
Theorem task_status_lifecycle now req db :
  (∀ n t, tasks (tasks_post now req db).1 !! n = Some t →
          tasks db !! n = Some t ∨ (tasks db !! n = None ∧ Task.status t = "Backlog")) ∧
  (statusCode (tasks_post now req db).2 = 201 →
   ∀ task, task ∈ tasks_of (tasks_post now req db).2 →
           TaskRow.status (row task) = "Backlog") ∧
  (∀ n t s,
     to_int (req_params req !! "id") = Some n → 1 ≤ n →
     tasks db !! n = Some t →
     req_body req = {[ "status" := JStr s ]} →
     s ∈ statuses →
     statusCode (tasks_put now req db).2 = 200 ∧
     ∃ t', tasks (tasks_put now req db).1 !! n = Some t' ∧ Task.status t' = s).
Proof.
  split; [ | split].
  - intros n t. apply tasks_post_backlog.
  - intros H task. apply tasks_post_created. exact H.
  - intros n t s Hid Hn Ht Hbody Hs.
    destruct (tasks_put_status now req db n t s Hid Hn Ht Hbody Hs) as [H1 H2].
    split; [exact H1 | ].
    exists (with_status s now t). rewrite H2. split; [apply lookup_insert_eq | reflexivity].
Qed.

(** ** The assignee check *)

Lemma tasks_post_chains_body_other f v :
  f ≠ "title" → f ≠ "description" →
  chains_value tasks_post_chains in_body f v = v.
Proof.
  intros H1 H2. apply String.eqb_neq in H1, H2.
  unfold tasks_post_chains.
  cbn [chains_value chain_at loc_eqb vc_location vc_field vc_items param body andb].
  rewrite H1, H2.
  repeat match goal with
         | |- context [if String.eqb f ?s then _ else _] =>
             destruct (String.eqb f s)
         end; try reflexivity;
    repeat (rewrite chain_value_optional_1 by discriminate); reflexivity.
Qed.

Lemma tasks_post_run req req' errors :
  run_chains tasks_post_chains req = (req', errors) →
  (∀ f, f ≠ "title" → f ≠ "description" → req_body req' !! f = req_body req !! f) ∧
  errors = validationResult tasks_post_chains req.
Proof.
  intros H. unfold validationResult. rewrite H.
  apply run_chains_view in H as (Hat & _ & _).
  split; [ | reflexivity].
  intros f H1 H2. rewrite (Hat in_body). apply tasks_post_chains_body_other; assumption.
Qed.

Lemma tasks_post_valid req :
  validationResult tasks_post_chains req = [] →
  req_body req !! "assignee_id" = None ∨
  ∃ a, to_int (req_body req !! "assignee_id") = Some a ∧ 1 ≤ a.
Proof.
  unfold validationResult. rewrite run_chains_errors. unfold tasks_post_chains.
  intros H.
  apply chains_errors_nil in H as [_ H].
  apply chains_errors_nil in H as [_ H].
  apply chains_errors_nil in H as [_ H].
  apply chains_errors_nil in H as [Hassignee _].
  cbn [chain_at loc_eqb vc_location vc_field vc_items param body andb] in Hassignee.
  simpl String.eqb in Hassignee. cbv iota in Hassignee.
  apply chain_value_optional_isInt in Hassignee. exact Hassignee.
Qed.

Lemma where_id_None {A : Type} (table : gmap Z A) v n :
  to_int v = Some n → table !! n = None → where_id table v = None.
Proof. intros H1 H2. unfold where_id. rewrite H1. simpl. rewrite H2. reflexivity. Qed.

Lemma assignee_not_found (db : Db) v a :
  (v = None ∨ ∃ n, to_int v = Some n ∧ 1 ≤ n) →
  to_int v = Some a → users db !! a = None →
  truthy v && negb (bool_decide (is_Some (where_id (users db) v))) = true.
Proof.
  intros Hv Ha Hu. destruct Hv as [-> | (n & Hn & H1)]; [discriminate | ].
  rewrite (to_int_truthy v n Hn H1), (where_id_None _ _ _ Ha Hu).
  rewrite bool_decide_eq_false_2; [reflexivity | ]. intros [x Hx]. discriminate.
Qed.

Lemma set_column_assignee t t' c v :
  set_column t (c, v) = Some t' →
  Task.assignee_id t' = Task.assignee_id t ∨
  (c = "assignee_id" ∧ sql_nullable sql_int v = Some (Task.assignee_id t')).
Proof.
  unfold set_column. intros H.
  repeat match type of H with
         | (if String.eqb c ?s then _ else _) = _ =>
             let E := fresh "E" in
             destruct (String.eqb c s) eqn:E;
             [apply String.eqb_eq in E; subst c;
              apply bind_Some in H as (x & Hx & [= <-]); simpl; auto
             | ]
         end.
  discriminate.
Qed.

Lemma set_columns_assignee t t' updates :
  set_columns t updates = Some t' →
  Task.assignee_id t' = Task.assignee_id t ∨
  ∃ v, ("assignee_id", v) ∈ updates ∧ sql_nullable sql_int v = Some (Task.assignee_id t').
Proof.
  revert t. induction updates as [ | [c v] r IH]; intros t; simpl.
  - intros [= ->]. left. reflexivity.
  - intros H. apply bind_Some in H as (t1 & H1 & H2).
    destruct (IH t1 H2) as [Heq | (w & Hw & Hsql)].
    + destruct (set_column_assignee t t1 c v H1) as [Heq1 | [-> Hsql]].
      * left. congruence.
      * right. exists v. split; [left | congruence].
    + right. exists w. split; [right; exact Hw | exact Hsql].
Qed.

(** The value bound to tasks.assignee_id is the user the check found. *)
Lemma assignee_checked (db : Db) v a :
  truthy (Some v) && negb (bool_decide (is_Some (where_id (users db) (Some v)))) = false →
  truthy (Some v) = true →
  sql_nullable sql_int v = Some (Some a) →
  is_Some (users db !! a).
Proof.
  intros Hchk Htruthy Hsql. rewrite Htruthy in Hchk. simpl in Hchk.
  apply negb_false_iff, bool_decide_eq_true in Hchk as [[m u] Hw].
  apply where_id_inv in Hw as [Hm Hu].
  destruct v; try discriminate;
    unfold sql_nullable, sql_int in Hsql; rewrite Hm in Hsql;
    injection Hsql as <-; eauto.
Qed.

Lemma tasks_post_assignee_exists now req db :
  assignee_exists db → assignee_exists (tasks_post now req db).1.
Proof.
  intros Hinv. unfold tasks_post.
  destruct (run_chains tasks_post_chains req) as [req' errors].
  destruct (negb (isEmpty errors)); [exact Hinv | ].
  destruct (truthy _ && _) eqn:Hchk; [exact Hinv | ].
  destruct (insert_task _ _ _ _ _ _ _) as [[insertId db'] | ] eqn:Hins; [ | exact Hinv].
  apply insert_task_inv in Hins as (t0 & Htasks & _ & Husers & _ & _ & Hsql).
  assert (Hdb' : assignee_exists db').
  { intros n t a Hn Ha. rewrite Husers. rewrite Htasks in Hn.
    destruct (decide (insertId = n)) as [-> | Hne].
    - rewrite lookup_insert_eq in Hn. injection Hn as <-. rewrite Ha in Hsql.
      destruct (req_body req' !! "assignee_id") as [v | ]; [ | discriminate].
      assert (Htruthy : truthy (Some v) = true).
      { destruct (truthy (Some v)) eqn:E; [reflexivity | ].
        unfold or_null in Hsql. rewrite E in Hsql. discriminate. }
      unfold or_null in Hsql. rewrite Htruthy in Hsql.
      exact (assignee_checked db v a Hchk Htruthy Hsql).
    - rewrite lookup_insert_ne in Hn by exact Hne. exact (Hinv n t a Hn Ha). }
  destruct (select_task_key db' _); exact Hdb'.
Qed.

Lemma tasks_put_assignee_exists now req db :
  assignee_exists db → assignee_exists (tasks_put now req db).1.
Proof.
  intros Hinv. unfold tasks_put.
  destruct (run_chains tasks_put_chains req) as [req' errors] eqn:Hrun.
  apply tasks_put_run in Hrun as (_ & Hparam & _ & Hother & ->).
  destruct (negb (isEmpty _)) eqn:He; [exact Hinv | ].
  apply negb_false_iff, isEmpty_true in He.
  destruct (tasks_put_valid req He) as (_ & _ & Hassignee).
  rewrite Hparam.
  destruct (where_id (tasks db) _) as [[n0 t0] | ] eqn:Hw; [ | exact Hinv].
  apply where_id_inv in Hw as [Hid Ht0].
  rewrite (Hother "assignee_id") by discriminate.
  destruct (truthy _ && _) eqn:Hchk; [exact Hinv | ].
  destruct (collect_updates _ _) as [updates | ] eqn:Hc; [ | exact Hinv].
  destruct updates as [ | u updates]; [exact Hinv | ].
  destruct (update_task _ _ _ _) as [db' | ] eqn:Hu; [ | exact Hinv].
  destruct (update_task_inv _ _ _ _ _ _ _ Hu Hid Ht0) as (t' & Hset & Htasks & Husers & _).
  assert (Hdb' : assignee_exists db').
  { intros n t a Hn Ha. rewrite Husers. rewrite Htasks in Hn.
    destruct (decide (n0 = n)) as [-> | Hne].
    - rewrite lookup_insert_eq in Hn. injection Hn as <-. simpl in Ha.
      destruct (set_columns_assignee _ _ _ Hset) as [Heq | (v & Hv & Hsql)].
      + apply (Hinv n t0 a Ht0). congruence.
      + destruct (collect_updates_elem _ _ _ _ _ Hc Hv) as [_ Hsome].
        rewrite (Hother "assignee_id") in Hsome by discriminate.
        rewrite Hsome in Hchk, Hassignee. rewrite Ha in Hsql.
        destruct Hassignee as [? | (m & Hm & H1)]; [discriminate | ].
        exact (assignee_checked db v a Hchk (to_int_truthy _ m Hm H1) Hsql).
    - rewrite lookup_insert_ne in Hn by exact Hne. exact (Hinv n t a Hn Ha). }
  destruct (select_task db' _); exact Hdb'.
Qed.

(** ** Comments *)

Lemma comments_put_run req req' errors :
  run_chains comments_put_chains req = (req', errors) →
  req_user req' = req_user req ∧
  req_params req' !! "id" = req_params req !! "id" ∧
  errors = validationResult comments_put_chains req.
Proof.
  intros H. unfold validationResult. rewrite H.
  apply run_chains_view in H as (Hat & _ & Hu).
  split; [exact Hu | split; [ | reflexivity]].
  rewrite (Hat in_params). reflexivity.
Qed.

Lemma id_chains_run req req' errors :
  run_chains id_chains req = (req', errors) →
  req_user req' = req_user req ∧
  req_params req' !! "id" = req_params req !! "id" ∧
  errors = validationResult id_chains req.
Proof.
  intros H. unfold validationResult. rewrite H.
  apply run_chains_view in H as (Hat & _ & Hu).
  split; [exact Hu | split; [ | reflexivity]].
  rewrite (Hat in_params). reflexivity.
Qed.

Lemma update_comment_other db v id db' n c m :
  update_comment db v id = Some db' →
  where_id (comments db) id = Some (n, c) → m ≠ n →
  comments db' !! m = comments db !! m.
Proof.
  unfold update_comment. intros H Hw Hne. rewrite Hw in H.
  apply bind_Some in H as (b & _ & [= <-]). simpl.
  apply lookup_insert_ne. congruence.
Qed.

Lemma delete_comment_other db id n m :
  to_int id = Some n → m ≠ n →
  comments (delete_comment db id) !! m = comments db !! m.
Proof.
  intros H Hne. unfold delete_comment. rewrite H. simpl.
  apply lookup_delete_ne. congruence.
Qed.

Lemma author_eqb_false (c : Comment.t) (user : UserInfo) :
  Comment.author_id c ≠ user_id user →
  negb (Comment.author_id c =? user_id user) = true.
Proof. intros H. apply negb_true_iff, Z.eqb_neq. exact H. Qed.

(** A comment survives, unchanged, every PUT and DELETE /api/comments/:id
    of a user who is not its author. *)
Lemma comments_put_survives now req db user n c :
  req_user req = Some user → comments db !! n = Some c →
  Comment.author_id c ≠ user_id user →
  comments (comments_put now req db).1 !! n = Some c.
Proof.
  intros Huser Hc Hne. unfold comments_put.
  destruct (run_chains comments_put_chains req) as [req' errors] eqn:Hrun.
  apply comments_put_run in Hrun as (Hu & _ & _).
  destruct (negb (isEmpty errors)); [exact Hc | ].
  rewrite Hu, Huser.
  destruct (where_id (comments db) _) as [[m c0] | ] eqn:Hw; [ | exact Hc].
  destruct (negb (Comment.author_id c0 =? user_id user)) eqn:Hauth; [exact Hc | ].
  apply negb_false_iff, Z.eqb_eq in Hauth.
  assert (Hnm : n ≠ m).
  { intros ->. apply where_id_inv in Hw as [_ Hw]. congruence. }
  destruct (update_comment db _ _) as [db' | ] eqn:Hupd; [ | exact Hc].
  assert (Hc' : comments db' !! n = Some c).
  { rewrite (update_comment_other _ _ _ _ _ _ _ Hupd Hw Hnm). exact Hc. }
  destruct (select_comment db' _); exact Hc'.
Qed.

Lemma comments_delete_survives now req db user n c :
  req_user req = Some user → comments db !! n = Some c →
  Comment.author_id c ≠ user_id user →
  comments (comments_delete now req db).1 !! n = Some c.
Proof.
  intros Huser Hc Hne. unfold comments_delete.
  destruct (run_chains id_chains req) as [req' errors] eqn:Hrun.
  apply id_chains_run in Hrun as (Hu & _ & _).
  destruct (negb (isEmpty errors)); [exact Hc | ].
  rewrite Hu, Huser.
  destruct (where_id (comments db) _) as [[m c0] | ] eqn:Hw; [ | exact Hc].
  destruct (negb (Comment.author_id c0 =? user_id user)) eqn:Hauth; [exact Hc | ].
  apply negb_false_iff, Z.eqb_eq in Hauth.
  apply where_id_inv in Hw as [Hid Hw].
  assert (Hnm : n ≠ m) by (intros ->; congruence).
  simpl. rewrite (delete_comment_other _ _ _ _ Hid Hnm). exact Hc.
Qed.

Lemma comments_put_forbidden now req db user n c :
  req_user req = Some user → comments db !! n = Some c →
  Comment.author_id c ≠ user_id user →
  to_int (req_params req !! "id") = Some n →
  validationResult comments_put_chains req = [] →
  comments_put now req db =
    (db, res_status_json 403
           (JMessage "Access denied: You can only edit your own comments")).
Proof.
  intros Huser Hc Hne Hid Hvalid. unfold comments_put.
  destruct (run_chains comments_put_chains req) as [req' errors] eqn:Hrun.
  apply comments_put_run in Hrun as (Hu & Hparam & ->).
  rewrite Hvalid, isEmpty_nil. cbn [negb].
  rewrite Hu, Huser, Hparam, (where_id_Some _ _ _ _ Hid Hc).
  rewrite (author_eqb_false c user Hne). reflexivity.
Qed.

Lemma comments_delete_forbidden now req db user n c :
  req_user req = Some user → comments db !! n = Some c →
  Comment.author_id c ≠ user_id user →
  to_int (req_params req !! "id") = Some n →
  validationResult id_chains req = [] →
  comments_delete now req db =
    (db, res_status_json 403
           (JMessage "Access denied: You can only delete your own comments")).
Proof.
  intros Huser Hc Hne Hid Hvalid. unfold comments_delete.
  destruct (run_chains id_chains req) as [req' errors] eqn:Hrun.
  apply id_chains_run in Hrun as (Hu & Hparam & ->).
  rewrite Hvalid, isEmpty_nil. cbn [negb].
  rewrite Hu, Huser, Hparam, (where_id_Some _ _ _ _ Hid Hc).
  rewrite (author_eqb_false c user Hne). reflexivity.
Qed.

(** ** Authentication *)

Lemma protected_no_token (h : Handler) now req db :
  truthy (JStr <$> bearer_token req) = false →
  protected h now req db =
    (db, res_status_json 401 (JMessage "Access token required")).
Proof.
  intros H. unfold protected, authenticateToken. rewrite H. reflexivity.
Qed.

(** ** Listings *)

Lemma elem_of_insert_desc x y l : y ∈ insert_desc x l ↔ y = x ∨ y ∈ l.
Proof.
  induction l as [ | z r IH]; simpl.
  - rewrite list_elem_of_singleton, elem_of_nil. pure_tauto.
  - destruct (_ <=? _).
    + rewrite elem_of_cons. pure_tauto.
    + rewrite !elem_of_cons, IH. pure_tauto.
Qed.

Lemma elem_of_order_by_created_at_desc x l :
  x ∈ order_by_created_at_desc l ↔ x ∈ l.
Proof.
  unfold order_by_created_at_desc. induction l as [ | z r IH]; simpl; [pure_tauto | ].
  rewrite elem_of_insert_desc, elem_of_cons, IH. pure_tauto.
Qed.

Lemma elem_of_select_tasks db conds task :
  task ∈ select_tasks db conds ↔
  ∃ n t, tasks db !! n = Some t ∧ forallb (λ c, c t) conds = true ∧
         task = task_row db n t.
Proof.
  unfold select_tasks. rewrite list_elem_of_fmap. split.
  - intros ([n t] & -> & H).
    apply (proj1 (elem_of_order_by_created_at_desc _ _)) in H.
    apply (proj1 (list_elem_of_In _ _)) in H.
    apply (proj1 (filter_In _ _ _)) in H as [H1 H2].
    apply (proj2 (list_elem_of_In _ _)) in H1.
    apply (proj1 (elem_of_map_to_list _ _ _)) in H1.
    exists n, t. done.
  - intros (n & t & H1 & H2 & ->). exists (n, t). split; [reflexivity | ].
    apply (proj2 (elem_of_order_by_created_at_desc _ _)).
    apply (proj2 (list_elem_of_In _ _)).
    apply (proj2 (filter_In _ _ _)).
    split; [ | exact H2].
    apply (proj1 (list_elem_of_In _ _)).
    apply (proj2 (elem_of_map_to_list _ _ _)). exact H1.
Qed.

Lemma decorated_with_badge now db n t :
  tasks db !! n = Some t →
  decorated now db (with_badge (TasksRouter.getTaskBadge now) (task_row db n t)).
Proof. intros H. exists n, t. done. Qed.

Lemma decorated_select_tasks now db conds task :
  task ∈ with_badge (TasksRouter.getTaskBadge now) <$> select_tasks db conds →
  decorated now db task.
Proof.
  intros H. apply list_elem_of_fmap in H as (r & -> & H).
  apply elem_of_select_tasks in H as (n & t & Ht & _ & ->).
  apply decorated_with_badge. exact Ht.
Qed.

Lemma decorated_select_task now db id task0 task :
  select_task db id = Some task0 →
  task ∈ [with_badge (TasksRouter.getTaskBadge now) task0] →
  decorated now db task.
Proof.
  intros H Hin. apply list_elem_of_singleton in Hin as ->.
  apply select_task_inv in H as (n & t & _ & Ht & ->).
  apply decorated_with_badge. exact Ht.
Qed.

Lemma decorated_select_task_key now db n task0 task :
  select_task_key db n = Some task0 →
  task ∈ [with_badge (TasksRouter.getTaskBadge now) task0] →
  decorated now db task.
Proof.
  intros H Hin. apply list_elem_of_singleton in Hin as ->.
  apply select_task_key_inv in H as (t & Ht & ->).
  apply decorated_with_badge. exact Ht.
Qed.

Lemma tasks_get_all_decorated now req db task :
  task ∈ tasks_of (tasks_get_all now req db).2 →
  (tasks_get_all now req db).1 = db ∧ decorated now db task.
Proof.
  unfold tasks_get_all.
  destruct (run_chains tasks_get_all_chains req) as [req' errors].
  destruct (negb (isEmpty errors)); [no_tasks | ].
  simpl. intros H. split; [reflexivity | ].
  apply (decorated_select_tasks _ _ _ _ H).
Qed.

Lemma tasks_get_one_decorated now req db task :
  task ∈ tasks_of (tasks_get_one now req db).2 →
  (tasks_get_one now req db).1 = db ∧ decorated now db task.
Proof.
  unfold tasks_get_one.
  destruct (run_chains id_chains req) as [req' errors].
  destruct (negb (isEmpty errors)); [no_tasks | ].
  destruct (select_task db _) as [task0 | ] eqn:Hsel; [ | no_tasks].
  simpl. intros H. split; [reflexivity | ].
  apply (decorated_select_task _ _ _ _ _ Hsel H).
Qed.

Lemma users_me_tasks_decorated now req db task :
  task ∈ tasks_of (users_me_tasks now req db).2 →
  (users_me_tasks now req db).1 = db ∧ decorated now db task.
Proof.
  unfold users_me_tasks.
  destruct (req_user req) as [user | ]; [ | no_tasks].
  simpl. intros H. split; [reflexivity | ].
  apply (decorated_select_tasks now db [assignee_id_is (user_id user)]).
  exact H.
Qed.

Lemma tasks_post_decorated now req db task :
  task ∈ tasks_of (tasks_post now req db).2 →
  decorated now (tasks_post now req db).1 task.
Proof.
  unfold tasks_post.
  destruct (run_chains tasks_post_chains req) as [req' errors].
  destruct (negb (isEmpty errors)); [no_tasks | ].
  destruct (truthy _ && _); [no_tasks | ].
  destruct (insert_task _ _ _ _ _ _ _) as [[insertId db'] | ]; [ | no_tasks].
  destruct (select_task_key db' _) as [task0 | ] eqn:Hsel; [ | no_tasks].
  simpl. apply (decorated_select_task_key _ _ _ _ _ Hsel).
Qed.

Lemma tasks_put_decorated now req db task :
  task ∈ tasks_of (tasks_put now req db).2 →
  decorated now (tasks_put now req db).1 task.
Proof.
  unfold tasks_put.
  destruct (run_chains tasks_put_chains req) as [req' errors].
  destruct (negb (isEmpty errors)); [no_tasks | ].
  destruct (where_id (tasks db) _); [ | no_tasks].
  destruct (truthy _ && _); [no_tasks | ].
  destruct (collect_updates _ _) as [[ | u updates] | ]; [no_tasks | | no_tasks].
  destruct (update_task _ _ _ _) as [db' | ]; [ | no_tasks].
  destruct (select_task db' _) as [task0 | ] eqn:Hsel; [ | no_tasks].
  simpl. apply (decorated_select_task _ _ _ _ _ Hsel).
Qed.

Lemma tasks_delete_no_tasks now req db : tasks_of (tasks_delete now req db).2 = [].
Proof.
  unfold tasks_delete.
  destruct (run_chains id_chains req) as [req' errors].
  destruct (negb (isEmpty errors)); [reflexivity | ].
  destruct (where_id (tasks db) _); reflexivity.
Qed.

Lemma comments_put_no_tasks now req db : tasks_of (comments_put now req db).2 = [].
Proof.
  unfold comments_put.
  destruct (run_chains comments_put_chains req) as [req' errors].
  destruct (negb (isEmpty errors)); [reflexivity | ].
  destruct (req_user req'); [ | reflexivity].
  destruct (where_id (comments db) _) as [[m c] | ]; [ | reflexivity].
  destruct (negb _); [reflexivity | ].
  destruct (update_comment _ _ _) as [db' | ]; [ | reflexivity].
  destruct (select_comment db' _); reflexivity.
Qed.

Lemma comments_delete_no_tasks now req db : tasks_of (comments_delete now req db).2 = [].
Proof.
  unfold comments_delete.
  destruct (run_chains id_chains req) as [req' errors].
  destruct (negb (isEmpty errors)); [reflexivity | ].
  destruct (req_user req'); [ | reflexivity].
  destruct (where_id (comments db) _) as [[m c] | ]; [ | reflexivity].
  destruct (negb _); reflexivity.
Qed.

Lemma handler_decorated (r : Route) now req db task :
  task ∈ tasks_of (handler_of r now req db).2 →
  decorated now (handler_of r now req db).1 task.
Proof.
  destruct r; simpl.
  - intros H. destruct (tasks_get_all_decorated _ _ _ _ H) as [-> Hd]. exact Hd.
  - intros H. destruct (tasks_get_one_decorated _ _ _ _ H) as [-> Hd]. exact Hd.
  - apply tasks_post_decorated.
  - apply tasks_put_decorated.
  - rewrite tasks_delete_no_tasks. intros H. apply elem_of_nil in H. destruct H.
  - intros H. destruct (users_me_tasks_decorated _ _ _ _ H) as [-> Hd]. exact Hd.
  - rewrite comments_put_no_tasks. intros H. apply elem_of_nil in H. destruct H.
  - rewrite comments_delete_no_tasks. intros H. apply elem_of_nil in H. destruct H.
Qed.

Lemma authenticateToken_no_tasks req db res :
  authenticateToken req db = inl res → tasks_of res = [].
Proof.
  unfold authenticateToken.
  destruct (negb _); [intros [= <-]; reflexivity | ].
  destruct (jwt_verify _); try (intros [= <-]; reflexivity).
  destruct (users db !! userId); [discriminate | intros [= <-]; reflexivity].
Qed.

Lemma app_decorated (r : Route) now req db task :
  task ∈ tasks_of (app r now req db).2 →
  decorated now (app r now req db).1 task.
Proof.
  unfold app, protected.
  destruct (authenticateToken req db) as [res | req'] eqn:Hauth.
  - simpl. rewrite (authenticateToken_no_tasks _ _ _ Hauth).
    intros H. apply elem_of_nil in H. destruct H.
  - apply handler_decorated.
Qed.

Lemma tasks_get_all_db now req db : (tasks_get_all now req db).1 = db.
Proof.
  unfold tasks_get_all.
  destruct (run_chains tasks_get_all_chains req) as [req' errors].
  destruct (negb (isEmpty errors)); reflexivity.
Qed.

Lemma tasks_get_one_db now req db : (tasks_get_one now req db).1 = db.
Proof.
  unfold tasks_get_one.
  destruct (run_chains id_chains req) as [req' errors].
  destruct (negb (isEmpty errors)); [reflexivity | ].
  destruct (select_task db _); reflexivity.
Qed.

Lemma users_me_tasks_db now req db : (users_me_tasks now req db).1 = db.
Proof. unfold users_me_tasks. destruct (req_user req); reflexivity. Qed.

Lemma app_read_only (r : Route) now req db :
  r = GET_tasks ∨ r = GET_tasks_id ∨ r = GET_users_me_tasks →
  (app r now req db).1 = db.
Proof.
  intros Hr. unfold app, protected.
  destruct (authenticateToken req db) as [res | req']; [reflexivity | ].
  destruct Hr as [-> | [-> | ->]]; simpl.
  - apply tasks_get_all_db.
  - apply tasks_get_one_db.
  - apply users_me_tasks_db.
Qed.

(** *** The filters of GET /api/tasks *)

Lemma tasks_get_all_chains_query f v :
  chains_value tasks_get_all_chains in_query f v = v.
Proof.
  unfold tasks_get_all_chains.
  cbn [chains_value chain_at loc_eqb vc_location vc_field vc_items query andb].
  repeat match goal with
         | |- context [if String.eqb f ?s then _ else _] =>
             destruct (String.eqb f s)
         end; try reflexivity;
    repeat (rewrite chain_value_optional_1 by discriminate); reflexivity.
Qed.

Lemma tasks_get_all_run req req' errors :
  run_chains tasks_get_all_chains req = (req', errors) →
  (∀ f, req_query req' !! f = req_query req !! f) ∧
  errors = validationResult tasks_get_all_chains req.
Proof.
  intros H. unfold validationResult. rewrite H.
  apply run_chains_view in H as (Hat & _ & _).
  split; [ | reflexivity].
  intros f. rewrite (Hat in_query). apply tasks_get_all_chains_query.
Qed.

Lemma tasks_get_all_validationResult req :
  validationResult tasks_get_all_chains req = [] ↔
    (chain_value [optional; isInt 1] (req_query req !! "assignee")).2 = true ∧
    (chain_value [optional; isIn priorities] (req_query req !! "priority")).2 = true ∧
    (chain_value [optional; isIn statuses] (req_query req !! "status")).2 = true.
Proof.
  unfold validationResult. rewrite run_chains_errors. unfold tasks_get_all_chains.
  cbn [chains_errors chain_at loc_eqb vc_location vc_field vc_items query andb req_at].
  simpl String.eqb. cbv iota.
  repeat match goal with
         | |- context [(chain_value ?i ?v).2] => destruct (chain_value i v).2
         end; split; try discriminate; try pure_tauto;
    forget_libraries; intuition discriminate.
Qed.

Lemma tasks_get_all_errors_agree req req' :
  req_query req' !! "assignee" = req_query req !! "assignee" →
  req_query req' !! "priority" = req_query req !! "priority" →
  req_query req' !! "status" = req_query req !! "status" →
  validationResult tasks_get_all_chains req' = validationResult tasks_get_all_chains req.
Proof.
  intros H1 H2 H3.
  unfold validationResult. rewrite !run_chains_errors. unfold tasks_get_all_chains.
  cbn [chains_errors chain_at loc_eqb vc_location vc_field vc_items query andb req_at].
  simpl String.eqb. cbv iota. rewrite H1, H2, H3. reflexivity.
Qed.

(** The answer of GET /api/tasks depends on the request through the query
    members assignee, priority and status only. *)
Lemma tasks_get_all_independent now req req' db :
  req_query req' !! "assignee" = req_query req !! "assignee" →
  req_query req' !! "priority" = req_query req !! "priority" →
  req_query req' !! "status" = req_query req !! "status" →
  tasks_get_all now req' db = tasks_get_all now req db.
Proof.
  intros H1 H2 H3. unfold tasks_get_all.
  destruct (run_chains tasks_get_all_chains req) as [r errors] eqn:Hrun.
  destruct (run_chains tasks_get_all_chains req') as [r' errors'] eqn:Hrun'.
  apply tasks_get_all_run in Hrun as (Hq & ->).
  apply tasks_get_all_run in Hrun' as (Hq' & ->).
  rewrite (tasks_get_all_errors_agree req req' H1 H2 H3).
  rewrite !Hq, !Hq', H1, H2, H3. reflexivity.
Qed.

Lemma tasks_get_all_status_sound now req db task :
  task ∈ tasks_of (tasks_get_all now req db).2 →
  truthy (req_query req !! "status") = true →
  TaskRow.status (row task) = toString (req_query req !! "status").
Proof.
  unfold tasks_get_all.
  destruct (run_chains tasks_get_all_chains req) as [req' errors] eqn:Hrun.
  apply tasks_get_all_run in Hrun as (Hq & _).
  destruct (negb (isEmpty errors)); [no_tasks | ].
  simpl. rewrite !Hq. intros H Hs. rewrite Hs in H.
  apply list_elem_of_fmap in H as (r & -> & H).
  apply elem_of_select_tasks in H as (n & t & _ & Hconds & ->).
  rewrite forallb_app, forallb_app in Hconds.
  apply andb_true_iff in Hconds as [_ Hconds].
  apply andb_true_iff in Hconds as [_ Hconds].
  simpl in Hconds. rewrite andb_true_r in Hconds.
  apply String.eqb_eq in Hconds. exact Hconds.
Qed.

Lemma tasks_get_all_status_complete now req db n stored :
  validationResult tasks_get_all_chains req = [] →
  req_query req !! "assignee" = None →
  req_query req !! "priority" = None →
  tasks db !! n = Some stored →
  (truthy (req_query req !! "status") = true →
   Task.status stored = toString (req_query req !! "status")) →
  with_badge (TasksRouter.getTaskBadge now) (task_row db n stored)
    ∈ tasks_of (tasks_get_all now req db).2.
Proof.
  intros Hvalid Ha Hp Ht Hs. unfold tasks_get_all.
  destruct (run_chains tasks_get_all_chains req) as [req' errors] eqn:Hrun.
  apply tasks_get_all_run in Hrun as (Hq & ->).
  rewrite Hvalid, isEmpty_nil. simpl. rewrite !Hq, Ha, Hp. simpl.
  apply list_elem_of_fmap_2, elem_of_select_tasks.
  exists n, stored. split; [exact Ht | split; [ | reflexivity]].
  destruct (truthy (req_query req !! "status")); [ | reflexivity].
  simpl. rewrite andb_true_r. apply String.eqb_eq. apply Hs. reflexivity.
Qed.

(** C3. Every task in the response of a route (GET /api/tasks, GET
    /api/tasks/:id, POST /api/tasks, PUT /api/tasks/:id, GET
    /api/users/me/tasks) is a row of the store the request leaves, with a
    badge that is the classifier's verdict on that row's stored due date
    and status; the store has no badge column, and the reading routes
    leave it as it was. With a status filter, GET /api/tasks returns tasks
    whose stored status is the one asked for, and with that filter alone
    all of them; its answer depends on no query member other than
    assignee, priority and status. *)
Theorem badge_on_every_task (r : Route) now req db :
  (∀ task, task ∈ tasks_of (app r now req db).2 →
           decorated now (app r now req db).1 task) ∧
  (r = GET_tasks ∨ r = GET_tasks_id ∨ r = GET_users_me_tasks →
   (app r now req db).1 = db) ∧
  (∀ task, task ∈ tasks_of (tasks_get_all now req db).2 →
           truthy (req_query req !! "status") = true →
           TaskRow.status (row task) = toString (req_query req !! "status")) ∧
  (∀ n stored,
     validationResult tasks_get_all_chains req = [] →
     req_query req !! "assignee" = None →
     req_query req !! "priority" = None →
     tasks db !! n = Some stored →
     (truthy (req_query req !! "status") = true →
      Task.status stored = toString (req_query req !! "status")) →
     with_badge (TasksRouter.getTaskBadge now) (task_row db n stored)
       ∈ tasks_of (tasks_get_all now req db).2) ∧
  (∀ req',
     req_query req' !! "assignee" = req_query req !! "assignee" →
     req_query req' !! "priority" = req_query req !! "priority" →
     req_query req' !! "status" = req_query req !! "status" →
     tasks_get_all now req' db = tasks_get_all now req db).
Proof.
  split; [ | split; [ | split; [ | split]]].
  - intros task. apply app_decorated.
  - apply app_read_only.
  - intros task. apply tasks_get_all_status_sound.
  - intros n stored. apply tasks_get_all_status_complete.
  - intros req'. apply tasks_get_all_independent.
Qed.

(** ** The empty-update guard on a body with a member named hasOwnProperty *)

(** C9, on the request PUT /api/tasks/1 with body [{"hasOwnProperty": 1}]
    for the stored task 1: the body has none of the six updatable fields,
    the store is left as it was, yet the answer is 500 'Error updating
    task' and not 400 'No fields to update'. *)
Theorem tasks_put_no_fields_shadowed now :
  tasks_put now put_shadowed_request example_db =
    (example_db, res_status_json 500 (JMessage "Error updating task")).
Proof.
  rewrite (tasks_put_no_fields now put_shadowed_request example_db 1 example_task).
  - reflexivity.
  - reflexivity.
  - lia.
  - reflexivity.
  - intros f Hf. unfold updatable_fields in Hf. elem_cases Hf; subst f; reflexivity.
Qed.

(** ** Further properties of the listings *)

Lemma insert_desc_Permutation x l : insert_desc x l ≡ₚ x :: l.
Proof.
  induction l as [ | y r IH]; simpl; [reflexivity | ].
  destruct (_ <=? _); [reflexivity | ].
  rewrite IH. apply Permutation_swap.
Qed.

Lemma order_by_created_at_desc_Permutation l : order_by_created_at_desc l ≡ₚ l.
Proof.
  unfold order_by_created_at_desc. induction l as [ | x r IH]; simpl; [reflexivity | ].
  rewrite insert_desc_Permutation, IH. reflexivity.
Qed.

Lemma insert_desc_sorted x l :
  StronglySorted (λ a b : Z * Task.t, Task.created_at b.2 ≤ Task.created_at a.2) l →
  StronglySorted (λ a b : Z * Task.t, Task.created_at b.2 ≤ Task.created_at a.2)
    (insert_desc x l).
Proof.
  induction l as [ | y r IH]; simpl; intros Hs.
  - constructor; constructor.
  - apply StronglySorted_inv in Hs as [Hr Hy].
    destruct (Task.created_at y.2 <=? Task.created_at x.2) eqn:E.
    + apply Z.leb_le in E. constructor.
      * constructor; assumption.
      * constructor; [exact E | ].
        eapply Forall_impl; [exact Hy | ]. intros z Hz. simpl in Hz. lia.
    + apply Z.leb_gt in E. constructor; [apply IH; exact Hr | ].
      rewrite insert_desc_Permutation. constructor; [lia | exact Hy].
Qed.

Lemma order_by_created_at_desc_sorted l :
  StronglySorted (λ a b : Z * Task.t, Task.created_at b.2 ≤ Task.created_at a.2)
    (order_by_created_at_desc l).
Proof.
  unfold order_by_created_at_desc. induction l as [ | x r IH]; simpl.
  - constructor.
  - apply insert_desc_sorted. exact IH.
Qed.

Lemma NoDup_fst_filter {A : Type} (f : Z * A → bool) (l : list (Z * A)) :
  NoDup l.*1 → NoDup (List.filter f l).*1.
Proof.
  induction l as [ | x r IH]; simpl; [done | ].
  intros H. apply NoDup_cons in H as [Hx Hr].
  destruct (f x); simpl; [ | apply IH; exact Hr].
  apply NoDup_cons. split; [ | apply IH; exact Hr].
  intros Hin. apply Hx.
  apply list_elem_of_fmap in Hin as (y & -> & Hy).
  apply list_elem_of_fmap. exists y. split; [reflexivity | ].
  apply (proj1 (list_elem_of_In _ _)) in Hy.
  apply (proj1 (filter_In _ _ _)) in Hy as [Hy _].
  apply (proj2 (list_elem_of_In _ _)). exact Hy.
Qed.

Lemma select_tasks_ids db conds :
  TaskRow.id <$> select_tasks db conds ≡ₚ
    (List.filter (λ nt : Z * Task.t, forallb (λ c, c nt.2) conds) (map_to_list (tasks db))).*1.
Proof.
  unfold select_tasks. rewrite <- list_fmap_compose.
  rewrite order_by_created_at_desc_Permutation. reflexivity.
Qed.

Lemma select_tasks_sorted db conds :
  StronglySorted (λ a b, TaskRow.created_at b ≤ TaskRow.created_at a)
    (select_tasks db conds).
Proof.
  unfold select_tasks.
  assert (H := order_by_created_at_desc_sorted
                 (List.filter (λ nt : Z * Task.t, forallb (λ c, c nt.2) conds)
                    (map_to_list (tasks db)))).
  induction H as [ | x l Hl IH Hx]; simpl; constructor; [exact IH | ].
  apply Forall_fmap. eapply Forall_impl; [exact Hx | ]. intros y Hy. exact Hy.
Qed.

Lemma rows_with_badge f (l : list TaskRow.t) : row <$> (with_badge f <$> l) = l.
Proof.
  rewrite <- list_fmap_compose. induction l as [ | x r IH]; simpl; [done | ].
  f_equal. exact IH.
Qed.

Lemma filter_all_true {A : Type} (l : list A) : List.filter (λ _, true) l = l.
Proof. induction l as [ | x r IH]; simpl; [done | ]. f_equal. exact IH. Qed.

(** X2. GET /api/tasks answers newest first and never lists a task twice;
    without a filter it answers 200 with every stored task. *)
Theorem tasks_get_all_listing now req db :
  StronglySorted (λ a b, TaskRow.created_at b ≤ TaskRow.created_at a)
    (row <$> tasks_of (tasks_get_all now req db).2) ∧
  NoDup (TaskRow.id <$> (row <$> tasks_of (tasks_get_all now req db).2)) ∧
  (req_query req !! "assignee" = None →
   req_query req !! "priority" = None →
   req_query req !! "status" = None →
   statusCode (tasks_get_all now req db).2 = 200 ∧
   TaskRow.id <$> (row <$> tasks_of (tasks_get_all now req db).2)
     ≡ₚ (map_to_list (tasks db)).*1).
Proof.
  unfold tasks_get_all.
  destruct (run_chains tasks_get_all_chains req) as [req' errors] eqn:Hrun.
  apply tasks_get_all_run in Hrun as (Hq & ->).
  split; [ | split].
  - destruct (negb (isEmpty _)); [constructor | ].
    unfold tasks_of, res_json, res_status_json. cbn [json snd].
    rewrite rows_with_badge. apply select_tasks_sorted.
  - destruct (negb (isEmpty _)); [constructor | ].
    unfold tasks_of, res_json, res_status_json. cbn [json snd].
    rewrite rows_with_badge, select_tasks_ids.
    apply NoDup_fst_filter, NoDup_fst_map_to_list.
  - intros Ha Hp Hs.
    assert (Hvalid : validationResult tasks_get_all_chains req = []).
    { apply tasks_get_all_validationResult. rewrite Ha, Hp, Hs. done. }
    rewrite Hvalid, isEmpty_nil. cbn [negb]. split; [reflexivity | ].
    rewrite !Hq, Ha, Hp, Hs.
    unfold tasks_of, res_json, res_status_json. cbn [json snd truthy List.app].
    rewrite rows_with_badge, select_tasks_ids.
    cbn [forallb]. rewrite filter_all_true. reflexivity.
Qed.

Lemma assignee_id_eq_true v t :
  assignee_id_eq v t = true ↔ ∃ a, Task.assignee_id t = Some a ∧ to_int v = Some a.
Proof.
  unfold assignee_id_eq. destruct (Task.assignee_id t) as [a | ], (to_int v) as [b | ].
  - rewrite Z.eqb_eq. split.
    + intros ->. eauto.
    + intros (c & [= <-] & [= <-]). reflexivity.
  - split; [discriminate | intros (c & _ & [=])].
  - split; [discriminate | intros (c & [=] & _)].
  - split; [discriminate | intros (c & [=] & _)].
Qed.

(** X3. The filters of GET /api/tasks combine by conjunction: on a query
    that passes validation a stored task is listed exactly when it matches
    every filter that is present, on its stored assignee, priority and
    status. *)
Theorem tasks_get_all_filters now req db task :
  validationResult tasks_get_all_chains req = [] →
  (task ∈ tasks_of (tasks_get_all now req db).2 ↔
   ∃ n stored,
     tasks db !! n = Some stored ∧
     task = with_badge (TasksRouter.getTaskBadge now) (task_row db n stored) ∧
     (truthy (req_query req !! "assignee") = true →
      Task.assignee_id stored = to_int (req_query req !! "assignee")) ∧
     (truthy (req_query req !! "priority") = true →
      Task.priority stored = toString (req_query req !! "priority")) ∧
     (truthy (req_query req !! "status") = true →
      Task.status stored = toString (req_query req !! "status"))).
Proof.
  intros Hvalid.
  assert (Hassignee : truthy (req_query req !! "assignee") = true →
                      ∃ a, to_int (req_query req !! "assignee") = Some a).
  { apply tasks_get_all_validationResult in Hvalid as (Ha & _ & _).
    apply chain_value_optional_isInt in Ha as [Ha | (a & Ha & _)].
    - rewrite Ha. discriminate.
    - eauto. }
  unfold tasks_get_all.
  destruct (run_chains tasks_get_all_chains req) as [req' errors] eqn:Hrun.
  apply tasks_get_all_run in Hrun as (Hq & ->).
  rewrite Hvalid, isEmpty_nil. cbn [negb]. rewrite !Hq.
  unfold tasks_of, res_json, res_status_json. cbn [json snd].
  rewrite list_elem_of_fmap. split.
  - intros (r & -> & Hr). apply elem_of_select_tasks in Hr as (n & t & Ht & Hc & ->).
    exists n, t. split; [exact Ht | split; [reflexivity | ]].
    rewrite !forallb_app in Hc.
    apply andb_true_iff in Hc as [Hca Hc]. apply andb_true_iff in Hc as [Hcp Hcs].
    split; [ | split]; intros Htr.
    + rewrite Htr in Hca. simpl in Hca. rewrite andb_true_r in Hca.
      apply assignee_id_eq_true in Hca as (a & -> & ->). reflexivity.
    + rewrite Htr in Hcp. simpl in Hcp. rewrite andb_true_r in Hcp.
      apply String.eqb_eq in Hcp. exact Hcp.
    + rewrite Htr in Hcs. simpl in Hcs. rewrite andb_true_r in Hcs.
      apply String.eqb_eq in Hcs. exact Hcs.
  - intros (n & t & Ht & -> & Ha & Hp & Hs).
    eexists. split; [reflexivity | ].
    apply elem_of_select_tasks. exists n, t. split; [exact Ht | split; [ | reflexivity]].
    rewrite !forallb_app. repeat (apply andb_true_iff; split).
    + destruct (truthy (req_query req !! "assignee")) eqn:Htr; [ | reflexivity].
      simpl. rewrite andb_true_r. destruct (Hassignee eq_refl) as [a Hto].
      apply assignee_id_eq_true. exists a. rewrite Ha by reflexivity. done.
    + destruct (truthy (req_query req !! "priority")) eqn:Htr; [ | reflexivity].
      simpl. rewrite andb_true_r. apply String.eqb_eq. apply Hp. reflexivity.
    + destruct (truthy (req_query req !! "status")) eqn:Htr; [ | reflexivity].
      simpl. rewrite andb_true_r. apply String.eqb_eq. apply Hs. reflexivity.
Qed.

(** X4. A filter value that GET /api/tasks does not accept is refused, not
    ignored: a status or priority outside the enumeration, or an assignee
    that is not an integer from 1 on, gives 400 and no listing. *)
Theorem tasks_get_all_bad_filter now req db :
  (∃ v, req_query req !! "status" = Some v ∧ toString (Some v) ∉ statuses) ∨
  (∃ v, req_query req !! "priority" = Some v ∧ toString (Some v) ∉ priorities) ∨
  (∃ v, req_query req !! "assignee" = Some v ∧ ∀ n, to_int (Some v) = Some n → n < 1) →
  statusCode (tasks_get_all now req db).2 = 400 ∧
  tasks_of (tasks_get_all now req db).2 = [] ∧
  (tasks_get_all now req db).1 = db.
Proof.
  intros Hbad.
  assert (Hinvalid : validationResult tasks_get_all_chains req ≠ []).
  { intros Hvalid. apply tasks_get_all_validationResult in Hvalid as (Ha & Hp & Hs).
    destruct Hbad as [(v & Hv & Hn) | [(v & Hv & Hn) | (v & Hv & Hn)]].
    - rewrite Hv in Hs. apply chain_value_optional_isIn in Hs as [? | Hs]; [discriminate | ].
      exact (Hn Hs).
    - rewrite Hv in Hp. apply chain_value_optional_isIn in Hp as [? | Hp]; [discriminate | ].
      exact (Hn Hp).
    - rewrite Hv in Ha.
      apply chain_value_optional_isInt in Ha as [? | (n & Ha & H1)]; [discriminate | ].
      specialize (Hn n Ha). lia. }
  unfold tasks_get_all.
  destruct (run_chains tasks_get_all_chains req) as [req' errors] eqn:Hrun.
  apply tasks_get_all_run in Hrun as (_ & ->).
  destruct (negb (isEmpty _)) eqn:He; [done | ].
  apply negb_false_iff, isEmpty_true in He. contradiction.
Qed.

Lemma select_tasks_ext db conds conds' :
  (∀ t, forallb (λ c, c t) conds = forallb (λ c, c t) conds') →
  select_tasks db conds = select_tasks db conds'.
Proof.
  intros H. unfold select_tasks. do 2 f_equal.
  apply filter_ext. intros [n t]. apply H.
Qed.

(** X5. GET /api/users/me/tasks is GET /api/tasks filtered on the caller:
    for an authenticated user with a key from 1 on, it answers what GET
    /api/tasks answers to a query whose only filter is assignee, with that
    key. *)
Theorem users_me_tasks_is_assignee_filter now req req' db user :
  req_user req = Some user →
  1 ≤ user_id user →
  to_int (req_query req' !! "assignee") = Some (user_id user) →
  req_query req' !! "priority" = None →
  req_query req' !! "status" = None →
  users_me_tasks now req db = tasks_get_all now req' db.
Proof.
  intros Hu H1 Ha Hp Hs.
  assert (Htruthy := to_int_truthy _ _ Ha H1).
  assert (Hvalid : validationResult tasks_get_all_chains req' = []).
  { apply tasks_get_all_validationResult. rewrite Hp, Hs.
    repeat split; try reflexivity.
    unfold chain_value. simpl. rewrite Ha.
    destruct (req_query req' !! "assignee"); [ | discriminate]. simpl.
    apply Z.leb_le. exact H1. }
  unfold users_me_tasks, tasks_get_all. rewrite Hu.
  destruct (run_chains tasks_get_all_chains req') as [r errors] eqn:Hrun.
  apply tasks_get_all_run in Hrun as (Hq & ->).
  rewrite Hvalid, isEmpty_nil. cbn [negb]. rewrite !Hq, Hp, Hs, Htruthy.
  cbn [truthy List.app]. do 4 f_equal.
  apply select_tasks_ext. intros t. simpl. f_equal.
  unfold assignee_id_eq. rewrite Ha. reflexivity.
Qed.

(** ** Further properties of the task routes *)

Lemma id_chains_validationResult req :
  validationResult id_chains req = [] ↔
  ∃ n, to_int (req_params req !! "id") = Some n ∧ 1 ≤ n.
Proof.
  unfold validationResult. rewrite run_chains_errors. unfold id_chains.
  cbn [chains_errors chain_at loc_eqb vc_location vc_field vc_items param andb req_at].
  unfold chain_value. simpl.
  destruct (to_int (req_params req !! "id")) as [n | ].
  - destruct (1 <=? n) eqn:E.
    + apply Z.leb_le in E. split; [eauto | reflexivity].
    + apply Z.leb_gt in E. split; [discriminate | ].
      intros (m & [= <-] & H). lia.
  - split; [discriminate | intros (m & [=] & _)].
Qed.

(** GET /api/tasks/:id with a valid id. *)
Lemma tasks_get_one_valid now req db n :
  to_int (req_params req !! "id") = Some n → 1 ≤ n →
  tasks_get_one now req db =
    (db, match tasks db !! n with
         | None => res_status_json 404 (JMessage "Task not found")
         | Some t =>
             res_json (JTask (with_badge (TasksRouter.getTaskBadge now)
                                (task_row db n t)))
         end).
Proof.
  intros Hn H1. unfold tasks_get_one.
  destruct (run_chains id_chains req) as [req' errors] eqn:Hrun.
  apply id_chains_run in Hrun as (_ & Hparam & ->).
  assert (Hvalid : validationResult id_chains req = []).
  { apply id_chains_validationResult. eauto. }
  rewrite Hvalid, isEmpty_nil. cbn [negb]. rewrite Hparam.
  unfold select_task, where_id. rewrite Hn. simpl.
  destruct (tasks db !! n); reflexivity.
Qed.

(** X6. GET /api/tasks/:id: an id that is not an integer from 1 on gives
    400; a valid id gives 404 when no task has it and otherwise 200 with the
    stored row, decorated; the store is never changed. *)
Theorem tasks_get_one_cases now req db :
  (tasks_get_one now req db).1 = db ∧
  ((∀ n, to_int (req_params req !! "id") = Some n → n < 1) →
   statusCode (tasks_get_one now req db).2 = 400) ∧
  (∀ n, to_int (req_params req !! "id") = Some n → 1 ≤ n →
     tasks_get_one now req db =
       (db, match tasks db !! n with
            | None => res_status_json 404 (JMessage "Task not found")
            | Some t =>
                res_json (JTask (with_badge (TasksRouter.getTaskBadge now)
                                   (task_row db n t)))
            end)).
Proof.
  split; [apply tasks_get_one_db | ].
  split; [ | apply tasks_get_one_valid].
  unfold tasks_get_one.
  destruct (run_chains id_chains req) as [req' errors] eqn:Hrun.
  apply id_chains_run in Hrun as (_ & Hparam & ->).
  intros Hbad. destruct (negb (isEmpty _)) eqn:He; [reflexivity | ].
  apply negb_false_iff, isEmpty_true, id_chains_validationResult in He
    as (n & Hn & H1).
  specialize (Hbad n Hn). lia.
Qed.

(** What POST /api/tasks does, in two cases: it refuses and writes nothing,
    or it adds one row under the key of the counter and answers 201 with
    that row. *)
Lemma tasks_post_cases now req db :
  ((tasks_post now req db).1 = db ∧ statusCode (tasks_post now req db).2 ≠ 201) ∨
  ∃ t, tasks db !! tasks_auto_increment db = None ∧
       Task.status t = "Backlog" ∧
       Task.priority t ∈ priorities ∧
       tasks_post now req db =
         ({| users := users db;
             tasks := <[tasks_auto_increment db := t]> (tasks db);
             comments := comments db;
             tasks_auto_increment := tasks_auto_increment db + 1 |},
          res_status_json 201
            (JMessageTask "Task created successfully"
               (with_badge (TasksRouter.getTaskBadge now)
                  (task_row
                     {| users := users db;
                        tasks := <[tasks_auto_increment db := t]> (tasks db);
                        comments := comments db;
                        tasks_auto_increment := tasks_auto_increment db + 1 |}
                     (tasks_auto_increment db) t)))).
Proof.
  unfold tasks_post.
  destruct (run_chains tasks_post_chains req) as [req' errors].
  destruct (negb (isEmpty errors)); [left; done | ].
  destruct (truthy _ && _); [left; done | ].
  destruct (insert_task _ _ _ _ _ _ _) as [[insertId db'] | ] eqn:Hins; [ | left; done].
  right. unfold insert_task in Hins.
  apply bind_Some in Hins as (x1 & H1 & Hins).
  apply bind_Some in Hins as (x2 & H2 & Hins).
  apply bind_Some in Hins as (x3 & H3 & Hins).
  apply bind_Some in Hins as (x4 & H4 & Hins).
  apply bind_Some in Hins as (x5 & H5 & Hins).
  destruct (tasks db !! tasks_auto_increment db) eqn:E; [discriminate | ].
  injection Hins as <- <-.
  exists {| Task.title := x1; Task.description := x2; Task.priority := x3;
            Task.assignee_id := x4; Task.status := "Backlog"; Task.due_date := x5;
            Task.created_at := now; Task.updated_at := now |}.
  split; [reflexivity | ]. split; [reflexivity | ]. split.
  - simpl. unfold sql_enum in H3.
    destruct (default (JStr "Medium") (req_body req' !! "priority")) as [ | b | m | s];
      try discriminate.
    destruct (bool_decide (s ∈ priorities)) eqn:Hb; [ | discriminate].
    apply bool_decide_eq_true in Hb. injection H3 as <-. exact Hb.
  - erewrite select_task_key_Some; [reflexivity | ].
    simpl. apply lookup_insert_eq.
Qed.

(** X7. POST /api/tasks touches nothing that is stored: users, comments and
    every existing task stay as they were; when it answers 400 the whole
    store is unchanged, and when it answers 201 the new task has the key of
    the counter, which no task had, and the counter moves on by one. *)
Theorem tasks_post_frame now req db :
  users (tasks_post now req db).1 = users db ∧
  comments (tasks_post now req db).1 = comments db ∧
  (∀ n t, tasks db !! n = Some t → tasks (tasks_post now req db).1 !! n = Some t) ∧
  (statusCode (tasks_post now req db).2 = 400 → (tasks_post now req db).1 = db) ∧
  (statusCode (tasks_post now req db).2 = 201 →
   tasks db !! tasks_auto_increment db = None ∧
   is_Some (tasks (tasks_post now req db).1 !! tasks_auto_increment db) ∧
   tasks_auto_increment (tasks_post now req db).1 = tasks_auto_increment db + 1).
Proof.
  destruct (tasks_post_cases now req db) as [[Hdb Hcode] | (t & Hfresh & _ & _ & Heq)].
  - rewrite Hdb. repeat split; try done.
  - rewrite Heq. simpl. repeat split; try done.
    + intros n t' Ht'. rewrite lookup_insert_ne; [exact Ht' | ]. congruence.
    + rewrite lookup_insert_eq. eauto.
Qed.

(** X8. Creating then fetching: when POST /api/tasks answers 201 with a
    task, a GET /api/tasks/:id for that task's id on the resulting store,
    at the same instant, answers 200 with the very same task. *)
Theorem tasks_post_then_get now req req' db task :
  1 ≤ tasks_auto_increment db →
  (tasks_post now req db).2 =
    res_status_json 201 (JMessageTask "Task created successfully" task) →
  to_int (req_params req' !! "id") = Some (TaskRow.id (row task)) →
  tasks_get_one now req' (tasks_post now req db).1 =
    ((tasks_post now req db).1, res_json (JTask task)).
Proof.
  intros H1 Hres Hid.
  destruct (tasks_post_cases now req db) as [[_ Hcode] | (t & Hfresh & _ & _ & Heq)].
  - rewrite Hres in Hcode. contradiction.
  - rewrite Heq in Hres |- *. cbn [fst snd] in *.
    injection Hres as <-. simpl in Hid.
    rewrite (tasks_get_one_valid now req' _ _ Hid H1). simpl.
    rewrite lookup_insert_eq. reflexivity.
Qed.

Lemma tasks_post_validationResult req :
  validationResult tasks_post_chains req = [] ↔
    (chain_value [trim; isLength 1 255] (req_body req !! "title")).2 = true ∧
    (chain_value [optional; trim] (req_body req !! "description")).2 = true ∧
    (chain_value [isIn priorities] (req_body req !! "priority")).2 = true ∧
    (chain_value [optional; isInt 1] (req_body req !! "assignee_id")).2 = true ∧
    (chain_value [optional; isISO8601] (req_body req !! "due_date")).2 = true.
Proof.
  unfold validationResult. rewrite run_chains_errors. unfold tasks_post_chains.
  cbn [chains_errors chain_at loc_eqb vc_location vc_field vc_items param body andb req_at].
  simpl String.eqb. cbv iota.
  repeat match goal with
         | |- context [(chain_value ?i ?v).2] => destruct (chain_value i v).2
         end; split; try discriminate; try pure_tauto;
    forget_libraries; intuition discriminate.
Qed.

(** X9. POST /api/tasks requires a title and a priority: a body without a
    priority, or whose title is absent or is empty once the validator has
    trimmed it of JavaScript's white space (the no-break space and the like
    included), is refused with 400 and nothing is written; the default
    'Medium' of the handler is never what gets stored for a missing
    priority. *)
Theorem tasks_post_required now req db :
  req_body req !! "priority" = None ∨
  trim_string (toString (req_body req !! "title")) = "" →
  statusCode (tasks_post now req db).2 = 400 ∧
  (tasks_post now req db).1 = db ∧
  validationResult tasks_post_chains req ≠ [].
Proof.
  intros Hbad.
  assert (Hinvalid : validationResult tasks_post_chains req ≠ []).
  { intros Hvalid. apply tasks_post_validationResult in Hvalid as (Ht & _ & Hp & _ & _).
    destruct Hbad as [Hbad | Hbad].
    - rewrite Hbad in Hp. discriminate.
    - unfold chain_value in Ht. simpl in Ht. rewrite Hbad in Ht. discriminate. }
  unfold tasks_post.
  destruct (run_chains tasks_post_chains req) as [req' errors] eqn:Hrun.
  apply tasks_post_run in Hrun as (_ & ->).
  destruct (negb (isEmpty _)) eqn:He; [done | ].
  apply negb_false_iff, isEmpty_true in He. contradiction.
Qed.

(** *** PUT /api/tasks/:id, what it writes *)

Lemma tasks_put_chains_title v :
  chains_value tasks_put_chains in_body "title" (Some v) =
    Some (JStr (trim_string (toString (Some v)))).
Proof. reflexivity. Qed.

Lemma tasks_put_chains_description v :
  chains_value tasks_put_chains in_body "description" (Some v) =
    Some (JStr (trim_string (toString (Some v)))).
Proof. reflexivity. Qed.

Lemma collect_updates_complete o fields updates c v :
  collect_updates o fields = Some updates → c ∈ fields → o !! c = Some v →
  (c, v) ∈ updates.
Proof.
  revert updates. induction fields as [ | f r IH]; intros updates; simpl.
  - intros _ H. inversion H.
  - unfold js_hasOwnProperty.
    destruct (o !! "hasOwnProperty"); [discriminate | ]. simpl.
    destruct (collect_updates o r) as [rest | ] eqn:E; [ | discriminate]. simpl.
    intros [= <-] Hin Hv. apply elem_of_cons in Hin as [-> | Hin].
    + rewrite bool_decide_eq_true_2 by eauto. rewrite Hv. left.
    + case_bool_decide; [right | ]; apply (IH rest eq_refl Hin Hv).
Qed.

Lemma collect_updates_fields o fields updates :
  collect_updates o fields = Some updates → NoDup fields →
  NoDup updates.*1 ∧ ∀ c, c ∈ updates.*1 → c ∈ fields.
Proof.
  revert updates. induction fields as [ | f r IH]; intros updates; simpl.
  - intros [= <-] _. split; [constructor | ]. intros c H. inversion H.
  - unfold js_hasOwnProperty.
    destruct (o !! "hasOwnProperty"); [discriminate | ]. simpl.
    destruct (collect_updates o r) as [rest | ] eqn:E; [ | discriminate]. simpl.
    intros [= <-] Hnd. apply NoDup_cons in Hnd as [Hf Hr].
    destruct (IH rest eq_refl Hr) as [IH1 IH2].
    case_bool_decide; simpl.
    + split.
      * apply NoDup_cons. split; [ | exact IH1]. intros Hin. apply Hf, IH2, Hin.
      * intros c Hc. apply elem_of_cons in Hc as [-> | Hc]; [left | right; apply IH2, Hc].
    + split; [exact IH1 | ]. intros c Hc. right. apply IH2, Hc.
Qed.

Lemma NoDup_updatable_fields : NoDup updatable_fields.
Proof.
  unfold updatable_fields.
  repeat (apply NoDup_cons; split;
          [intros H; elem_cases H; discriminate | ]).
  constructor.
Qed.

(** With each column assigned at most once, the row carries what its
    assignment wrote. *)
Lemma set_columns_written t t' updates c v :
  set_columns t updates = Some t' → NoDup updates.*1 → (c, v) ∈ updates →
  ∃ t1 t2, set_column t1 (c, v) = Some t2 ∧ column c t' = column c t2.
Proof.
  revert t. induction updates as [ | [c0 v0] r IH]; intros t; simpl.
  - intros _ _ H. inversion H.
  - intros H Hnd Hin. apply bind_Some in H as (t1 & H1 & H2).
    apply NoDup_cons in Hnd as [Hc0 Hr].
    apply elem_of_cons in Hin as [[= -> ->] | Hin].
    + exists t, t1. split; [exact H1 | ].
      apply (set_columns_frame _ _ _ _ H2).
      intros w Hw. apply Hc0. apply list_elem_of_fmap. exists (c0, w). done.
    + apply (IH t1 H2 Hr Hin).
Qed.

(** What PUT /api/tasks/:id does, in two cases: it refuses and writes
    nothing, or it rewrites the one row the id names, from the fields that
    the validated body has, and answers 200 with that row. *)
Lemma tasks_put_cases now req db :
  ((tasks_put now req db).1 = db ∧ statusCode (tasks_put now req db).2 ≠ 200) ∨
  ∃ req' n t t' updates,
    run_chains tasks_put_chains req = (req', []) ∧
    to_int (req_params req !! "id") = Some n ∧
    tasks db !! n = Some t ∧
    collect_updates (req_body req') updatable_fields = Some updates ∧
    set_columns t updates = Some t' ∧
    tasks_put now req db =
      ({| users := users db;
          tasks := <[n := touch now t']> (tasks db);
          comments := comments db;
          tasks_auto_increment := tasks_auto_increment db |},
       res_json
         (JMessageTask "Task updated successfully"
            (with_badge (TasksRouter.getTaskBadge now)
               (task_row
                  {| users := users db;
                     tasks := <[n := touch now t']> (tasks db);
                     comments := comments db;
                     tasks_auto_increment := tasks_auto_increment db |}
                  n (touch now t'))))).
Proof.
  unfold tasks_put.
  destruct (run_chains tasks_put_chains req) as [req' errors] eqn:Hrun.
  destruct (negb (isEmpty errors)) eqn:He; [left; done | ].
  apply negb_false_iff, isEmpty_true in He. subst errors.
  destruct (tasks_put_run _ _ _ Hrun) as (_ & Hparam & _ & _ & _).
  rewrite Hparam.
  destruct (where_id (tasks db) _) as [[n t] | ] eqn:Hw; [ | left; done].
  apply where_id_inv in Hw as [Hid Ht].
  destruct (truthy _ && _); [left; done | ].
  destruct (collect_updates _ _) as [updates | ] eqn:Hc; [ | left; done].
  destruct updates as [ | u updates]; [left; done | ].
  destruct (update_task _ _ _ _) as [db' | ] eqn:Hu; [ | left; done].
  right. unfold update_task in Hu. rewrite (where_id_Some _ _ _ _ Hid Ht) in Hu.
  apply bind_Some in Hu as (t' & Hset & [= <-]).
  exists req', n, t, t', (u :: updates).
  repeat (split; [done | ]).
  erewrite select_task_Some; [reflexivity | exact Hid | ].
  simpl. apply lookup_insert_eq.
Qed.

(** *** PUT /api/tasks/:id, when it writes *)

Lemma collect_updates_total o fields :
  o !! "hasOwnProperty" = None → is_Some (collect_updates o fields).
Proof.
  intros H. induction fields as [ | f r [rest IH]]; simpl; [eauto | ].
  unfold js_hasOwnProperty. rewrite H. simpl. rewrite IH. simpl. eauto.
Qed.

Lemma set_columns_total t updates :
  (∀ cv t0, cv ∈ updates → is_Some (set_column t0 cv)) →
  is_Some (set_columns t updates).
Proof.
  revert t. induction updates as [ | cv r IH]; intros t H; simpl; [eauto | ].
  destruct (H cv t ltac:(left)) as [t1 H1]. rewrite H1. simpl.
  apply IH. intros cv' t0 Hin. apply H. right. exact Hin.
Qed.

(** An acceptable update of an existing task is written and answered 200. *)
Lemma tasks_put_accepted now req db n t :
  to_int (req_params req !! "id") = Some n → 1 ≤ n →
  tasks db !! n = Some t →
  acceptable_update db (req_body req) →
  statusCode (tasks_put now req db).2 = 200.
Proof.
  intros Hid Hn Ht (Hhas & (c0 & Hc0 & [v0 Hv0]) & Htitle & _ & Hpriority & Hstatus &
                    Hassignee & Hdue).
  assert (Hvalid : validationResult tasks_put_chains req = []).
  { apply tasks_put_validationResult.
    split; [ | split; [ | split; [ | split; [ | split; [ | split]]]]].
    - unfold chain_value. simpl. rewrite Hid. apply Z.leb_le in Hn. rewrite Hn. reflexivity.
    - destruct (req_body req !! "title") as [v | ] eqn:E; [ | reflexivity].
      destruct (Htitle v eq_refl) as [[H1 H2] _].
      unfold chain_value.
      cbn [is_optional existsb orb andb negb foldl run_item snd fst].
      rewrite bool_decide_eq_true_2 by eauto.
      apply Nat.leb_le in H1, H2.
      change (toString (Some (JStr ?s))) with s.
      rewrite H1, H2. reflexivity.
    - destruct (req_body req !! "description") as [v | ] eqn:E; reflexivity.
    - destruct (req_body req !! "priority") as [v | ] eqn:E; [ | reflexivity].
      destruct (Hpriority v eq_refl) as (s & -> & Hs).
      unfold chain_value. simpl. rewrite bool_decide_eq_true_2 by exact Hs. reflexivity.
    - destruct (req_body req !! "status") as [v | ] eqn:E; [ | reflexivity].
      destruct (Hstatus v eq_refl) as (s & -> & Hs).
      unfold chain_value. simpl. rewrite bool_decide_eq_true_2 by exact Hs. reflexivity.
    - destruct (req_body req !! "assignee_id") as [v | ] eqn:E; [ | reflexivity].
      destruct (Hassignee v eq_refl) as (a & Ha & Ha1 & _).
      unfold chain_value.
      cbn [is_optional existsb orb andb negb foldl run_item snd fst].
      rewrite bool_decide_eq_true_2 by eauto.
      rewrite Ha. apply Z.leb_le in Ha1. rewrite Ha1. reflexivity.
    - destruct (req_body req !! "due_date") as [v | ] eqn:E; [ | reflexivity].
      destruct (Hdue v eq_refl) as (s & -> & Hs & _).
      unfold chain_value. simpl. rewrite Hs. reflexivity. }
  unfold tasks_put.
  destruct (run_chains tasks_put_chains req) as [req' errors] eqn:Hrun.
  pose proof Hrun as Hview. apply run_chains_view in Hview as (Hat & _ & _).
  apply tasks_put_run in Hrun as (_ & Hparam & Habsent & Hother & ->).
  rewrite Hvalid, isEmpty_nil. cbn [negb]. rewrite Hparam.
  rewrite (where_id_Some _ _ _ _ Hid Ht).
  assert (Hgate : truthy (req_body req' !! "assignee_id") &&
                  negb (bool_decide (is_Some (where_id (users db)
                                                (req_body req' !! "assignee_id")))) = false).
  { rewrite (Hother "assignee_id") by discriminate.
    destruct (req_body req !! "assignee_id") as [v | ] eqn:E; [ | reflexivity].
    destruct (Hassignee v eq_refl) as (a & Ha & _ & [u Hu]).
    rewrite (where_id_Some _ _ _ _ Ha Hu).
    rewrite bool_decide_eq_true_2 by eauto. apply andb_false_r. }
  rewrite Hgate.
  destruct (collect_updates_total (req_body req') updatable_fields) as [updates Hc].
  { rewrite (Hother "hasOwnProperty") by discriminate. exact Hhas. }
  rewrite Hc.
  assert (Hbody : ∀ c, req_body req' !! c =
                       chains_value tasks_put_chains in_body c (req_body req !! c)).
  { intros c. apply (Hat in_body c). }
  assert (Hsets : ∀ cv t0, cv ∈ updates → is_Some (set_column t0 cv)).
  { intros [c v'] t0 Hin.
    destruct (collect_updates_elem _ _ _ _ _ Hc Hin) as [Hf Hv'].
    rewrite Hbody in Hv'.
    unfold updatable_fields in Hf. elem_cases Hf; subst c.
    - destruct (req_body req !! "title") as [v | ] eqn:E;
        [ | rewrite tasks_put_chains_body_None in Hv'; discriminate].
      rewrite tasks_put_chains_title in Hv'. injection Hv' as <-.
      unfold set_column. simpl. eauto.
    - destruct (req_body req !! "description") as [v | ] eqn:E;
        [ | rewrite tasks_put_chains_body_None in Hv'; discriminate].
      rewrite tasks_put_chains_description in Hv'. injection Hv' as <-.
      unfold set_column. simpl. eauto.
    - rewrite (tasks_put_chains_body_other "priority" _
                 ltac:(discriminate) ltac:(discriminate)) in Hv'.
      destruct (Hpriority v' Hv') as (s & -> & Hs).
      unfold set_column. simpl. rewrite bool_decide_eq_true_2 by exact Hs. simpl. eauto.
    - rewrite (tasks_put_chains_body_other "status" _
                 ltac:(discriminate) ltac:(discriminate)) in Hv'.
      destruct (Hstatus v' Hv') as (s & -> & Hs).
      unfold set_column. simpl. rewrite bool_decide_eq_true_2 by exact Hs. simpl. eauto.
    - rewrite (tasks_put_chains_body_other "assignee_id" _
                 ltac:(discriminate) ltac:(discriminate)) in Hv'.
      destruct (Hassignee v' Hv') as (a & Ha & _ & _).
      unfold set_column. simpl. unfold sql_nullable, sql_int.
      destruct v'; [discriminate Ha | | | ]; rewrite Ha; simpl; eauto.
    - rewrite (tasks_put_chains_body_other "due_date" _
                 ltac:(discriminate) ltac:(discriminate)) in Hv'.
      destruct (Hdue v' Hv') as (s & -> & _ & [ms Hms]).
      unfold set_column. simpl. rewrite Hms. simpl. eauto. }
  assert (Hmem : ∃ v', (c0, v') ∈ updates).
  { assert (Hsome : is_Some (req_body req' !! c0)).
    { rewrite Hbody, Hv0. unfold updatable_fields in Hc0. elem_cases Hc0; subst c0;
        first [ rewrite tasks_put_chains_title; eauto
              | rewrite tasks_put_chains_description; eauto
              | rewrite tasks_put_chains_body_other; [eauto | discriminate | discriminate] ]. }
    destruct Hsome as [v' Hv']. exists v'.
    apply (collect_updates_complete _ _ _ _ _ Hc Hc0 Hv'). }
  destruct updates as [ | u updates].
  { destruct Hmem as [v' Hin]. inversion Hin. }
  unfold update_task. rewrite (where_id_Some _ _ _ _ Hid Ht).
  destruct (set_columns_total t (u :: updates) Hsets) as [t' Hset].
  rewrite Hset. cbn [mbind option_bind].
  erewrite select_task_Some; [reflexivity | exact Hid | ].
  simpl. apply lookup_insert_eq.
Qed.

(** C5. A PUT /api/tasks/:id on an existing task leaves every updatable
    column that the body does not name at its stored value, and the
    creation time too; when the update is written (the request is answered
    200) the row's updated_at is the time of the request; and the update is
    written, the row's updated_at being the time of the request, whenever
    the id is at least 1 and the body is an acceptable update: some of the
    six fields, each passing its validators and taken by its column, the
    assignee an existing user. *)
Theorem tasks_put_frame now req db n t :
  to_int (req_params req !! "id") = Some n →
  tasks db !! n = Some t →
  ∃ t', tasks (tasks_put now req db).1 !! n = Some t' ∧
        (∀ c, c ∈ updatable_fields → req_body req !! c = None →
              column c t' = column c t) ∧
        column "created_at" t' = column "created_at" t ∧
        (statusCode (tasks_put now req db).2 = 200 → Task.updated_at t' = now) ∧
        (1 ≤ n → acceptable_update db (req_body req) → Task.updated_at t' = now).
Proof.
  intros Hid Ht.
  assert (Haccepted : 1 ≤ n → acceptable_update db (req_body req) →
                      statusCode (tasks_put now req db).2 = 200).
  { intros Hn Hacc. apply (tasks_put_accepted now req db n t Hid Hn Ht Hacc). }
  revert Haccepted. unfold tasks_put.
  destruct (run_chains tasks_put_chains req) as [req' errors] eqn:Hrun.
  apply tasks_put_run in Hrun as (_ & Hparam & Habsent & _ & _).
  assert (Hsame : ∀ res : Response,
            statusCode res ≠ 200 →
            (1 ≤ n → acceptable_update db (req_body req) → statusCode res = 200) →
            ∃ t', tasks db !! n = Some t' ∧
                  (∀ c, c ∈ updatable_fields → req_body req !! c = None →
                        column c t' = column c t) ∧
                  column "created_at" t' = column "created_at" t ∧
                  (statusCode res = 200 → Task.updated_at t' = now) ∧
                  (1 ≤ n → acceptable_update db (req_body req) →
                   Task.updated_at t' = now)).
  { intros res Hres Ha. exists t.
    split; [exact Ht | ]. split; [reflexivity | ]. split; [reflexivity | ].
    split; [intros H; contradiction | ].
    intros Hn Hacc. destruct (Hres (Ha Hn Hacc)). }
  destruct (negb (isEmpty errors)); [apply Hsame; discriminate | ].
  rewrite Hparam, (where_id_Some _ _ _ _ Hid Ht).
  destruct (truthy _ && _); [apply Hsame; discriminate | ].
  destruct (collect_updates (req_body req') updatable_fields) as [updates | ] eqn:Hc;
    [ | apply Hsame; discriminate].
  destruct updates as [ | u updates]; [apply Hsame; discriminate | ].
  destruct (update_task db now (u :: updates) (req_params req !! "id")) as [db' | ] eqn:Hu;
    [ | apply Hsame; discriminate].
  destruct (update_task_inv _ _ _ _ _ _ _ Hu Hid Ht) as (t' & Hset & Htasks & _ & _).
  intros _. exists (touch now t').
  assert (Hgoal : tasks db' !! n = Some (touch now t') ∧
            (∀ c, c ∈ updatable_fields → req_body req !! c = None →
                  column c (touch now t') = column c t) ∧
            column "created_at" (touch now t') = column "created_at" t ∧
            Task.updated_at (touch now t') = now).
  { split; [rewrite Htasks; apply lookup_insert_eq | ].
    split; [ | split; [ | reflexivity]].
    - intros c Hin Hnone.
      rewrite column_touch
        by (intros ->; unfold updatable_fields in Hin; elem_cases Hin; discriminate).
      apply (set_columns_frame _ _ _ _ Hset).
      intros v Hv. destruct (collect_updates_elem _ _ _ _ _ Hc Hv) as [_ Hsome].
      rewrite (Habsent c Hnone) in Hsome. discriminate.
    - rewrite column_touch by discriminate.
      apply (set_columns_frame _ _ _ _ Hset).
      intros v Hv. destruct (collect_updates_elem _ _ _ _ _ Hc Hv) as [Hin _].
      unfold updatable_fields in Hin. elem_cases Hin; discriminate. }
  destruct Hgoal as (G1 & G2 & G3 & G4).
  destruct (select_task db' (req_params req !! "id")); simpl; done.
Qed.

(** X10. A PUT /api/tasks/:id leaves alone everything but the row it names:
    users, comments, the counter and every other task are unchanged, no
    task appears or disappears, and a PUT that is answered 400 or 404
    changes nothing at all. *)
Theorem tasks_put_others_untouched now req db :
  users (tasks_put now req db).1 = users db ∧
  comments (tasks_put now req db).1 = comments db ∧
  tasks_auto_increment (tasks_put now req db).1 = tasks_auto_increment db ∧
  (∀ m, to_int (req_params req !! "id") ≠ Some m →
        tasks (tasks_put now req db).1 !! m = tasks db !! m) ∧
  (∀ m, is_Some (tasks (tasks_put now req db).1 !! m) ↔ is_Some (tasks db !! m)) ∧
  (statusCode (tasks_put now req db).2 = 400 ∨ statusCode (tasks_put now req db).2 = 404 →
   (tasks_put now req db).1 = db).
Proof.
  destruct (tasks_put_cases now req db)
    as [[Hdb Hcode] | (req' & n & t & t' & updates & _ & Hid & Ht & _ & _ & Heq)].
  - rewrite Hdb. repeat split; try done.
  - rewrite Heq. simpl. repeat split; try done.
    + intros m Hm. apply lookup_insert_ne. congruence.
    + destruct (decide (n = m)) as [<- | Hne].
      * rewrite lookup_insert_eq, Ht. done.
      * rewrite lookup_insert_ne by exact Hne. done.
    + destruct (decide (n = m)) as [<- | Hne].
      * rewrite lookup_insert_eq. eauto.
      * rewrite lookup_insert_ne by exact Hne. done.
    + intros [H | H]; discriminate H.
Qed.

(** The assignment that a written PUT makes to a column its body names:
    [v'] is what the chains left of the member. *)
Lemma tasks_put_written now req db n t' c v v' :
  statusCode (tasks_put now req db).2 = 200 →
  to_int (req_params req !! "id") = Some n →
  tasks (tasks_put now req db).1 !! n = Some t' →
  c ∈ updatable_fields →
  req_body req !! c = Some v →
  chains_value tasks_put_chains in_body c (Some v) = Some v' →
  validationResult tasks_put_chains req = [] ∧
  ∃ t1 t2, set_column t1 (c, v') = Some t2 ∧ column c t' = column c t2.
Proof.
  intros Hcode Hid Hlk Hin Hv Hv'.
  destruct (tasks_put_cases now req db)
    as [[_ Hne] | (req' & n' & t & t0 & updates & Hrun & Hid' & Ht & Hc & Hset & Heq)];
    [contradiction | ].
  rewrite Hid in Hid'. injection Hid' as <-.
  rewrite Heq in Hlk. simpl in Hlk. rewrite lookup_insert_eq in Hlk. injection Hlk as <-.
  split.
  { apply tasks_put_run in Hrun as (_ & _ & _ & _ & Herr). symmetry. exact Herr. }
  apply run_chains_view in Hrun as (Hat & _ & _).
  assert (Hbody : req_body req' !! c = Some v').
  { pose proof (Hat in_body c) as Hb. simpl in Hb. rewrite Hb, Hv. exact Hv'. }
  destruct (collect_updates_fields _ _ _ Hc NoDup_updatable_fields) as [Hnd _].
  pose proof (collect_updates_complete _ _ _ _ _ Hc Hin Hbody) as Hmem.
  destruct (set_columns_written _ _ _ _ _ Hset Hnd Hmem) as (t1 & t2 & H1 & H2).
  exists t1, t2. split; [exact H1 | ].
  rewrite column_touch; [exact H2 | ].
  intros ->. unfold updatable_fields in Hin. elem_cases Hin; discriminate.
Qed.


(** *** DELETE /api/tasks/:id *)

(** What DELETE /api/tasks/:id does, in two cases: it refuses with 400 or
    404 and writes nothing, or it deletes the row the id names, and with it
    the comments of that task, and answers 200. *)
Lemma tasks_delete_cases now req db :
  ((tasks_delete now req db).1 = db ∧
   (statusCode (tasks_delete now req db).2 = 400 ∨
    statusCode (tasks_delete now req db).2 = 404)) ∨
  ∃ n t,
    to_int (req_params req !! "id") = Some n ∧ 1 ≤ n ∧
    tasks db !! n = Some t ∧
    tasks_delete now req db =
      ({| users := users db;
          tasks := delete n (tasks db);
          comments := filter (λ kc, Comment.task_id kc.2 ≠ n) (comments db);
          tasks_auto_increment := tasks_auto_increment db |},
       res_json (JMessage "Task deleted successfully")).
Proof.
  unfold tasks_delete.
  destruct (run_chains id_chains req) as [req' errors] eqn:Hrun.
  apply id_chains_run in Hrun as (_ & Hparam & ->).
  destruct (negb (isEmpty _)) eqn:He; [left; simpl; auto | ].
  apply negb_false_iff, isEmpty_true, id_chains_validationResult in He
    as (n & Hn & H1).
  rewrite Hparam.
  destruct (where_id (tasks db) _) as [[m t] | ] eqn:Hw; [ | left; simpl; auto].
  apply where_id_inv in Hw as [Hm Ht]. rewrite Hn in Hm. injection Hm as <-.
  right. exists n, t. repeat (split; [done | ]).
  unfold delete_task. rewrite Hn. reflexivity.
Qed.

Lemma tasks_delete_missing now req db n :
  to_int (req_params req !! "id") = Some n → 1 ≤ n → tasks db !! n = None →
  tasks_delete now req db = (db, res_status_json 404 (JMessage "Task not found")).
Proof.
  intros Hn H1 Hnone. unfold tasks_delete.
  destruct (run_chains id_chains req) as [req' errors] eqn:Hrun.
  apply id_chains_run in Hrun as (_ & Hparam & ->).
  assert (Hvalid : validationResult id_chains req = []).
  { apply id_chains_validationResult. eauto. }
  rewrite Hvalid, isEmpty_nil. cbn [negb]. rewrite Hparam.
  unfold where_id. rewrite Hn. simpl. rewrite Hnone. reflexivity.
Qed.

Lemma tasks_put_missing now req db n :
  to_int (req_params req !! "id") = Some n → tasks db !! n = None →
  statusCode (tasks_put now req db).2 = 400 ∨
  tasks_put now req db = (db, res_status_json 404 (JMessage "Task not found")).
Proof.
  intros Hn Hnone. unfold tasks_put.
  destruct (run_chains tasks_put_chains req) as [req' errors] eqn:Hrun.
  apply tasks_put_run in Hrun as (_ & Hparam & _).
  destruct (negb (isEmpty errors)); [left; reflexivity | ].
  right. rewrite Hparam. unfold where_id. rewrite Hn. simpl. rewrite Hnone. reflexivity.
Qed.

(** X12. DELETE /api/tasks/:id answers 200 exactly when the id is an
    integer from 1 on that a stored task has. Then that task is gone,
    together with the comments that belong to it and no other comment;
    every other task, the users and the counter are as before. Otherwise
    the answer is 400 or 404 and the store is unchanged. *)
Theorem tasks_delete_cascade now req db :
  (statusCode (tasks_delete now req db).2 = 200 ↔
   ∃ n, to_int (req_params req !! "id") = Some n ∧ 1 ≤ n ∧ is_Some (tasks db !! n)) ∧
  (statusCode (tasks_delete now req db).2 ≠ 200 →
   (tasks_delete now req db).1 = db ∧
   (statusCode (tasks_delete now req db).2 = 400 ∨
    statusCode (tasks_delete now req db).2 = 404)) ∧
  (statusCode (tasks_delete now req db).2 = 200 →
   ∀ n, to_int (req_params req !! "id") = Some n →
     tasks (tasks_delete now req db).1 !! n = None ∧
     (∀ m, m ≠ n → tasks (tasks_delete now req db).1 !! m = tasks db !! m) ∧
     (∀ k c, comments (tasks_delete now req db).1 !! k = Some c ↔
             comments db !! k = Some c ∧ Comment.task_id c ≠ n) ∧
     users (tasks_delete now req db).1 = users db ∧
     tasks_auto_increment (tasks_delete now req db).1 = tasks_auto_increment db).
Proof.
  destruct (tasks_delete_cases now req db)
    as [[Hdb Hcode] | (n & t & Hn & H1 & Ht & Heq)].
  - split; [ | split].
    + split.
      * intros H. rewrite H in Hcode. destruct Hcode; discriminate.
      * intros (n & Hn & H1 & [t Ht]).
        destruct (tasks_delete_cases now req db)
          as [[_ _] | (n' & t' & _ & _ & _ & Heq)].
        -- exfalso.
           assert (Hvalid : validationResult id_chains req = []).
           { apply id_chains_validationResult. eauto. }
           revert Hcode. unfold tasks_delete.
           destruct (run_chains id_chains req) as [req' errors] eqn:Hrun.
           apply id_chains_run in Hrun as (_ & Hparam & ->).
           rewrite Hvalid, isEmpty_nil. cbn [negb].
           rewrite Hparam, (where_id_Some _ _ _ _ Hn Ht). simpl.
           intros [H | H]; discriminate.
        -- rewrite Heq. reflexivity.
    + intros _. split; assumption.
    + intros H. rewrite H in Hcode. destruct Hcode; discriminate.
  - rewrite Heq. simpl. split; [ | split].
    + split; [ | reflexivity]. intros _. exists n. eauto.
    + intros H. contradiction.
    + intros _ n' Hn'. rewrite Hn in Hn'. injection Hn' as <-.
      split; [apply lookup_delete_eq | ].
      split; [intros m Hm; apply lookup_delete_ne; congruence | ].
      split; [ | done].
      intros k c. rewrite map_lookup_filter_Some. simpl. reflexivity.
Qed.

(** X13. A deleted task is gone for every later request on the store that
    the DELETE left: a GET or a second DELETE of the same id is answered
    404, and a PUT 404 or, when its body does not validate, 400; none of
    them writes. *)
Theorem tasks_delete_then_gone now now' req req' db :
  statusCode (tasks_delete now req db).2 = 200 →
  to_int (req_params req' !! "id") = to_int (req_params req !! "id") →
  tasks_get_one now' req' (tasks_delete now req db).1 =
    ((tasks_delete now req db).1, res_status_json 404 (JMessage "Task not found")) ∧
  tasks_delete now' req' (tasks_delete now req db).1 =
    ((tasks_delete now req db).1, res_status_json 404 (JMessage "Task not found")) ∧
  (tasks_put now' req' (tasks_delete now req db).1).1 = (tasks_delete now req db).1 ∧
  (statusCode (tasks_put now' req' (tasks_delete now req db).1).2 = 400 ∨
   statusCode (tasks_put now' req' (tasks_delete now req db).1).2 = 404).
Proof.
  intros Hcode Hsame.
  destruct (tasks_delete_cases now req db)
    as [[_ Hbad] | (n & t & Hn & H1 & Ht & Heq)].
  { rewrite Hcode in Hbad. destruct Hbad; discriminate. }
  rewrite Hn in Hsame. rewrite Heq. cbn [fst].
  set (db' := {| users := users db; tasks := delete n (tasks db);
                 comments := filter (λ kc, Comment.task_id kc.2 ≠ n) (comments db);
                 tasks_auto_increment := tasks_auto_increment db |}).
  assert (Hgone : tasks db' !! n = None) by apply lookup_delete_eq.
  split; [ | split].
  - rewrite (tasks_get_one_valid now' req' db' n Hsame H1), Hgone. reflexivity.
  - apply (tasks_delete_missing now' req' db' n Hsame H1 Hgone).
  - destruct (tasks_put_missing now' req' db' n Hsame Hgone) as [H | H].
    + split; [ | left; exact H].
      destruct (tasks_put_cases now' req' db') as [[Hdb _] | (? & ? & ? & ? & ? & _ & _ & _ & _ & _ & Heq')].
      * exact Hdb.
      * rewrite Heq' in H. discriminate.
    + rewrite H. split; [reflexivity | right; reflexivity].
Qed.

(** *** PUT and DELETE /api/comments/:id *)

(** What PUT /api/comments/:id does, in two cases: it writes nothing and
    does not answer 200, or the caller is the author of the comment the id
    names and the comment gets the trimmed body. *)
Lemma comments_put_cases now req db :
  ((comments_put now req db).1 = db ∧ statusCode (comments_put now req db).2 ≠ 200) ∨
  ∃ n c user,
    to_int (req_params req !! "id") = Some n ∧ 1 ≤ n ∧
    comments db !! n = Some c ∧
    req_user req = Some user ∧ Comment.author_id c = user_id user ∧
    (comments_put now req db).1 =
      {| users := users db; tasks := tasks db;
         comments :=
           <[n := {| Comment.task_id := Comment.task_id c;
                     Comment.author_id := Comment.author_id c;
                     Comment.body := trim_string (toString (req_body req !! "body"));
                     Comment.created_at := Comment.created_at c |}]> (comments db);
         tasks_auto_increment := tasks_auto_increment db |}.
Proof.
  unfold comments_put.
  destruct (run_chains comments_put_chains req) as [req' errors] eqn:Hrun.
  pose proof (run_chains_view _ _ _ _ Hrun) as (Hat & _ & _).
  pose proof (Hat in_body "body") as Hbody. simpl in Hbody.
  apply comments_put_run in Hrun as (Hu & Hparam & ->).
  destruct (negb (isEmpty _)) eqn:He; [left; done | ].
  apply negb_false_iff, isEmpty_true in He.
  assert (Hid : ∃ n, to_int (req_params req !! "id") = Some n ∧ 1 ≤ n).
  { revert He. unfold validationResult. rewrite run_chains_errors.
    unfold comments_put_chains. intros H.
    apply chains_errors_nil in H as [H _].
    apply chain_value_isInt in H. exact H. }
  destruct Hid as (n & Hn & H1).
  rewrite Hu, Hparam.
  destruct (req_user req) as [user | ]; [ | left; done].
  destruct (where_id (comments db) _) as [[m c] | ] eqn:Hw; [ | left; done].
  pose proof (where_id_inv _ _ _ _ Hw) as [Hm Hc].
  rewrite Hn in Hm. injection Hm as <-.
  destruct (negb (Comment.author_id c =? user_id user)) eqn:Hauth; [left; done | ].
  apply negb_false_iff, Z.eqb_eq in Hauth.
  unfold update_comment. rewrite Hw, Hbody.
  unfold chain_value. cbn [is_optional existsb orb andb foldl run_item fst default].
  unfold id. cbn [sql_text toString]. cbn [mbind option_bind].
  destruct (select_comment _ _); right; exists n, c, user; done.
Qed.

(** What DELETE /api/comments/:id does, in two cases: it writes nothing and
    does not answer 200, or the caller is the author of the comment the id
    names and that comment is deleted. *)
Lemma comments_delete_cases now req db :
  ((comments_delete now req db).1 = db ∧
   statusCode (comments_delete now req db).2 ≠ 200) ∨
  ∃ n c user,
    to_int (req_params req !! "id") = Some n ∧ 1 ≤ n ∧
    comments db !! n = Some c ∧
    req_user req = Some user ∧ Comment.author_id c = user_id user ∧
    comments_delete now req db =
      ({| users := users db; tasks := tasks db;
          comments := delete n (comments db);
          tasks_auto_increment := tasks_auto_increment db |},
       res_json (JMessage "Comment deleted successfully")).
Proof.
  unfold comments_delete.
  destruct (run_chains id_chains req) as [req' errors] eqn:Hrun.
  apply id_chains_run in Hrun as (Hu & Hparam & ->).
  destruct (negb (isEmpty _)) eqn:He; [left; done | ].
  apply negb_false_iff, isEmpty_true, id_chains_validationResult in He
    as (n & Hn & H1).
  rewrite Hu, Hparam.
  destruct (req_user req) as [user | ]; [ | left; done].
  destruct (where_id (comments db) _) as [[m c] | ] eqn:Hw; [ | left; done].
  pose proof (where_id_inv _ _ _ _ Hw) as [Hm Hc].
  rewrite Hn in Hm. injection Hm as <-.
  destruct (negb (Comment.author_id c =? user_id user)) eqn:Hauth; [left; done | ].
  apply negb_false_iff, Z.eqb_eq in Hauth.
  right. exists n, c, user. repeat (split; [done | ]).
  unfold delete_comment. rewrite Hn. reflexivity.
Qed.

(** ** Invariants of the store, over every route *)

Lemma protected_preserves (P : Db → Prop) (h : Handler) now req db :
  P db → (∀ req', P (h now req' db).1) → P (protected h now req db).1.
Proof.
  intros Hdb Hh. unfold protected.
  destruct (authenticateToken req db) as [res | req']; [exact Hdb | apply Hh].
Qed.

Lemma set_column_enums t cv t' :
  set_column t cv = Some t' →
  Task.priority t ∈ priorities ∧ Task.status t ∈ statuses →
  Task.priority t' ∈ priorities ∧ Task.status t' ∈ statuses.
Proof.
  destruct cv as [c v]. unfold set_column. intros H Ht.
  repeat match type of H with
         | (if String.eqb c ?s then _ else _) = _ =>
             destruct (String.eqb c s);
             [apply bind_Some in H as (x & Hx & [= <-]); simpl;
              try exact Ht | ]
         end; [ | | discriminate].
  - unfold sql_enum in Hx. destruct v; try discriminate.
    destruct (bool_decide (s ∈ priorities)) eqn:Hb; [ | discriminate].
    apply bool_decide_eq_true in Hb. injection Hx as <-.
    split; [exact Hb | apply Ht].
  - unfold sql_enum in Hx. destruct v; try discriminate.
    destruct (bool_decide (s ∈ statuses)) eqn:Hb; [ | discriminate].
    apply bool_decide_eq_true in Hb. injection Hx as <-.
    split; [apply Ht | exact Hb].
Qed.

Lemma set_columns_enums t updates t' :
  set_columns t updates = Some t' →
  Task.priority t ∈ priorities ∧ Task.status t ∈ statuses →
  Task.priority t' ∈ priorities ∧ Task.status t' ∈ statuses.
Proof.
  revert t. induction updates as [ | cv r IH]; intros t; simpl.
  - intros [= ->] H. exact H.
  - intros H Ht. apply bind_Some in H as (t1 & H1 & H2).
    apply (IH t1 H2). apply (set_column_enums t cv t1 H1 Ht).
Qed.

Lemma handler_enums_valid (r : Route) now req db :
  enums_valid db → enums_valid (handler_of r now req db).1.
Proof.
  intros Hdb. destruct r; cbn [handler_of].
  - rewrite tasks_get_all_db. exact Hdb.
  - rewrite tasks_get_one_db. exact Hdb.
  - destruct (tasks_post_cases now req db)
      as [[-> _] | (t & _ & Hst & Hpr & ->)]; [exact Hdb | ].
    intros n t0. simpl. destruct (decide (tasks_auto_increment db = n)) as [-> | Hne].
    + rewrite lookup_insert_eq. intros [= <-]. rewrite Hst. split; [exact Hpr | ].
      unfold statuses. elem_solve.
    + rewrite lookup_insert_ne by exact Hne. apply Hdb.
  - destruct (tasks_put_cases now req db)
      as [[-> _] | (req' & n & t & t' & updates & _ & _ & Ht & _ & Hset & ->)];
      [exact Hdb | ].
    intros m t0. simpl. destruct (decide (n = m)) as [-> | Hne].
    + rewrite lookup_insert_eq. intros [= <-].
      apply (set_columns_enums t updates t' Hset). apply (Hdb m t Ht).
    + rewrite lookup_insert_ne by exact Hne. apply Hdb.
  - destruct (tasks_delete_cases now req db)
      as [[-> _] | (n & t & _ & _ & _ & ->)]; [exact Hdb | ].
    intros m t0. simpl. intros H. apply lookup_delete_Some in H as [_ H].
    apply (Hdb m t0 H).
  - rewrite users_me_tasks_db. exact Hdb.
  - destruct (comments_put_cases now req db)
      as [[-> _] | (n & c & user & _ & _ & _ & _ & _ & ->)]; exact Hdb.
  - destruct (comments_delete_cases now req db)
      as [[-> _] | (n & c & user & _ & _ & _ & _ & _ & ->)]; exact Hdb.
Qed.

(** X14. Every route keeps the stored priorities and statuses within the
    columns' enumerations: on a store where each task has one of the three
    priorities and one of the four statuses, the store that any request
    leaves has the same property. *)
Theorem enums_valid_preserved (r : Route) now req db :
  enums_valid db → enums_valid (app r now req db).1.
Proof.
  intros Hdb. unfold app. apply (protected_preserves enums_valid); [exact Hdb | ].
  intros req'. apply handler_enums_valid. exact Hdb.
Qed.

Lemma handler_counter (r : Route) now req db :
  tasks_auto_increment db ≤ tasks_auto_increment (handler_of r now req db).1 ∧
  (ids_below_counter db → ids_below_counter (handler_of r now req db).1) ∧
  (∀ n, n < tasks_auto_increment db → tasks db !! n = None →
        tasks (handler_of r now req db).1 !! n = None).
Proof.
  destruct r; cbn [handler_of].
  - rewrite tasks_get_all_db. split; [lia | done].
  - rewrite tasks_get_one_db. split; [lia | done].
  - destruct (tasks_post_cases now req db)
      as [[-> _] | (t & _ & _ & _ & ->)]; [split; [lia | done] | ].
    simpl. split; [lia | split].
    + intros Hdb n. unfold ids_below_counter in Hdb. simpl.
      destruct (decide (tasks_auto_increment db = n)) as [<- | Hne].
      * intros _. lia.
      * rewrite lookup_insert_ne by exact Hne. intros H. specialize (Hdb n H). lia.
    + intros n Hn Hnone. rewrite lookup_insert_ne by lia. exact Hnone.
  - destruct (tasks_put_cases now req db)
      as [[-> _] | (req' & n & t & t' & updates & _ & _ & Ht & _ & _ & ->)];
      [split; [lia | done] | ].
    simpl. split; [lia | split].
    + intros Hdb m. unfold ids_below_counter in Hdb. simpl.
      destruct (decide (n = m)) as [<- | Hne].
      * intros _. apply Hdb. eauto.
      * rewrite lookup_insert_ne by exact Hne. apply Hdb.
    + intros m Hm Hnone. rewrite lookup_insert_ne; [exact Hnone | ]. congruence.
  - destruct (tasks_delete_cases now req db)
      as [[-> _] | (n & t & _ & _ & _ & ->)]; [split; [lia | done] | ].
    simpl. split; [lia | split].
    + intros Hdb m. unfold ids_below_counter in Hdb. simpl.
      intros [x H]. apply lookup_delete_Some in H as [_ H]. apply Hdb. eauto.
    + intros m Hm Hnone. apply lookup_delete_None. right. exact Hnone.
  - rewrite users_me_tasks_db. split; [lia | done].
  - destruct (comments_put_cases now req db)
      as [[-> _] | (n & c & user & _ & _ & _ & _ & _ & ->)]; split; try lia; done.
  - destruct (comments_delete_cases now req db)
      as [[-> _] | (n & c & user & _ & _ & _ & _ & _ & ->)]; split; try lia; done.
Qed.

(** X15. Task ids are never reused. Whatever the route and the request,
    the AUTO_INCREMENT counter of the tasks table never goes back, every
    task keeps its key below the counter when that held before, and a key
    below the counter that no task has (the id of a deleted task) has no
    task afterwards either. *)
Theorem task_ids_never_reused (r : Route) now req db :
  tasks_auto_increment db ≤ tasks_auto_increment (app r now req db).1 ∧
  (ids_below_counter db → ids_below_counter (app r now req db).1) ∧
  (∀ n, n < tasks_auto_increment db → tasks db !! n = None →
        tasks (app r now req db).1 !! n = None).
Proof.
  unfold app.
  apply (protected_preserves
           (λ db', tasks_auto_increment db ≤ tasks_auto_increment db' ∧
                   (ids_below_counter db → ids_below_counter db') ∧
                   (∀ n, n < tasks_auto_increment db → tasks db !! n = None →
                         tasks db' !! n = None))).
  - split; [lia | done].
  - intros req'. apply handler_counter.
Qed.

Lemma handler_comments_reference (r : Route) now req db :
  comments_reference db → comments_reference (handler_of r now req db).1.
Proof.
  intros Hdb. destruct r; cbn [handler_of].
  - rewrite tasks_get_all_db. exact Hdb.
  - rewrite tasks_get_one_db. exact Hdb.
  - destruct (tasks_post_cases now req db)
      as [[-> _] | (t & Hfresh & _ & _ & ->)]; [exact Hdb | ].
    intros k c. simpl. intros Hc. destruct (Hdb k c Hc) as [[x Hx] Hu].
    split; [ | exact Hu].
    rewrite lookup_insert_ne; [eauto | ]. congruence.
  - destruct (tasks_put_cases now req db)
      as [[-> _] | (req' & n & t & t' & updates & _ & _ & Ht & _ & _ & ->)];
      [exact Hdb | ].
    intros k c. simpl. intros Hc. destruct (Hdb k c Hc) as [[x Hx] Hu].
    split; [ | exact Hu].
    destruct (decide (n = Comment.task_id c)) as [<- | Hne].
    + rewrite lookup_insert_eq. eauto.
    + rewrite lookup_insert_ne by exact Hne. eauto.
  - destruct (tasks_delete_cases now req db)
      as [[-> _] | (n & t & _ & _ & _ & ->)]; [exact Hdb | ].
    intros k c. simpl. intros Hc.
    apply map_lookup_filter_Some in Hc as [Hc Hne]. simpl in Hne.
    destruct (Hdb k c Hc) as [[x Hx] Hu]. split; [ | exact Hu].
    rewrite lookup_delete_ne by congruence. eauto.
  - rewrite users_me_tasks_db. exact Hdb.
  - destruct (comments_put_cases now req db)
      as [[-> _] | (n & c & user & _ & _ & Hc & _ & _ & ->)]; [exact Hdb | ].
    intros k c'. simpl. destruct (decide (n = k)) as [<- | Hne].
    + rewrite lookup_insert_eq. intros [= <-]. simpl. apply (Hdb n c Hc).
    + rewrite lookup_insert_ne by exact Hne. apply Hdb.
  - destruct (comments_delete_cases now req db)
      as [[-> _] | (n & c & user & _ & _ & _ & _ & _ & ->)]; [exact Hdb | ].
    intros k c'. simpl. intros H. apply lookup_delete_Some in H as [_ H].
    apply (Hdb k c' H).
Qed.

(** X16. The foreign keys of the comments table hold after every request
    when they held before: each stored comment still belongs to a stored
    task and to a stored user. Deleting a task takes its comments with
    it. *)
Theorem comments_reference_preserved (r : Route) now req db :
  comments_reference db → comments_reference (app r now req db).1.
Proof.
  intros Hdb. unfold app. apply (protected_preserves comments_reference); [exact Hdb | ].
  intros req'. apply handler_comments_reference. exact Hdb.
Qed.

(** *** The author's own comment *)

Lemma comments_put_validationResult req :
  validationResult comments_put_chains req = [] ↔
  (∃ n, to_int (req_params req !! "id") = Some n ∧ 1 ≤ n) ∧
  (1 ≤ js_length (trim_string (toString (req_body req !! "body"))) ≤ 1000)%nat.
Proof.
  unfold validationResult. rewrite run_chains_errors. unfold comments_put_chains.
  cbn [chains_errors chain_at loc_eqb vc_location vc_field vc_items param body andb req_at].
  unfold chain_value. simpl.
  destruct (to_int (req_params req !! "id")) as [n | ].
  - destruct (1 <=? n) eqn:E; simpl.
    + apply Z.leb_le in E.
      set (L := js_length (trim_string (toString (req_body req !! "body")))).
      destruct L as [ | L'].
      * split; [discriminate | ]. intros [_ H]. lia.
      * destruct (Nat.leb_spec (S L') 1000) as [E2 | E2]; cbn [andb].
        -- split; [ | reflexivity]. intros _. split; [eauto | lia].
        -- split; [discriminate | ]. intros [_ H]. lia.
    + apply Z.leb_gt in E.
      split; [destruct (_ && _); discriminate | ].
      intros [(m & [= <-] & H) _]. lia.
  - split; [destruct (_ && _); discriminate | ].
    intros [(m & [=] & _) _].
Qed.

(** X17. The author's PUT /api/comments/:id, with a body that, trimmed of
    JavaScript's white space, is no longer than the 65535 bytes a TEXT
    column holds: when the trimmed body has between 1 and 1000 characters
    as [isLength] counts them, the comment gets that trimmed body, keeps
    its task, author and creation time, every other comment stays as it
    was, and the answer is 200 with the comment as stored and its author's
    name and email; a body outside these bounds is refused with 400 and
    nothing is written. *)
Theorem comments_put_by_author now req db n c user u :
  req_user req = Some user →
  users db !! user_id user = Some u →
  to_int (req_params req !! "id") = Some n → 1 ≤ n →
  comments db !! n = Some c →
  Comment.author_id c = user_id user →
  Z.of_nat (String.length (trim_string (toString (req_body req !! "body")))) ≤ 65535 →
  let b := trim_string (toString (req_body req !! "body")) in
  if ((1 <=? js_length b) && (js_length b <=? 1000))%nat then
    comments_put now req db =
      ({| users := users db; tasks := tasks db;
          comments :=
            <[n := {| Comment.task_id := Comment.task_id c;
                      Comment.author_id := Comment.author_id c;
                      Comment.body := b;
                      Comment.created_at := Comment.created_at c |}]> (comments db);
          tasks_auto_increment := tasks_auto_increment db |},
       res_json
         (JMessageComment "Comment updated successfully"
            {| fc_id := n; fc_taskId := Comment.task_id c; fc_body := b;
               fc_createdAt := Comment.created_at c;
               fc_author := {| author_id := user_id user;
                               author_name := User.name u;
                               author_email := User.email u |} |}))
  else
    (comments_put now req db).1 = db ∧ statusCode (comments_put now req db).2 = 400.
Proof.
  intros Huser Hu Hn H1 Hc Hauth _ b.
  destruct ((1 <=? js_length b) && (js_length b <=? 1000))%nat eqn:Hlen.
  - apply andb_true_iff in Hlen as [E1 E2].
    apply Nat.leb_le in E1, E2.
    assert (Hvalid : validationResult comments_put_chains req = []).
    { apply comments_put_validationResult. split; [eauto | ]. fold b. lia. }
    unfold comments_put.
    destruct (run_chains comments_put_chains req) as [req' errors] eqn:Hrun.
    pose proof (run_chains_view _ _ _ _ Hrun) as (Hat & _ & _).
    pose proof (Hat in_body "body") as Hbody. simpl in Hbody.
    apply comments_put_run in Hrun as (Hu' & Hparam & ->).
    rewrite Hvalid, isEmpty_nil. cbn [negb].
    rewrite Hu', Huser, Hparam, (where_id_Some _ _ _ _ Hn Hc).
    rewrite Hauth, Z.eqb_refl. cbn [negb].
    unfold update_comment. rewrite (where_id_Some _ _ _ _ Hn Hc), Hbody.
    unfold chain_value. cbn [is_optional existsb orb andb foldl run_item fst default].
    unfold id. cbn [sql_text toString]. cbn [mbind option_bind].
    unfold select_comment.
    erewrite where_id_Some; [ | exact Hn | simpl; apply lookup_insert_eq].
    simpl. rewrite Hauth, Hu. reflexivity.
  - assert (Hinvalid : validationResult comments_put_chains req ≠ []).
    { intros H. apply comments_put_validationResult in H as [_ H]. fold b in H.
      apply andb_false_iff in Hlen as [E | E]; apply Nat.leb_gt in E; lia. }
    unfold comments_put.
    destruct (run_chains comments_put_chains req) as [req' errors] eqn:Hrun.
    apply comments_put_run in Hrun as (_ & _ & ->).
    destruct (negb (isEmpty _)) eqn:He; [done | ].
    apply negb_false_iff, isEmpty_true in He. contradiction.
Qed.

(** X18. The author's DELETE /api/comments/:id removes that comment and
    nothing else, and answers 200; the same request once more finds no
    comment and answers 404. *)
Theorem comments_delete_by_author now now' req db n c user :
  req_user req = Some user →
  to_int (req_params req !! "id") = Some n → 1 ≤ n →
  comments db !! n = Some c →
  Comment.author_id c = user_id user →
  comments_delete now req db =
    ({| users := users db; tasks := tasks db;
        comments := delete n (comments db);
        tasks_auto_increment := tasks_auto_increment db |},
     res_json (JMessage "Comment deleted successfully")) ∧
  comments_delete now' req (comments_delete now req db).1 =
    ((comments_delete now req db).1,
     res_status_json 404 (JMessage "Comment not found")).
Proof.
  intros Huser Hn H1 Hc Hauth.
  assert (Hvalid : validationResult id_chains req = []).
  { apply id_chains_validationResult. eauto. }
  assert (Hfirst : comments_delete now req db =
    ({| users := users db; tasks := tasks db;
        comments := delete n (comments db);
        tasks_auto_increment := tasks_auto_increment db |},
     res_json (JMessage "Comment deleted successfully"))).
  { unfold comments_delete.
    destruct (run_chains id_chains req) as [req' errors] eqn:Hrun.
    apply id_chains_run in Hrun as (Hu' & Hparam & ->).
    rewrite Hvalid, isEmpty_nil. cbn [negb].
    rewrite Hu', Huser, Hparam, (where_id_Some _ _ _ _ Hn Hc).
    rewrite Hauth, Z.eqb_refl. cbn [negb].
    unfold delete_comment. rewrite Hn. reflexivity. }
  split; [exact Hfirst | ].
  rewrite Hfirst. cbn [fst]. unfold comments_delete.
  destruct (run_chains id_chains req) as [req' errors] eqn:Hrun.
  apply id_chains_run in Hrun as (Hu' & Hparam & ->).
  rewrite Hvalid, isEmpty_nil. cbn [negb].
  rewrite Hu', Huser, Hparam. unfold where_id. rewrite Hn. simpl.
  rewrite lookup_delete_eq. reflexivity.
Qed.

(** ** The token, from the client to the middleware *)

Lemma split_no_space s : no_space s = true → split " " s = [s].
Proof.
  induction s as [ | a r IH]; simpl; [reflexivity | ].
  intros H. apply andb_true_iff in H as [Ha Hr].
  apply negb_true_iff in Ha. rewrite Ha, (IH Hr). reflexivity.
Qed.

Lemma split_word w rest :
  no_space w = true → split " " (w ++ String " " rest) = w :: split " " rest.
Proof.
  induction w as [ | a r IH]; simpl; [reflexivity | ].
  intros H. apply andb_true_iff in H as [Ha Hr].
  apply negb_true_iff in Ha. rewrite Ha, (IH Hr). reflexivity.
Qed.

Lemma word_space_nonempty w rest : String.eqb (w ++ String " " rest) "" = false.
Proof. destruct w; reflexivity. Qed.

Lemma bearer_token_word req scheme token :
  no_space scheme = true → no_space token = true →
  req_authorization req = Some (scheme ++ String " " token) →
  bearer_token req = Some token.
Proof.
  intros Hs Ht Hh. unfold bearer_token. rewrite Hh, word_space_nonempty.
  rewrite (split_word _ _ Hs), (split_no_space _ Ht). reflexivity.
Qed.

(** X19. The middleware takes the token to be the second of the words of
    the Authorization header that single spaces separate, whatever the
    first word is and whatever follows a further space: any scheme name
    serves as well as Bearer. *)
Theorem bearer_token_second_word req scheme token :
  no_space scheme = true → no_space token = true →
  (req_authorization req = Some (scheme ++ String " " token) →
   bearer_token req = Some token) ∧
  (∀ rest, req_authorization req = Some (scheme ++ String " " (token ++ String " " rest)) →
           bearer_token req = Some token).
Proof.
  intros Hs Ht. split.
  - apply bearer_token_word; assumption.
  - intros rest Hh. unfold bearer_token. rewrite Hh, word_space_nonempty.
    rewrite (split_word _ _ Hs), (split_word _ _ Ht). reflexivity.
Qed.

Lemma request_interceptor_token b config token :
  localStorage_token b = Some token → token ≠ "" → no_space token = true →
  bearer_token (request_interceptor b config) = Some token.
Proof.
  intros Hb Hne Ht. unfold request_interceptor. rewrite Hb.
  apply String.eqb_neq in Hne. rewrite Hne. cbn [negb].
  apply (bearer_token_word _ "Bearer" token); [reflexivity | exact Ht | reflexivity].
Qed.

(** X20. A request of the client whose stored token is a non-empty string
    without a space, for which [jwt.verify] gives a user id: behind the
    middleware it is answered 401 'User not found' when no user has that
    id, and otherwise the handler runs on the request with [req.user] set
    to the id, email and name of that user's row, whatever [req.user] was
    before. *)
Theorem client_request_authenticated (handler : Handler) now b config db token userId :
  localStorage_token b = Some token → token ≠ "" → no_space token = true →
  jwt_verify token = Decoded userId →
  protected handler now (request_interceptor b config) db =
    match users db !! userId with
    | None => (db, res_status_json 401 (JMessage "User not found"))
    | Some u =>
        handler now
          (set_user {| user_id := userId; user_email := User.email u;
                       user_name := User.name u |}
             (request_interceptor b config)) db
    end.
Proof.
  intros Hb Hne Ht Hv. unfold protected, authenticateToken.
  rewrite (request_interceptor_token b config token Hb Hne Ht).
  cbn [fmap option_fmap option_map truthy default]. unfold id.
  apply String.eqb_neq in Hne. rewrite Hne. cbn [negb]. rewrite Hv.
  destruct (users db !! userId); reflexivity.
Qed.

(** X21. The client drops its token exactly on a 401. A token that
    [jwt.verify] rejects as invalid or expired is answered 403 by every
    protected route, so the response interceptor leaves it stored and does
    not go to the login page; a token whose user is no longer stored is
    answered 401, and then the token is removed and the page is /login. *)
Theorem rejected_token_kept_by_client (handler : Handler) now b config db token :
  localStorage_token b = Some token → token ≠ "" → no_space token = true →
  let res := (protected handler now (request_interceptor b config) db).2 in
  (jwt_verify token = JsonWebTokenError ∨ jwt_verify token = TokenExpiredError →
   statusCode res = 403 ∧ response_interceptor (Some (statusCode res)) b = b) ∧
  (∀ userId, jwt_verify token = Decoded userId → users db !! userId = None →
   statusCode res = 401 ∧
   response_interceptor (Some (statusCode res)) b =
     {| localStorage_token := None; location_href := "/login" |}).
Proof.
  intros Hb Hne Ht res. subst res. unfold protected, authenticateToken.
  rewrite (request_interceptor_token b config token Hb Hne Ht).
  cbn [fmap option_fmap option_map truthy default]. unfold id.
  apply String.eqb_neq in Hne. rewrite Hne. cbn [negb].
  split.
  - intros [Hv | Hv]; rewrite Hv; split; reflexivity.
  - intros userId Hv Hnone. rewrite Hv, Hnone. split; reflexivity.
Qed.

(** ** The comments of a task *)

Lemma insert_asc_Permutation x l : insert_asc x l ≡ₚ x :: l.
Proof.
  induction l as [ | y r IH]; simpl; [reflexivity | ].
  destruct (_ <=? _); [reflexivity | ].
  rewrite IH. apply Permutation_swap.
Qed.

Lemma order_by_created_at_asc_Permutation l : order_by_created_at_asc l ≡ₚ l.
Proof.
  unfold order_by_created_at_asc. induction l as [ | x r IH]; simpl; [reflexivity | ].
  rewrite insert_asc_Permutation, IH. reflexivity.
Qed.

Lemma insert_asc_sorted x l :
  StronglySorted (λ a b : Z * Comment.t, Comment.created_at a.2 ≤ Comment.created_at b.2) l →
  StronglySorted (λ a b : Z * Comment.t, Comment.created_at a.2 ≤ Comment.created_at b.2)
    (insert_asc x l).
Proof.
  induction l as [ | y r IH]; simpl; intros Hs.
  - constructor; constructor.
  - apply StronglySorted_inv in Hs as [Hr Hy].
    destruct (Comment.created_at x.2 <=? Comment.created_at y.2) eqn:E.
    + apply Z.leb_le in E. constructor.
      * constructor; assumption.
      * constructor; [exact E | ].
        eapply Forall_impl; [exact Hy | ]. intros z Hz. simpl in Hz. lia.
    + apply Z.leb_gt in E. constructor; [apply IH; exact Hr | ].
      rewrite insert_asc_Permutation. constructor; [lia | exact Hy].
Qed.

Lemma order_by_created_at_asc_sorted l :
  StronglySorted (λ a b : Z * Comment.t, Comment.created_at a.2 ≤ Comment.created_at b.2)
    (order_by_created_at_asc l).
Proof.
  unfold order_by_created_at_asc. induction l as [ | x r IH]; simpl.
  - constructor.
  - apply insert_asc_sorted. exact IH.
Qed.

Lemma formattedComment_Some db kc fc :
  formattedComment db kc = Some fc →
  fc_id fc = kc.1 ∧ fc_createdAt fc = Comment.created_at kc.2.
Proof.
  unfold formattedComment. intros H.
  apply bind_Some in H as (u & _ & [= <-]). done.
Qed.

Lemma formattedComments_sorted db l :
  StronglySorted (λ a b : Z * Comment.t, Comment.created_at a.2 ≤ Comment.created_at b.2) l →
  StronglySorted (λ a b, fc_createdAt a ≤ fc_createdAt b) (omap (formattedComment db) l).
Proof.
  induction 1 as [ | x l Hl IH Hx]; simpl; [constructor | ].
  destruct (formattedComment db x) as [fx | ] eqn:Ex; [ | exact IH].
  constructor; [exact IH | ].
  apply Forall_forall. intros fy Hy.
  apply list_elem_of_omap in Hy as (y & Hy & Ey).
  rewrite Forall_forall in Hx. specialize (Hx y Hy).
  apply formattedComment_Some in Ex as [_ ->].
  apply formattedComment_Some in Ey as [_ ->]. exact Hx.
Qed.

Lemma formattedComments_ids db l :
  NoDup l.*1 → NoDup (fc_id <$> omap (formattedComment db) l).
Proof.
  induction l as [ | x r IH]; simpl; [constructor | ].
  intros H. apply NoDup_cons in H as [Hx Hr].
  destruct (formattedComment db x) as [fx | ] eqn:Ex; [ | apply IH; exact Hr].
  simpl. apply NoDup_cons. split; [ | apply IH; exact Hr].
  intros Hin. apply Hx.
  apply list_elem_of_fmap in Hin as (fy & Hid & Hy).
  apply list_elem_of_omap in Hy as (y & Hy & Ey).
  apply formattedComment_Some in Ex as [Ex _].
  apply formattedComment_Some in Ey as [Ey _].
  apply list_elem_of_fmap. exists y. split; [congruence | exact Hy].
Qed.

Lemma elem_of_select_comments db taskId fc :
  fc ∈ select_comments db taskId ↔
  ∃ n k c, to_int taskId = Some n ∧ comments db !! k = Some c ∧
           Comment.task_id c = n ∧ formattedComment db (k, c) = Some fc.
Proof.
  unfold select_comments. destruct (to_int taskId) as [n | ].
  - rewrite list_elem_of_omap. split.
    + intros ([k c] & Hin & Hfc).
      rewrite order_by_created_at_asc_Permutation in Hin.
      apply (proj1 (list_elem_of_In _ _)) in Hin.
      apply (proj1 (filter_In _ _ _)) in Hin as [H1 H2].
      apply (proj2 (list_elem_of_In _ _)) in H1.
      apply (proj1 (elem_of_map_to_list _ _ _)) in H1.
      simpl in H2. apply Z.eqb_eq in H2.
      exists n, k, c. done.
    + intros (m & k & c & [= <-] & Hc & Ht & Hfc).
      exists (k, c). split; [ | exact Hfc].
      rewrite order_by_created_at_asc_Permutation.
      apply (proj2 (list_elem_of_In _ _)).
      apply (proj2 (filter_In _ _ _)).
      split; [ | simpl; apply Z.eqb_eq; exact Ht].
      apply (proj1 (list_elem_of_In _ _)).
      apply (proj2 (elem_of_map_to_list _ _ _)). exact Hc.
  - split; [intros H; inversion H | intros (n & k & c & [=] & _)].
Qed.

Lemma comments_get_run req req' errors :
  run_chains comments_get_chains req = (req', errors) →
  req_params req' !! "taskId" = req_params req !! "taskId" ∧
  errors = validationResult comments_get_chains req.
Proof.
  intros H. unfold validationResult. rewrite H.
  apply run_chains_view in H as (Hat & _ & _).
  split; [ | reflexivity]. rewrite (Hat in_params). reflexivity.
Qed.

Lemma comments_get_validationResult req :
  validationResult comments_get_chains req = [] ↔
  ∃ n, to_int (req_params req !! "taskId") = Some n ∧ 1 ≤ n.
Proof.
  unfold validationResult. rewrite run_chains_errors. unfold comments_get_chains.
  cbn [chains_errors chain_at loc_eqb vc_location vc_field vc_items param andb req_at].
  unfold chain_value. simpl.
  destruct (to_int (req_params req !! "taskId")) as [n | ].
  - destruct (1 <=? n) eqn:E.
    + apply Z.leb_le in E. split; [eauto | reflexivity].
    + apply Z.leb_gt in E. split; [discriminate | ].
      intros (m & [= <-] & H). lia.
  - split; [discriminate | intros (m & [=] & _)].
Qed.

(** X22. GET /api/comments/task/:taskId never writes. It answers 400 for
    an id that is not an integer from 1 on and 404 when no task has the id;
    otherwise the array it answers holds exactly the stored comments of
    that task whose author is stored, each once, with the author's name and
    email, the oldest first. *)
Theorem comments_get_listing now req db :
  (comments_get now req db).1 = db ∧
  match (comments_get now req db).2 with
  | inl res =>
      (statusCode res = 400 ∧
       ∀ n, to_int (req_params req !! "taskId") = Some n → n < 1) ∨
      (statusCode res = 404 ∧
       ∃ n, to_int (req_params req !! "taskId") = Some n ∧ 1 ≤ n ∧
            tasks db !! n = None)
  | inr l =>
      ∃ n, to_int (req_params req !! "taskId") = Some n ∧ 1 ≤ n ∧
           is_Some (tasks db !! n) ∧
           (∀ fc, fc ∈ l ↔
                  ∃ k c, comments db !! k = Some c ∧ Comment.task_id c = n ∧
                         formattedComment db (k, c) = Some fc) ∧
           StronglySorted (λ a b, fc_createdAt a ≤ fc_createdAt b) l ∧
           NoDup (fc_id <$> l)
  end.
Proof.
  unfold comments_get.
  destruct (run_chains comments_get_chains req) as [req' errors] eqn:Hrun.
  apply comments_get_run in Hrun as (Hparam & ->).
  destruct (negb (isEmpty _)) eqn:He.
  - split; [reflexivity | ]. simpl. left. split; [reflexivity | ].
    intros n Hn. destruct (Z.lt_ge_cases n 1) as [H | H]; [exact H | ].
    exfalso. apply negb_true_iff in He.
    assert (Hvalid : validationResult comments_get_chains req = []).
    { apply comments_get_validationResult. eauto. }
    rewrite Hvalid in He. discriminate.
  - apply negb_false_iff, isEmpty_true, comments_get_validationResult in He
      as (n & Hn & H1).
    rewrite Hparam.
    destruct (where_id (tasks db) _) as [[m t] | ] eqn:Hw.
    + apply where_id_inv in Hw as [Hm Ht]. rewrite Hn in Hm. injection Hm as <-.
      split; [reflexivity | ]. simpl. exists n.
      split; [exact Hn | ]. split; [exact H1 | ]. split; [eauto | ].
      split; [ | split].
      * intros fc. rewrite elem_of_select_comments. split.
        -- intros (m & k & c & Hm & Hc & Ht' & Hfc).
           rewrite Hn in Hm. injection Hm as <-. eauto.
        -- intros (k & c & Hc & Ht' & Hfc). exists n, k, c. done.
      * unfold select_comments. rewrite Hn.
        apply formattedComments_sorted, order_by_created_at_asc_sorted.
      * unfold select_comments. rewrite Hn.
        apply formattedComments_ids.
        rewrite order_by_created_at_asc_Permutation.
        apply NoDup_fst_filter, NoDup_fst_map_to_list.
    + split; [reflexivity | ]. simpl. right. split; [reflexivity | ].
      exists n. split; [exact Hn | ]. split; [exact H1 | ].
      unfold where_id in Hw. rewrite Hn in Hw. simpl in Hw.
      destruct (tasks db !! n); [discriminate | reflexivity].
Qed.

(** *** POST /api/comments *)

Lemma comments_post_run req req' errors :
  run_chains comments_post_chains req = (req', errors) →
  req_user req' = req_user req ∧
  req_body req' !! "taskId" = req_body req !! "taskId" ∧
  req_body req' !! "body" =
    Some (JStr (trim_string (toString (req_body req !! "body")))) ∧
  errors = validationResult comments_post_chains req.
Proof.
  intros H. unfold validationResult. rewrite H.
  apply run_chains_view in H as (Hat & _ & Hu).
  split; [exact Hu | ].
  split; [rewrite (Hat in_body); reflexivity | ].
  split; [rewrite (Hat in_body); reflexivity | reflexivity].
Qed.

Lemma comments_post_validationResult req :
  validationResult comments_post_chains req = [] ↔
  (∃ n, to_int (req_body req !! "taskId") = Some n ∧ 1 ≤ n) ∧
  (1 ≤ js_length (trim_string (toString (req_body req !! "body"))) ≤ 1000)%nat.
Proof.
  unfold validationResult. rewrite run_chains_errors. unfold comments_post_chains.
  cbn [chains_errors chain_at loc_eqb vc_location vc_field vc_items param body andb req_at].
  unfold chain_value. simpl.
  destruct (to_int (req_body req !! "taskId")) as [n | ].
  - destruct (1 <=? n) eqn:E; simpl.
    + apply Z.leb_le in E.
      set (L := js_length (trim_string (toString (req_body req !! "body")))).
      destruct L as [ | L'].
      * split; [discriminate | ]. intros [_ H]. lia.
      * destruct (Nat.leb_spec (S L') 1000) as [E2 | E2]; cbn [andb].
        -- split; [ | reflexivity]. intros _. split; [eauto | lia].
        -- split; [discriminate | ]. intros [_ H]. lia.
    + apply Z.leb_gt in E.
      split; [destruct (_ && _); discriminate | ].
      intros [(m & [= <-] & H) _]. lia.
  - split; [destruct (_ && _); discriminate | ].
    intros [(m & [=] & _) _].
Qed.

Lemma to_int_sql_int v n : to_int v = Some n → sql_int (default JNull v) = Some n.
Proof.
  unfold sql_int. destruct v as [x | ]; simpl; [done | discriminate].
Qed.

(** What POST /api/comments does, in two cases: it writes nothing and does
    not answer 201, or it stores one comment under the fresh key, for the
    task the body names, with the caller as its author, and answers 201
    with it. *)
Lemma comments_post_cases insertId now req db :
  ((comments_post insertId now req db).1 = db ∧
   statusCode (comments_post insertId now req db).2 ≠ 201) ∨
  ∃ n user u,
    to_int (req_body req !! "taskId") = Some n ∧ 1 ≤ n ∧
    is_Some (tasks db !! n) ∧
    req_user req = Some user ∧ users db !! user_id user = Some u ∧
    comments db !! insertId = None ∧
    (1 ≤ js_length (trim_string (toString (req_body req !! "body"))) ≤ 1000)%nat ∧
    comments_post insertId now req db =
      ({| users := users db; tasks := tasks db;
          comments :=
            <[insertId :=
                {| Comment.task_id := n;
                   Comment.author_id := user_id user;
                   Comment.body := trim_string (toString (req_body req !! "body"));
                   Comment.created_at := now |}]> (comments db);
          tasks_auto_increment := tasks_auto_increment db |},
       res_status_json 201
         (JMessageComment "Comment created successfully"
            {| fc_id := insertId; fc_taskId := n;
               fc_body := trim_string (toString (req_body req !! "body"));
               fc_createdAt := now;
               fc_author := {| author_id := user_id user;
                               author_name := User.name u;
                               author_email := User.email u |} |})).
Proof.
  unfold comments_post.
  destruct (run_chains comments_post_chains req) as [req' errors] eqn:Hrun.
  apply comments_post_run in Hrun as (Hu & Htask & Hbody & ->).
  destruct (negb (isEmpty _)) eqn:He; [left; done | ].
  apply negb_false_iff, isEmpty_true, comments_post_validationResult in He
    as [(n & Hn & H1) Hlen].
  rewrite Hu, Htask, Hbody.
  destruct (req_user req) as [user | ]; [ | left; done].
  destruct (where_id (tasks db) _) as [[m t] | ] eqn:Hw; [ | left; done].
  apply where_id_inv in Hw as [Hm Ht]. rewrite Hn in Hm. injection Hm as <-.
  unfold insert_comment. rewrite (to_int_sql_int _ _ Hn).
  cbn [default]. unfold id. cbn [sql_text toString mbind option_bind].
  rewrite (bool_decide_eq_true_2 (is_Some (tasks db !! n))) by eauto. cbn [andb].
  case_bool_decide as Huser; [ | left; done].
  destruct Huser as [u Huser].
  destruct (comments db !! insertId) eqn:Hfresh; [left; done | ].
  right. exists n, user, u. repeat (split; [done | ]).
  unfold select_comment_key. cbn [comments].
  rewrite lookup_insert_eq. simpl. rewrite Huser. reflexivity.
Qed.

(** X23. POST /api/comments from a stored user, for a stored task, with a
    body that, trimmed of JavaScript's white space, has 1 to 1000
    characters as [isLength] counts them and no more than the 65535 bytes
    a TEXT column holds: the comment is stored under the
    fresh key with that trimmed text, the task named, the time of the
    request, and the caller as its author, whatever else the body says;
    the answer is 201 with that comment, and users, tasks and the other
    comments are as they were. *)
Theorem comments_post_created insertId now req db n user u :
  req_user req = Some user → users db !! user_id user = Some u →
  to_int (req_body req !! "taskId") = Some n → 1 ≤ n →
  is_Some (tasks db !! n) →
  comments db !! insertId = None →
  (1 ≤ js_length (trim_string (toString (req_body req !! "body"))) ≤ 1000)%nat →
  Z.of_nat (String.length (trim_string (toString (req_body req !! "body")))) ≤ 65535 →
  comments_post insertId now req db =
    ({| users := users db; tasks := tasks db;
        comments :=
          <[insertId :=
              {| Comment.task_id := n;
                 Comment.author_id := user_id user;
                 Comment.body := trim_string (toString (req_body req !! "body"));
                 Comment.created_at := now |}]> (comments db);
        tasks_auto_increment := tasks_auto_increment db |},
     res_status_json 201
       (JMessageComment "Comment created successfully"
          {| fc_id := insertId; fc_taskId := n;
             fc_body := trim_string (toString (req_body req !! "body"));
             fc_createdAt := now;
             fc_author := {| author_id := user_id user;
                             author_name := User.name u;
                             author_email := User.email u |} |})).
Proof.
  intros Huser Hu Hn H1 [t Ht] Hfresh Hlen _.
  assert (Hvalid : validationResult comments_post_chains req = []).
  { apply comments_post_validationResult. eauto. }
  unfold comments_post.
  destruct (run_chains comments_post_chains req) as [req' errors] eqn:Hrun.
  apply comments_post_run in Hrun as (Hu' & Htask & Hbody & ->).
  rewrite Hvalid, isEmpty_nil. cbn [negb].
  rewrite Hu', Htask, Hbody, Huser, (where_id_Some _ _ _ _ Hn Ht).
  unfold insert_comment. rewrite (to_int_sql_int _ _ Hn).
  cbn [default]. unfold id. cbn [sql_text toString mbind option_bind].
  rewrite (bool_decide_eq_true_2 (is_Some (tasks db !! n))) by eauto.
  rewrite (bool_decide_eq_true_2 (is_Some (users db !! user_id user))) by eauto.
  cbn [andb]. rewrite Hfresh.
  unfold select_comment_key. cbn [comments].
  rewrite lookup_insert_eq. simpl. rewrite Hu. reflexivity.
Qed.

(** X24. POST /api/comments refuses without writing: 400 when the task id
    is not an integer from 1 on or the body, trimmed of JavaScript's white
    space, is empty or has more than 1000 characters as [isLength] counts
    them, 404 when no task has the id. Whatever the request,
    users and tasks are untouched, no stored comment is changed or removed,
    and the foreign keys of the comments table keep holding. *)
Theorem comments_post_refused insertId now req db :
  ((∀ n, to_int (req_body req !! "taskId") = Some n → n < 1) ∨
   ¬ (1 ≤ js_length (trim_string (toString (req_body req !! "body"))) ≤ 1000)%nat →
   statusCode (comments_post insertId now req db).2 = 400 ∧
   (comments_post insertId now req db).1 = db) ∧
  (validationResult comments_post_chains req = [] →
   (∀ n, to_int (req_body req !! "taskId") = Some n → tasks db !! n = None) →
   req_user req ≠ None →
   comments_post insertId now req db =
     (db, res_status_json 404 (JMessage "Task not found"))) ∧
  users (comments_post insertId now req db).1 = users db ∧
  tasks (comments_post insertId now req db).1 = tasks db ∧
  tasks_auto_increment (comments_post insertId now req db).1 = tasks_auto_increment db ∧
  (∀ k c, comments db !! k = Some c →
          comments (comments_post insertId now req db).1 !! k = Some c) ∧
  (comments_reference db → comments_reference (comments_post insertId now req db).1).
Proof.
  split; [ | split].
  - intros Hbad.
    assert (Hinvalid : validationResult comments_post_chains req ≠ []).
    { intros H. apply comments_post_validationResult in H as [(n & Hn & H1) Hlen].
      destruct Hbad as [Hbad | Hbad]; [specialize (Hbad n Hn); lia | contradiction]. }
    unfold comments_post.
    destruct (run_chains comments_post_chains req) as [req' errors] eqn:Hrun.
    apply comments_post_run in Hrun as (_ & _ & _ & ->).
    destruct (negb (isEmpty _)) eqn:He; [done | ].
    apply negb_false_iff, isEmpty_true in He. contradiction.
  - intros Hvalid Hnone Huser.
    unfold comments_post.
    destruct (run_chains comments_post_chains req) as [req' errors] eqn:Hrun.
    apply comments_post_run in Hrun as (Hu' & Htask & _ & ->).
    rewrite Hvalid, isEmpty_nil. cbn [negb]. rewrite Hu', Htask.
    destruct (req_user req) as [user | ]; [ | contradiction].
    apply comments_post_validationResult in Hvalid as [(n & Hn & _) _].
    unfold where_id. rewrite Hn. simpl. rewrite (Hnone n Hn). reflexivity.
  - destruct (comments_post_cases insertId now req db)
      as [[-> _] | (n & user & u & Hn & H1 & Ht & Huser & Hu & Hfresh & _ & ->)].
    + repeat (split; [done | ]). done.
    + simpl. repeat (split; [done | ]). split.
      * intros k c Hc. rewrite lookup_insert_ne; [exact Hc | ]. congruence.
      * intros Hdb k c. cbn [comments tasks users].
        destruct (decide (insertId = k)) as [<- | Hne].
        -- rewrite lookup_insert_eq. intros [= <-]. simpl. split; [exact Ht | eauto].
        -- rewrite lookup_insert_ne by exact Hne. apply Hdb.
Qed.

(** X25. Posting then listing: a comment that POST /api/comments has
    stored is in the array that GET /api/comments/task/:taskId answers for
    its task on the resulting store, as the very comment of the 201
    response. *)
Theorem comments_post_then_get insertId now now' req req' db comment :
  (comments_post insertId now req db).2 =
    res_status_json 201 (JMessageComment "Comment created successfully" comment) →
  to_int (req_params req' !! "taskId") = Some (fc_taskId comment) →
  ∃ l, (comments_get now' req' (comments_post insertId now req db).1).2 = inr l ∧
       comment ∈ l.
Proof.
  intros Hres Hid.
  destruct (comments_post_cases insertId now req db)
    as [[_ Hcode] | (n & user & u & Hn & H1 & [t Ht] & Huser & Hu & Hfresh & _ & Heq)].
  { rewrite Hres in Hcode. contradiction. }
  rewrite Heq in Hres |- *. cbn [fst snd] in *.
  injection Hres as <-. simpl in Hid.
  unfold comments_get.
  destruct (run_chains comments_get_chains req') as [req'' errors] eqn:Hrun.
  apply comments_get_run in Hrun as (Hparam & ->).
  assert (Hvalid : validationResult comments_get_chains req' = []).
  { apply comments_get_validationResult. eauto. }
  rewrite Hvalid, isEmpty_nil. cbn [negb]. rewrite Hparam.
  cbn [tasks]. rewrite (where_id_Some _ _ _ _ Hid Ht).
  eexists. split; [reflexivity | ].
  apply elem_of_select_comments.
  exists n, insertId. eexists. split; [exact Hid | ].
  split; [simpl; apply lookup_insert_eq | ].
  split; [reflexivity | ].
  unfold formattedComment. simpl. rewrite Hu. reflexivity.
Qed.

(** *** The badge of the PUT response *)

(** The task in the 200 response of PUT /api/tasks/:id carries the verdict
    on the row as written. *)
Lemma tasks_put_response now req db task :
  statusCode (tasks_put now req db).2 = 200 →
  task ∈ tasks_of (tasks_put now req db).2 →
  ∃ n t', to_int (req_params req !! "id") = Some n ∧
          tasks (tasks_put now req db).1 !! n = Some t' ∧
          TaskRow.status (row task) = Task.status t' ∧
          TaskRow.due_date (row task) = Task.due_date t' ∧
          badge task = TasksRouter.getTaskBadge now (Task.due_date t') (Task.status t').
Proof.
  intros Hcode Hin.
  destruct (tasks_put_cases now req db)
    as [[_ Hne] | (req' & n & t & t0 & updates & _ & Hid & _ & _ & _ & Heq)];
    [contradiction | ].
  rewrite Heq in Hin |- *. simpl in Hin. apply list_elem_of_singleton in Hin as ->.
  exists n, (touch now t0). split; [exact Hid | ].
  split; [simpl; apply lookup_insert_eq | ]. done.
Qed.

(** The status and the due date that a written PUT leaves, for a body that
    names them. *)
Lemma tasks_put_status_written now req db n t' s :
  statusCode (tasks_put now req db).2 = 200 →
  to_int (req_params req !! "id") = Some n →
  tasks (tasks_put now req db).1 !! n = Some t' →
  req_body req !! "status" = Some (JStr s) →
  Task.status t' = s.
Proof.
  intros Hcode Hid Hlk Hv.
  destruct (tasks_put_written now req db n t' "status" (JStr s) (JStr s)
              Hcode Hid Hlk ltac:(elem_solve) Hv
              (tasks_put_chains_body_other "status" (Some (JStr s))
                 ltac:(discriminate) ltac:(discriminate)))
    as (_ & t1 & t2 & H1 & H2).
  unfold set_column in H1. simpl in H1.
  apply bind_Some in H1 as (x & Hx & [= <-]).
  unfold column in H2. simpl in H2. injection H2 as ->.
  case_bool_decide; [ | discriminate]. injection Hx as <-. reflexivity.
Qed.

Lemma tasks_put_due_date_written now req db n t' s :
  statusCode (tasks_put now req db).2 = 200 →
  to_int (req_params req !! "id") = Some n →
  tasks (tasks_put now req db).1 !! n = Some t' →
  req_body req !! "due_date" = Some (JStr s) →
  Task.due_date t' = mysql_datetime s ∧ is_Some (mysql_datetime s).
Proof.
  intros Hcode Hid Hlk Hv.
  destruct (tasks_put_written now req db n t' "due_date" (JStr s) (JStr s)
              Hcode Hid Hlk ltac:(elem_solve) Hv
              (tasks_put_chains_body_other "due_date" (Some (JStr s))
                 ltac:(discriminate) ltac:(discriminate)))
    as (_ & t1 & t2 & H1 & H2).
  unfold set_column in H1. simpl in H1.
  apply bind_Some in H1 as (x & Hx & [= <-]).
  unfold column in H2. simpl in H2.
  destruct (mysql_datetime s) as [ms | ]; [ | discriminate].
  injection Hx as <-. simpl in H2.
  destruct (Task.due_date t'); [ | discriminate].
  injection H2 as ->. eauto.
Qed.

(** ** An assignee cannot be taken away *)

Lemma set_column_assigned t c v t' :
  set_column t (c, v) = Some t' →
  (c = "assignee_id" → is_Some (to_int (Some v))) →
  is_Some (Task.assignee_id t) → is_Some (Task.assignee_id t').
Proof.
  unfold set_column. intros H Hv Ht.
  repeat match type of H with
         | (if String.eqb c ?s then _ else _) = _ =>
             let E := fresh "E" in
             destruct (String.eqb c s) eqn:E;
             [apply bind_Some in H as (x & Hx & [= <-]); simpl; try exact Ht | ]
         end; [ | discriminate].
  apply String.eqb_eq in E3. destruct (Hv E3) as [a Ha].
  destruct v; [discriminate Ha | .. ];
    unfold sql_nullable, sql_int in Hx; rewrite Ha in Hx;
    injection Hx as <-; eauto.
Qed.

Lemma set_columns_assigned t updates t' :
  set_columns t updates = Some t' →
  (∀ v, ("assignee_id", v) ∈ updates → is_Some (to_int (Some v))) →
  is_Some (Task.assignee_id t) → is_Some (Task.assignee_id t').
Proof.
  revert t. induction updates as [ | [c v] r IH]; intros t; simpl.
  - intros [= ->] _ H. exact H.
  - intros H Hv Ht. apply bind_Some in H as (t1 & H1 & H2).
    apply (IH t1 H2).
    + intros w Hw. apply Hv. right. exact Hw.
    + apply (set_column_assigned t c v t1 H1); [ | exact Ht].
      intros ->. apply Hv. left.
Qed.

Lemma handler_keeps_assigned (r : Route) now req db n t t' :
  tasks db !! n = Some t → is_Some (Task.assignee_id t) →
  tasks (handler_of r now req db).1 !! n = Some t' →
  is_Some (Task.assignee_id t').
Proof.
  intros Ht Ha. destruct r; cbn [handler_of].
  - rewrite tasks_get_all_db, Ht. intros [= <-]. exact Ha.
  - rewrite tasks_get_one_db, Ht. intros [= <-]. exact Ha.
  - destruct (tasks_post_cases now req db)
      as [[-> _] | (t0 & Hfresh & _ & _ & ->)].
    + rewrite Ht. intros [= <-]. exact Ha.
    + simpl. rewrite lookup_insert_ne by congruence.
      rewrite Ht. intros [= <-]. exact Ha.
  - destruct (tasks_put_cases now req db)
      as [[-> _] | (req' & m & t0 & t1 & updates & Hrun & _ & Ht0 & Hc & Hset & ->)].
    + rewrite Ht. intros [= <-]. exact Ha.
    + simpl. destruct (decide (m = n)) as [-> | Hne].
      * rewrite lookup_insert_eq. intros [= <-]. simpl.
        rewrite Ht in Ht0. injection Ht0 as <-.
        apply (set_columns_assigned t updates t1 Hset); [ | exact Ha].
        intros v Hv.
        destruct (collect_updates_elem _ _ _ _ _ Hc Hv) as [_ Hbody].
        apply tasks_put_run in Hrun as (_ & _ & _ & Hother & Hvalid).
        rewrite (Hother "assignee_id") in Hbody by discriminate.
        symmetry in Hvalid. apply tasks_put_valid in Hvalid as (_ & _ & Hassignee).
        rewrite Hbody in Hassignee.
        destruct Hassignee as [Hnone | (a & Hsome & _)]; [discriminate | eauto].
      * rewrite lookup_insert_ne by exact Hne.
        rewrite Ht. intros [= <-]. exact Ha.
  - destruct (tasks_delete_cases now req db)
      as [[-> _] | (m & t0 & _ & _ & _ & ->)].
    + rewrite Ht. intros [= <-]. exact Ha.
    + simpl. intros H. apply lookup_delete_Some in H as [_ H].
      rewrite Ht in H. injection H as <-. exact Ha.
  - rewrite users_me_tasks_db, Ht. intros [= <-]. exact Ha.
  - destruct (comments_put_cases now req db)
      as [[-> _] | (m & c & user & _ & _ & _ & _ & _ & ->)];
      simpl; rewrite Ht; intros [= <-]; exact Ha.
  - destruct (comments_delete_cases now req db)
      as [[-> _] | (m & c & user & _ & _ & _ & _ & _ & ->)];
      simpl; rewrite Ht; intros [= <-]; exact Ha.
Qed.

(** X27. No request takes an assignee away. POST and PUT /api/tasks refuse
    a body whose assignee_id is null with 400, since the validator only
    lets an absent member pass; and whatever the route and the request, a
    task that has an assignee and is still stored afterwards still has
    one. *)
Theorem assignee_never_cleared (r : Route) now req db :
  (req_body req !! "assignee_id" = Some JNull →
   statusCode (tasks_post now req db).2 = 400 ∧ (tasks_post now req db).1 = db ∧
   statusCode (tasks_put now req db).2 = 400 ∧ (tasks_put now req db).1 = db) ∧
  (∀ n t t', tasks db !! n = Some t → is_Some (Task.assignee_id t) →
             tasks (app r now req db).1 !! n = Some t' →
             is_Some (Task.assignee_id t')).
Proof.
  split.
  - intros Hnull.
    assert (Hpost : validationResult tasks_post_chains req ≠ []).
    { intros H. apply tasks_post_validationResult in H as (_ & _ & _ & H & _).
      rewrite Hnull in H. discriminate H. }
    assert (Hput : validationResult tasks_put_chains req ≠ []).
    { intros H. apply tasks_put_validationResult in H as (_ & _ & _ & _ & _ & H & _).
      rewrite Hnull in H. discriminate H. }
    split; [ | split; [ | split]].
    + unfold tasks_post.
      destruct (run_chains tasks_post_chains req) as [req' errors] eqn:Hrun.
      apply tasks_post_run in Hrun as Hr.
      destruct (negb (isEmpty errors)) eqn:He; [reflexivity | ].
      apply negb_false_iff, isEmpty_true in He. subst errors.
      exfalso. apply Hpost. unfold validationResult. rewrite Hrun. reflexivity.
    + unfold tasks_post.
      destruct (run_chains tasks_post_chains req) as [req' errors] eqn:Hrun.
      destruct (negb (isEmpty errors)) eqn:He; [reflexivity | ].
      apply negb_false_iff, isEmpty_true in He. subst errors.
      exfalso. apply Hpost. unfold validationResult. rewrite Hrun. reflexivity.
    + unfold tasks_put.
      destruct (run_chains tasks_put_chains req) as [req' errors] eqn:Hrun.
      destruct (negb (isEmpty errors)) eqn:He; [reflexivity | ].
      apply negb_false_iff, isEmpty_true in He. subst errors.
      exfalso. apply Hput. unfold validationResult. rewrite Hrun. reflexivity.
    + unfold tasks_put.
      destruct (run_chains tasks_put_chains req) as [req' errors] eqn:Hrun.
      destruct (negb (isEmpty errors)) eqn:He; [reflexivity | ].
      apply negb_false_iff, isEmpty_true in He. subst errors.
      exfalso. apply Hput. unfold validationResult. rewrite Hrun. reflexivity.
  - intros n t t' Ht Ha. unfold app, protected.
    destruct (authenticateToken req db) as [res | req'].
    + simpl. rewrite Ht. intros [= <-]. exact Ha.
    + apply (handler_keeps_assigned r now req' db n t t' Ht Ha).
Qed.

(** ** The board *)

Lemma getTasksByStatus_Permutation (l : list TaskWithBadge) :
  (∀ task, task ∈ l → TaskRow.status (row task) ∈ statuses) →
  concat (snd <$> getTasksByStatus l) ≡ₚ l.
Proof.
  unfold getTasksByStatus. cbn [fmap list_fmap snd concat]. rewrite app_nil_r.
  induction l as [ | x r IH]; [reflexivity | ].
  intros H.
  assert (Hx : TaskRow.status (row x) ∈ statuses) by (apply H; left).
  assert (Hr : ∀ task, task ∈ r → TaskRow.status (row task) ∈ statuses)
    by (intros task Ht; apply H; right; exact Ht).
  specialize (IH Hr). unfold statuses in Hx.
  cbn [List.filter].
  elem_cases Hx; rewrite Hx; cbn [String.eqb Ascii.eqb Bool.eqb]; cbn [List.app].
  - constructor. exact IH.
  - rewrite <- Permutation_middle. constructor. exact IH.
  - rewrite app_assoc. rewrite <- Permutation_middle.
    rewrite <- app_assoc. constructor. exact IH.
  - rewrite !app_assoc. rewrite <- Permutation_middle.
    rewrite <- !app_assoc. constructor. exact IH.
Qed.

(** X28. Every task of a listing is on the board, once. On a store whose
    statuses are those of the column's enumeration, the four columns that
    the client builds from the answer of GET /api/tasks hold, together,
    exactly the tasks of the answer, each in the column of its stored
    status. *)
Theorem board_shows_every_task now req db :
  enums_valid db →
  concat (snd <$> getTasksByStatus (tasks_of (tasks_get_all now req db).2))
    ≡ₚ tasks_of (tasks_get_all now req db).2 ∧
  (∀ column l task,
     (column, l) ∈ getTasksByStatus (tasks_of (tasks_get_all now req db).2) →
     task ∈ l →
     Task.status <$> tasks db !! TaskRow.id (row task) = Some column).
Proof.
  intros Hdb.
  assert (Hrows : ∀ task, task ∈ tasks_of (tasks_get_all now req db).2 →
            ∃ n t, tasks db !! n = Some t ∧ row task = task_row db n t).
  { intros task Hin.
    destruct (tasks_get_all_decorated now req db task Hin)
      as (_ & n & t & Ht & Hrow & _).
    eauto. }
  split.
  - apply getTasksByStatus_Permutation. intros task Hin.
    destruct (Hrows task Hin) as (n & t & Ht & ->). simpl. apply (Hdb n t Ht).
  - intros column l task Hcol Hin. unfold getTasksByStatus in Hcol.
    elem_cases Hcol; injection Hcol as -> ->;
      apply (proj1 (list_elem_of_In _ _)) in Hin;
      apply (proj1 (filter_In _ _ _)) in Hin as [Hin Hst];
      apply (proj2 (list_elem_of_In _ _)) in Hin;
      apply String.eqb_eq in Hst;
      destruct (Hrows task Hin) as (n & t & Ht & Hrow);
      rewrite Hrow in Hst |- *; simpl in Hst |- *;
      rewrite Ht; simpl; rewrite Hst; reflexivity.
Qed.

(** ** The task routes and the caller *)

Lemma same_input_req_at req req' l : same_input req req' → req_at l req' = req_at l req.
Proof. intros (Hp & Hq & Hb). destruct l; simpl; congruence. Qed.

Lemma with_input_of_self req req' : same_input req req' → with_input_of req req' = req'.
Proof.
  intros (Hp & Hq & Hb). unfold with_input_of. rewrite Hp, Hq, Hb.
  destruct req'; reflexivity.
Qed.

Lemma with_input_of_req_set l f x req req' :
  same_input req req' →
  req_set l f x req' = with_input_of (req_set l f x req) req'.
Proof.
  intros (Hp & Hq & Hb). unfold with_input_of.
  destruct l; simpl; rewrite ?Hp, ?Hq, ?Hb; reflexivity.
Qed.

Lemma run_chain_same_input c req req' :
  same_input req req' →
  run_chain c req' = (with_input_of (run_chain c req).1 req', (run_chain c req).2).
Proof.
  intros H. unfold run_chain. rewrite (same_input_req_at req req' _ H).
  destruct (is_optional (vc_items c) && _).
  - simpl. rewrite (with_input_of_self _ _ H). reflexivity.
  - destruct (foldl run_item _ _) as [[x | ] ok]; simpl.
    + case_bool_decide.
      * rewrite (with_input_of_self _ _ H). reflexivity.
      * rewrite (with_input_of_req_set _ _ _ _ _ H). reflexivity.
    + rewrite (with_input_of_self _ _ H). reflexivity.
Qed.

Lemma run_chains_same_input cs req req' :
  same_input req req' →
  run_chains cs req' = (with_input_of (run_chains cs req).1 req', (run_chains cs req).2).
Proof.
  revert req req'. induction cs as [ | c r IH]; intros req req' H; simpl.
  - rewrite (with_input_of_self _ _ H). reflexivity.
  - rewrite (run_chain_same_input c req req' H).
    destruct (run_chain c req) as [req1 ok]. cbn [fst snd].
    assert (H1 : same_input req1 (with_input_of req1 req')) by (repeat split).
    rewrite (IH req1 (with_input_of req1 req') H1).
    destruct (run_chains r req1) as [req2 errors]. reflexivity.
Qed.

(** X29. The task routes do not look at the caller. Two requests with the
    same path parameters, query and body get the same answer and leave the
    same store from GET /api/tasks, GET, PUT and DELETE /api/tasks/:id and
    POST /api/tasks, whoever [req.user] is: a user who is not the assignee
    of a task updates or deletes it as its assignee would. *)
Theorem tasks_routes_ignore_caller now req req' db :
  same_input req req' →
  tasks_get_all now req db = tasks_get_all now req' db ∧
  tasks_get_one now req db = tasks_get_one now req' db ∧
  tasks_post now req db = tasks_post now req' db ∧
  tasks_put now req db = tasks_put now req' db ∧
  tasks_delete now req db = tasks_delete now req' db.
Proof.
  intros H.
  unfold tasks_get_all, tasks_get_one, tasks_post, tasks_put, tasks_delete.
  rewrite !(run_chains_same_input _ req req' H).
  split; [ | split; [ | split; [ | split]]].
  - destruct (run_chains tasks_get_all_chains req) as [r errors]. reflexivity.
  - destruct (run_chains id_chains req) as [r errors]. reflexivity.
  - destruct (run_chains tasks_post_chains req) as [r errors]. reflexivity.
  - destruct (run_chains tasks_put_chains req) as [r errors]. reflexivity.
  - destruct (run_chains id_chains req) as [r errors]. reflexivity.
Qed.

(** ** The client's list after a deletion *)

Lemma filter_Permutation {A : Type} (f : A → bool) (l l' : list A) :
  l ≡ₚ l' → List.filter f l ≡ₚ List.filter f l'.
Proof.
  induction 1 as [ | x l l' _ IH | x y l | l1 l2 l3 _ IH1 _ IH2]; simpl.
  - reflexivity.
  - destruct (f x); [constructor | ]; exact IH.
  - destruct (f x), (f y); try reflexivity. apply Permutation_swap.
  - etransitivity; eassumption.
Qed.

Lemma filter_fmap {A B : Type} (f : B → bool) (g : A → B) (l : list A) :
  List.filter f (g <$> l) = g <$> List.filter (λ a, f (g a)) l.
Proof.
  induction l as [ | x r IH]; [reflexivity | ].
  rewrite fmap_cons. cbn [List.filter]. destruct (f (g x)).
  - rewrite fmap_cons, IH. reflexivity.
  - exact IH.
Qed.

Lemma filter_all {A : Type} (f : A → bool) (l : list A) :
  (∀ x, x ∈ l → f x = true) → List.filter f l = l.
Proof.
  induction l as [ | x r IH]; simpl; [reflexivity | ].
  intros H. rewrite (H x) by left. f_equal. apply IH.
  intros y Hy. apply H. right. exact Hy.
Qed.

Lemma filter_filter_comm {A : Type} (f g : A → bool) (l : list A) :
  List.filter f (List.filter g l) = List.filter g (List.filter f l).
Proof.
  induction l as [ | x r IH]; simpl; [reflexivity | ].
  destruct (f x) eqn:Ef, (g x) eqn:Eg; simpl; rewrite ?Ef, ?Eg, IH; reflexivity.
Qed.

(** The rows of the tasks table without the row of key [n]. *)
Lemma map_to_list_delete_filter {A : Type} (m : gmap Z A) (n : Z) :
  map_to_list (delete n m) ≡ₚ
    List.filter (λ kx : Z * A, negb (kx.1 =? n)) (map_to_list m).
Proof.
  assert (Hrest : List.filter (λ kx : Z * A, negb (kx.1 =? n)) (map_to_list (delete n m))
                  = map_to_list (delete n m)).
  { apply filter_all. intros [k x] Hin.
    apply elem_of_map_to_list in Hin. apply lookup_delete_Some in Hin as [Hne _].
    simpl. apply negb_true_iff, Z.eqb_neq. congruence. }
  destruct (m !! n) as [x | ] eqn:Hn.
  - rewrite <- (filter_Permutation _ _ _ (map_to_list_delete m n x Hn)).
    simpl. rewrite Z.eqb_refl. simpl. rewrite Hrest. reflexivity.
  - rewrite delete_id by exact Hn. rewrite delete_id in Hrest by exact Hn.
    rewrite Hrest. reflexivity.
Qed.

Lemma select_tasks_delete db db' conds n :
  users db' = users db → tasks db' = delete n (tasks db) →
  select_tasks db' conds ≡ₚ
    List.filter (λ task, negb (TaskRow.id task =? n)) (select_tasks db conds).
Proof.
  intros Hu Ht. unfold select_tasks, task_row. rewrite Hu, Ht.
  rewrite filter_fmap. cbn [TaskRow.id].
  apply fmap_Permutation.
  rewrite order_by_created_at_desc_Permutation.
  rewrite (filter_Permutation _ _ _ (order_by_created_at_desc_Permutation _)).
  rewrite (filter_Permutation _ _ _ (map_to_list_delete_filter (tasks db) n)).
  rewrite filter_filter_comm. reflexivity.
Qed.

(** X30. After [deleteTask] the client's list is what a reload would show.
    Whatever the DELETE /api/tasks/:id is answered, the list that the
    client keeps of an answer of GET /api/tasks, with the task of that id
    dropped when the DELETE succeeded, has the same tasks as the answer of
    the same GET, at the same instant, on the store that the DELETE left. *)
Theorem client_list_after_delete now now' req query db taskId :
  to_int (req_params req !! "id") = Some taskId →
  deleteTask_tasks taskId (statusCode (tasks_delete now req db).2)
    (tasks_of (tasks_get_all now' query db).2)
  ≡ₚ tasks_of (tasks_get_all now' query (tasks_delete now req db).1).2.
Proof.
  intros Hid.
  destruct (tasks_delete_cases now req db)
    as [[Hdb Hcode] | (n & t & Hn & H1 & Ht & Heq)].
  - rewrite Hdb. unfold deleteTask_tasks.
    destruct Hcode as [-> | ->]; reflexivity.
  - rewrite Hn in Hid. injection Hid as ->. rewrite Heq.
    cbn [fst snd statusCode res_json res_status_json]. unfold deleteTask_tasks.
    cbn [Z.leb Z.ltb Z.compare Pos.compare Pos.compare_cont andb].
    unfold tasks_get_all.
    destruct (run_chains tasks_get_all_chains query) as [query' errors].
    destruct (negb (isEmpty errors)); [reflexivity | ].
    unfold tasks_of, res_json, res_status_json. cbn [json snd].
    rewrite filter_fmap. cbn [row with_badge].
    rewrite (select_tasks_delete db
               {| users := users db; tasks := delete taskId (tasks db);
                  comments :=
                    filter (λ kc, Comment.task_id kc.2 ≠ taskId) (comments db);
                  tasks_auto_increment := tasks_auto_increment db |}
               _ taskId eq_refl eq_refl).
    reflexivity.
Qed.

(** ** The assignee check, comment authorship and authentication, case by case *)

(** A POST /api/tasks whose assignee_id names no user: the validators
    answer first, the assignee check next. *)
Lemma tasks_post_dangling now req db v :
  req_body req !! "assignee_id" = Some v →
  (∀ a, to_int (Some v) = Some a → users db !! a = None) →
  tasks_post now req db =
    (db, if isEmpty (validationResult tasks_post_chains req)
         then res_status_json 400 (JMessage "Assignee not found")
         else res_status_json 400
                (JErrors "Validation failed" (validationResult tasks_post_chains req))).
Proof.
  intros Hv Hno. unfold tasks_post.
  destruct (run_chains tasks_post_chains req) as [req' errors] eqn:Hrun.
  apply tasks_post_run in Hrun as (Hother & ->).
  destruct (isEmpty _) eqn:He; [ | reflexivity].
  apply isEmpty_true in He. cbn [negb].
  rewrite (Hother "assignee_id") by discriminate.
  destruct (tasks_post_valid req He) as [Hnone | (a & Ha & H1)]; [congruence | ].
  rewrite (assignee_not_found db _ a (tasks_post_valid req He) Ha).
  - reflexivity.
  - apply Hno. rewrite <- Hv. exact Ha.
Qed.

(** The same for PUT /api/tasks/:id, where the lookup of the task stands
    between the validators and the assignee check. *)
Lemma tasks_put_dangling now req db v :
  req_body req !! "assignee_id" = Some v →
  (∀ a, to_int (Some v) = Some a → users db !! a = None) →
  tasks_put now req db =
    (db, if isEmpty (validationResult tasks_put_chains req)
         then match where_id (tasks db) (req_params req !! "id") with
              | None => res_status_json 404 (JMessage "Task not found")
              | Some _ => res_status_json 400 (JMessage "Assignee not found")
              end
         else res_status_json 400
                (JErrors "Validation failed" (validationResult tasks_put_chains req))).
Proof.
  intros Hv Hno. unfold tasks_put.
  destruct (run_chains tasks_put_chains req) as [req' errors] eqn:Hrun.
  apply tasks_put_run in Hrun as (_ & Hparam & _ & Hother & ->).
  destruct (isEmpty _) eqn:He; [ | reflexivity].
  apply isEmpty_true in He. cbn [negb]. rewrite Hparam.
  destruct (where_id (tasks db) _); [ | reflexivity].
  rewrite (Hother "assignee_id") by discriminate.
  destruct (tasks_put_valid req He) as (_ & _ & Hassignee).
  destruct Hassignee as [Hnone | (a & Ha & H1)]; [congruence | ].
  rewrite (assignee_not_found db _ a (or_intror (ex_intro _ a (conj Ha H1))) Ha).
  - reflexivity.
  - apply Hno. rewrite <- Hv. exact Ha.
Qed.

(** C6 (amended). A POST /api/tasks or PUT /api/tasks/:id whose body carries
    an assignee_id that names no stored user (it is no integer, or no user
    has it as key) writes nothing and is refused: by the validators, when
    one of them fails, with 400 'Validation failed'; by the task lookup of
    PUT, when the validators pass and no task has the id, with 404 'Task not
    found'; and otherwise by the assignee check with 400 'Assignee not
    found'. Both handlers keep every stored assignee null or the key of a
    stored user. *)
Theorem assignee_must_exist now req db v :
  req_body req !! "assignee_id" = Some v →
  (∀ a, to_int (Some v) = Some a → users db !! a = None) →
  ((tasks_post now req db).1 = db ∧
   statusCode (tasks_post now req db).2 = 400 ∧
   (validationResult tasks_post_chains req = [] →
    (tasks_post now req db).2 = res_status_json 400 (JMessage "Assignee not found")) ∧
   (validationResult tasks_post_chains req ≠ [] →
    (tasks_post now req db).2 =
      res_status_json 400
        (JErrors "Validation failed" (validationResult tasks_post_chains req)))) ∧
  ((tasks_put now req db).1 = db ∧
   (validationResult tasks_put_chains req = [] →
    is_Some (where_id (tasks db) (req_params req !! "id")) →
    (tasks_put now req db).2 = res_status_json 400 (JMessage "Assignee not found")) ∧
   (validationResult tasks_put_chains req = [] →
    where_id (tasks db) (req_params req !! "id") = None →
    (tasks_put now req db).2 = res_status_json 404 (JMessage "Task not found")) ∧
   (validationResult tasks_put_chains req ≠ [] →
    (tasks_put now req db).2 =
      res_status_json 400
        (JErrors "Validation failed" (validationResult tasks_put_chains req)))) ∧
  (assignee_exists db →
   assignee_exists (tasks_post now req db).1 ∧
   assignee_exists (tasks_put now req db).1).
Proof.
  intros Hv Hno. split; [ | split].
  - rewrite (tasks_post_dangling now req db v Hv Hno). cbn [fst snd].
    split; [reflexivity | ]. split; [ | split].
    + destruct (isEmpty _); reflexivity.
    + intros ->. reflexivity.
    + intros Hne. destruct (isEmpty _) eqn:He; [ | reflexivity].
      apply isEmpty_true in He. contradiction.
  - rewrite (tasks_put_dangling now req db v Hv Hno). cbn [fst snd].
    split; [reflexivity | ]. split; [ | split].
    + intros -> [x ->]. reflexivity.
    + intros -> ->. reflexivity.
    + intros Hne. destruct (isEmpty _) eqn:He; [ | reflexivity].
      apply isEmpty_true in He. contradiction.
  - intros H. split.
    + apply tasks_post_assignee_exists. exact H.
    + apply tasks_put_assignee_exists. exact H.
Qed.

(** A PUT or DELETE /api/comments/:id that fails its validators. *)
Lemma comments_put_invalid now req db :
  validationResult comments_put_chains req ≠ [] →
  comments_put now req db =
    (db, res_status_json 400
           (JErrors "Validation failed" (validationResult comments_put_chains req))).
Proof.
  intros Hne. unfold comments_put.
  destruct (run_chains comments_put_chains req) as [req' errors] eqn:Hrun.
  apply comments_put_run in Hrun as (_ & _ & ->).
  destruct (isEmpty _) eqn:He; [ | reflexivity].
  apply isEmpty_true in He. contradiction.
Qed.

Lemma comments_delete_invalid now req db :
  validationResult id_chains req ≠ [] →
  comments_delete now req db =
    (db, res_status_json 400
           (JErrors "Invalid comment ID" (validationResult id_chains req))).
Proof.
  intros Hne. unfold comments_delete.
  destruct (run_chains id_chains req) as [req' errors] eqn:Hrun.
  apply id_chains_run in Hrun as (_ & _ & ->).
  destruct (isEmpty _) eqn:He; [ | reflexivity].
  apply isEmpty_true in He. contradiction.
Qed.

(** The cascade of DELETE /api/tasks/:id takes the comments of the task,
    whoever wrote them and whoever asks. *)
Lemma tasks_delete_takes_comment now req db m t n c :
  to_int (req_params req !! "id") = Some m → 1 ≤ m →
  tasks db !! m = Some t →
  comments db !! n = Some c → Comment.task_id c = m →
  comments (tasks_delete now req db).1 !! n = None.
Proof.
  intros Hid Hm Ht Hc Htask. unfold tasks_delete.
  destruct (run_chains id_chains req) as [req' errors] eqn:Hrun.
  apply id_chains_run in Hrun as (_ & Hparam & ->).
  assert (Hvalid : validationResult id_chains req = [])
    by (apply id_chains_validationResult; eauto).
  rewrite Hvalid, isEmpty_nil. cbn [negb].
  rewrite Hparam, (where_id_Some _ _ _ _ Hid Ht). cbn [fst].
  unfold delete_task. rewrite Hid. cbn [comments].
  apply map_lookup_filter_None. right. intros c' Hc' Hkeep. simpl in Hkeep.
  rewrite Hc in Hc'. injection Hc' as <-. contradiction.
Qed.

(** C7 (amended). For a stored comment and an authenticated user who is not
    its author. A PUT or DELETE /api/comments/:id that names the comment
    writes nothing; it is answered 403 when it passes the validators (the id
    is at least 1 and, for PUT, the trimmed body has 1 to 1000 characters)
    and 400 when it does not. Whatever PUT or DELETE /api/comments/:id such
    a user sends, the comment stays stored as it was: on these two routes
    only the author's requests modify or delete it. The comment does not
    survive the deletion of its task, which any user may ask for: DELETE
    /api/tasks/:id takes the comments of the task with it. *)
Theorem comment_author_only now req db user n c :
  req_user req = Some user →
  comments db !! n = Some c →
  Comment.author_id c ≠ user_id user →
  (to_int (req_params req !! "id") = Some n →
   (1 ≤ n →
    (1 ≤ js_length (trim_string (toString (req_body req !! "body"))) ≤ 1000)%nat →
    comments_put now req db =
      (db, res_status_json 403
             (JMessage "Access denied: You can only edit your own comments"))) ∧
   (¬ (1 ≤ n ∧
       (1 ≤ js_length (trim_string (toString (req_body req !! "body"))) ≤ 1000)%nat) →
    comments_put now req db =
      (db, res_status_json 400
             (JErrors "Validation failed" (validationResult comments_put_chains req)))) ∧
   (1 ≤ n →
    comments_delete now req db =
      (db, res_status_json 403
             (JMessage "Access denied: You can only delete your own comments"))) ∧
   (n < 1 →
    comments_delete now req db =
      (db, res_status_json 400
             (JErrors "Invalid comment ID" (validationResult id_chains req))))) ∧
  comments (comments_put now req db).1 !! n = Some c ∧
  comments (comments_delete now req db).1 !! n = Some c ∧
  (∀ m t, to_int (req_params req !! "id") = Some m → 1 ≤ m →
          tasks db !! m = Some t → Comment.task_id c = m →
          comments (tasks_delete now req db).1 !! n = None).
Proof.
  intros Huser Hc Hne. split; [ | split; [ | split]].
  - intros Hid. split; [ | split; [ | split]].
    + intros Hn Hbody.
      apply (comments_put_forbidden now req db user n c Huser Hc Hne Hid).
      apply comments_put_validationResult. split; [eauto | exact Hbody].
    + intros Hnot. apply comments_put_invalid. intros Hvalid.
      apply comments_put_validationResult in Hvalid as [(m & Hm & H1) Hbody].
      rewrite Hid in Hm. injection Hm as <-. apply Hnot. split; assumption.
    + intros Hn.
      apply (comments_delete_forbidden now req db user n c Huser Hc Hne Hid).
      apply id_chains_validationResult. eauto.
    + intros Hn. apply comments_delete_invalid. intros Hvalid.
      apply id_chains_validationResult in Hvalid as (m & Hm & H1).
      rewrite Hid in Hm. injection Hm as <-. lia.
  - exact (comments_put_survives now req db user n c Huser Hc Hne).
  - exact (comments_delete_survives now req db user n c Huser Hc Hne).
  - intros m t Hid Hm Ht Htask.
    exact (tasks_delete_takes_comment now req db m t n c Hid Hm Ht Hc Htask).
Qed.

(** What the middleware does with a token it has found. *)
Lemma protected_token (h : Handler) now req db token :
  bearer_token req = Some token → token ≠ "" →
  protected h now req db =
    match jwt_verify token with
    | Decoded userId =>
        match users db !! userId with
        | None => (db, res_status_json 401 (JMessage "User not found"))
        | Some u =>
            h now (set_user {| user_id := userId; user_email := User.email u;
                               user_name := User.name u |} req) db
        end
    | JsonWebTokenError => (db, res_status_json 403 (JMessage "Invalid token"))
    | TokenExpiredError => (db, res_status_json 403 (JMessage "Token expired"))
    | NotBeforeError => (db, res_status_json 500 (JMessage "Authentication error"))
    end.
Proof.
  intros Htok Hne. apply String.eqb_neq in Hne.
  unfold protected, authenticateToken. rewrite Htok. simpl. rewrite Hne. simpl.
  destruct (jwt_verify token); try reflexivity.
  destruct (users db !! userId); reflexivity.
Qed.

(** C8 (amended). Behind [authenticateToken], whatever the handler of the
    route. A request without an Authorization header, or whose header has no
    second word, is answered 401 'Access token required'. The token is the
    second word of the header whatever the first one is: no scheme is asked
    for. A token for which [jwt.verify] throws JsonWebTokenError or
    TokenExpiredError is answered 403, one for which it throws anything else
    (NotBeforeError) 500 'Authentication error', and a verified token of a
    user that is no longer stored 401 'User not found'; in all these cases
    the handler is not run and the store is not touched. A verified token of
    a stored user lets the handler run, with that user as [req.user]. Every
    route of the application is such a protected handler. *)
Theorem authentication_required (handler : Handler) now req db :
  (req_authorization req = None →
   protected handler now req db =
     (db, res_status_json 401 (JMessage "Access token required"))) ∧
  (bearer_token req = None ∨ bearer_token req = Some "" →
   protected handler now req db =
     (db, res_status_json 401 (JMessage "Access token required"))) ∧
  (∀ scheme token, no_space scheme = true → no_space token = true →
     req_authorization req = Some (scheme ++ String " " token) →
     bearer_token req = Some token) ∧
  (∀ token, bearer_token req = Some token → token ≠ "" →
     (jwt_verify token = JsonWebTokenError →
      protected handler now req db =
        (db, res_status_json 403 (JMessage "Invalid token"))) ∧
     (jwt_verify token = TokenExpiredError →
      protected handler now req db =
        (db, res_status_json 403 (JMessage "Token expired"))) ∧
     (jwt_verify token = NotBeforeError →
      protected handler now req db =
        (db, res_status_json 500 (JMessage "Authentication error"))) ∧
     (∀ userId, jwt_verify token = Decoded userId → users db !! userId = None →
        protected handler now req db =
          (db, res_status_json 401 (JMessage "User not found"))) ∧
     (∀ userId u, jwt_verify token = Decoded userId → users db !! userId = Some u →
        protected handler now req db =
          handler now (set_user {| user_id := userId; user_email := User.email u;
                                   user_name := User.name u |} req) db)) ∧
  (∀ r : Route, app r = protected (handler_of r)).
Proof.
  split; [ | split; [ | split; [ | split]]].
  - intros H. apply protected_no_token. unfold bearer_token. rewrite H. reflexivity.
  - intros [H | H]; apply protected_no_token; rewrite H; reflexivity.
  - intros scheme token Hs Ht Hh. exact (bearer_token_word req scheme token Hs Ht Hh).
  - intros token Htok Hne.
    rewrite (protected_token handler now req db token Htok Hne).
    split; [ | split; [ | split; [ | split]]].
    + intros ->. reflexivity.
    + intros ->. reflexivity.
    + intros ->. reflexivity.
    + intros userId -> ->. reflexivity.
    + intros userId u -> ->. reflexivity.
  - intros r. reflexivity.
Qed.

End Routes.

(** ** The classifier *)

Lemma hoursDiff_hoursRemaining (now due : Z) :
  (inject_Z (due - now) / inject_Z (1000 * 3600) == hoursRemaining now due)%Q.
Proof.
  unfold hoursRemaining, Qdiv, Qmult, Qinv, inject_Z, Qeq. simpl. lia.
Qed.

Lemma Qltb_lt (x y : Q) : Qltb x y = true ↔ (x < y)%Q.
Proof.
  unfold Qltb. rewrite Qlt_alt. destruct (x ?= y)%Q; split; congruence.
Qed.

Lemma Qltb_ext (x y z : Q) : (x == y)%Q → Qltb x z = Qltb y z.
Proof. intros H. unfold Qltb. rewrite H. reflexivity. Qed.

Lemma Qle_bool_ext (x y z : Q) : (x == y)%Q → Qle_bool x z = Qle_bool y z.
Proof.
  intros H. destruct (Qle_bool y z) eqn:Hy.
  - apply Qle_bool_iff. apply Qle_bool_iff in Hy. rewrite H. exact Hy.
  - destruct (Qle_bool x z) eqn:Hx; [ | reflexivity].
    apply Qle_bool_iff in Hx. rewrite H in Hx. apply Qle_bool_iff in Hx. congruence.
Qed.

Lemma getTaskBadge_dated (now due : Z) (status : string) :
  status ≠ "Done" →
  TasksRouter.getTaskBadge now (Some due) status =
    if Qltb (hoursRemaining now due) 0 then "Overdue"
    else if Qle_bool (hoursRemaining now due) 24 then "At Risk"
    else "On Track".
Proof.
  intros Hs. unfold TasksRouter.getTaskBadge.
  rewrite bool_decide_eq_true_2 by eauto.
  apply String.eqb_neq in Hs. rewrite Hs. cbn [negb orb].
  change (new_Date (Some due)) with due. cbv zeta.
  rewrite (Qltb_ext _ _ 0 (hoursDiff_hoursRemaining now due)).
  rewrite (Qle_bool_ext _ _ 24 (hoursDiff_hoursRemaining now due)).
  reflexivity.
Qed.

Lemma users_getTaskBadge_eq (now : Z) (dueDate : option Z) (status : string) :
  UsersRouter.getTaskBadge now dueDate status = TasksRouter.getTaskBadge now dueDate status.
Proof. reflexivity. Qed.

(** C1. Whatever the status string and however far in the past the due
    date, the classifier answers On Track when the due date is absent or
    the status is Done, at every reading of the clock. *)
Theorem getTaskBadge_guard (now : Z) (dueDate : option Z) (status : string) :
  dueDate = None ∨ status = "Done" →
  TasksRouter.getTaskBadge now dueDate status = "On Track".
Proof.
  intros [-> | ->]; unfold TasksRouter.getTaskBadge.
  - rewrite bool_decide_eq_false_2; [reflexivity | ].
    intros [x Hx]; discriminate.
  - rewrite String.eqb_refl, orb_true_r. reflexivity.
Qed.

(** C2. For a task with a due date and a status other than Done, the
    classifier at the instant [now] answers Overdue exactly when the hours
    remaining are negative, At Risk exactly when they lie between 0 and 24
    inclusive, On Track exactly when they exceed 24; a task due now and a
    task due in exactly 24 hours are both At Risk. *)
Theorem getTaskBadge_by_hours (now due : Z) (status : string) :
  status ≠ "Done" →
  (TasksRouter.getTaskBadge now (Some due) status = "Overdue"
     ↔ (hoursRemaining now due < 0)%Q) ∧
  (TasksRouter.getTaskBadge now (Some due) status = "At Risk"
     ↔ (0 <= hoursRemaining now due)%Q ∧ (hoursRemaining now due <= 24)%Q) ∧
  (TasksRouter.getTaskBadge now (Some due) status = "On Track"
     ↔ (24 < hoursRemaining now due)%Q) ∧
  TasksRouter.getTaskBadge now (Some now) status = "At Risk" ∧
  TasksRouter.getTaskBadge now (Some (now + 24 * 3600000)) status = "At Risk".
Proof.
  intros Hs.
  assert (Hcases : ∀ h : Q,
    let b := if Qltb h 0 then "Overdue"
             else if Qle_bool h 24 then "At Risk" else "On Track" in
    (b = "Overdue" ↔ (h < 0)%Q) ∧
    (b = "At Risk" ↔ (0 <= h)%Q ∧ (h <= 24)%Q) ∧
    (b = "On Track" ↔ (24 < h)%Q)).
  { intros h. cbv zeta.
    destruct (Qltb h 0) eqn:Hlt.
    - apply Qltb_lt in Hlt.
      split; [tauto | split; split; try discriminate].
      + intros [H0 _]. exfalso. apply (Qlt_not_le _ _ Hlt H0).
      + intros H24. exfalso.
        apply (Qlt_irrefl h). eapply Qlt_trans; [exact Hlt | ].
        eapply Qlt_trans; [ | exact H24]. reflexivity.
    - assert (H0 : (0 <= h)%Q).
      { apply Qnot_lt_le. intros H. apply Qltb_lt in H. congruence. }
      destruct (Qle_bool h 24) eqn:Hle.
      + apply Qle_bool_iff in Hle.
        split; [split; [discriminate | ] | split; [tauto | split; [discriminate | ]]].
        * intros H. exfalso. apply (Qlt_not_le _ _ H H0).
        * intros H. exfalso. apply (Qlt_not_le _ _ H Hle).
      + assert (H24 : (24 < h)%Q).
        { apply Qnot_le_lt. intros H. apply Qle_bool_iff in H. congruence. }
        split; [split; [discriminate | ] | split; [split; [discriminate | ] | tauto]].
        * intros H. exfalso. apply (Qlt_not_le _ _ H H0).
        * intros [_ H]. exfalso. apply (Qlt_not_le _ _ H24 H). }
  rewrite !getTaskBadge_dated by assumption.
  destruct (Hcases (hoursRemaining now due)) as (H1 & H2 & H3).
  split; [exact H1 | split; [exact H2 | split; [exact H3 | ]]].
  assert (Hnow : (hoursRemaining now now == 0)%Q).
  { unfold hoursRemaining, Qeq. simpl. lia. }
  assert (Hday : (hoursRemaining now (now + 24 * 3600000) == 24)%Q).
  { unfold hoursRemaining, Qeq. simpl. lia. }
  rewrite (Qltb_ext _ _ 0 Hnow), (Qle_bool_ext _ _ 24 Hnow).
  rewrite (Qltb_ext _ _ 0 Hday), (Qle_bool_ext _ _ 24 Hday).
  split; reflexivity.
Qed.

(** C10. The classifier of the tasks router and the copy declared inside
    the GET /users/me/tasks handler agree on every due date and status at
    every reading of the clock. *)
Theorem getTaskBadge_copies_agree (now : Z) (dueDate : option Z) (status : string) :
  TasksRouter.getTaskBadge now dueDate status = UsersRouter.getTaskBadge now dueDate status.
Proof. symmetry. apply users_getTaskBadge_eq. Qed.

(** ** The classifier over time *)

Lemma getTaskBadge_undated (now : Z) (status : string) :
  TasksRouter.getTaskBadge now None status = "On Track".
Proof. reflexivity. Qed.

Lemma getTaskBadge_done (now : Z) (dueDate : option Z) :
  TasksRouter.getTaskBadge now dueDate "Done" = "On Track".
Proof.
  unfold TasksRouter.getTaskBadge. simpl. rewrite orb_true_r. reflexivity.
Qed.

(** The verdict in milliseconds: overdue once the due instant is past, at
    risk within 86400000 ms of it. *)
Lemma getTaskBadge_ms (now due : Z) (status : string) :
  status ≠ "Done" →
  TasksRouter.getTaskBadge now (Some due) status =
    if due <? now then "Overdue"
    else if due - now <=? 86400000 then "At Risk"
    else "On Track".
Proof.
  intros Hs. rewrite getTaskBadge_dated by exact Hs.
  assert (H1 : Qltb (hoursRemaining now due) 0 = (due <? now)).
  { destruct (due <? now) eqn:E.
    - apply Qltb_lt. apply Z.ltb_lt in E. unfold hoursRemaining, Qlt. simpl. lia.
    - destruct (Qltb (hoursRemaining now due) 0) eqn:E'; [ | reflexivity].
      apply Qltb_lt in E'. apply Z.ltb_ge in E.
      unfold hoursRemaining, Qlt in E'. simpl in E'. lia. }
  assert (H2 : Qle_bool (hoursRemaining now due) 24 = (due - now <=? 86400000)).
  { destruct (due - now <=? 86400000) eqn:E.
    - apply Qle_bool_iff. apply Z.leb_le in E. unfold hoursRemaining, Qle. simpl. lia.
    - destruct (Qle_bool (hoursRemaining now due) 24) eqn:E'; [ | reflexivity].
      apply Qle_bool_iff in E'. apply Z.leb_gt in E.
      unfold hoursRemaining, Qle in E'. simpl in E'. lia. }
  rewrite H1, H2. reflexivity.
Qed.

(** X1. As the clock advances the badge of a task never gets better: for a
    fixed due date and status, a later reading gives a verdict at least as
    severe in the order On Track, At Risk, Overdue. *)
Theorem getTaskBadge_never_improves (now now' : Z) (dueDate : option Z) (status : string) :
  now ≤ now' →
  (severity (TasksRouter.getTaskBadge now dueDate status)
     ≤ severity (TasksRouter.getTaskBadge now' dueDate status))%nat.
Proof.
  intros Hle. destruct dueDate as [due | ].
  - destruct (String.eqb_spec status "Done") as [-> | Hs].
    + rewrite !getTaskBadge_done. reflexivity.
    + rewrite !getTaskBadge_ms by exact Hs.
      destruct (due <? now) eqn:E1, (due <? now') eqn:E2;
        destruct (due - now <=? 86400000) eqn:E3, (due - now' <=? 86400000) eqn:E4;
        try (vm_compute; lia);
        try apply Z.ltb_lt in E1; try apply Z.ltb_ge in E1;
        try apply Z.ltb_lt in E2; try apply Z.ltb_ge in E2;
        try apply Z.leb_le in E3; try apply Z.leb_gt in E3;
        try apply Z.leb_le in E4; try apply Z.leb_gt in E4; lia.
  - rewrite !getTaskBadge_undated. reflexivity.
Qed.

(** ** The badge after an update *)

(** X26. The badge in the 200 response of PUT /api/tasks/:id is the
    verdict on the task as just written. A PUT that sets the status to Done
    is answered with On Track whatever the due date; a PUT that sets the
    due date, on a task whose status after the update is not Done, is
    answered with Overdue when that instant is past, At Risk when it is at
    most 24 hours ahead, On Track beyond. *)
Theorem tasks_put_badge (validator_isISO8601 : string → bool)
    (mysql_datetime : string → option Z) now req db task :
  statusCode (tasks_put validator_isISO8601 mysql_datetime now req db).2 = 200 →
  task ∈ tasks_of (tasks_put validator_isISO8601 mysql_datetime now req db).2 →
  (req_body req !! "status" = Some (JStr "Done") → badge task = "On Track") ∧
  (∀ s, req_body req !! "due_date" = Some (JStr s) →
        TaskRow.status (row task) ≠ "Done" →
        ∃ due, mysql_datetime s = Some due ∧
               badge task = if due <? now then "Overdue"
                            else if due - now <=? 86400000 then "At Risk"
                            else "On Track").
Proof.
  intros Hcode Hin.
  destruct (tasks_put_response _ _ now req db task Hcode Hin)
    as (n & t' & Hid & Hlk & Hst & Hdue & Hbadge).
  split.
  - intros Hv.
    rewrite (tasks_put_status_written _ _ now req db n t' "Done" Hcode Hid Hlk Hv)
      in Hbadge.
    rewrite Hbadge. apply getTaskBadge_done.
  - intros s Hv Hnot.
    destruct (tasks_put_due_date_written _ _ now req db n t' s Hcode Hid Hlk Hv)
      as [Hd [due Hms]].
    exists due. split; [exact Hms | ].
    rewrite Hbadge, Hd, Hms. apply getTaskBadge_ms. rewrite <- Hst. exact Hnot.
Qed.

(** ** The testable properties of the specification, and the example store *)

Example classify_one_hour_late :
  TasksRouter.getTaskBadge 7200000 (Some (7200000 - 3600000)) "Backlog" = "Overdue".
Proof. reflexivity. Qed.

Example classify_exactly_24h :
  TasksRouter.getTaskBadge 7200000 (Some (7200000 + 24 * 3600000)) "In Progress"
    = "At Risk".
Proof. reflexivity. Qed.

Example classify_24h_and_a_second :
  TasksRouter.getTaskBadge 7200000 (Some (7200000 + 24 * 3600000 + 1000)) "In Progress"
    = "On Track".
Proof. reflexivity. Qed.

Example classify_due_now :
  TasksRouter.getTaskBadge 7200000 (Some 7200000) "Review" = "At Risk".
Proof. reflexivity. Qed.

Example classify_no_date_unknown_status :
  TasksRouter.getTaskBadge 7200000 None "Archived" = "On Track".
Proof. reflexivity. Qed.

(** PUT /api/tasks/1 with body [{"priority": "High"}] at instant 1000 is
    written: only the priority and updated_at change. *)
Example put_priority_written :
  tasks_put example_isISO8601 example_datetime 1000 put_priority_request example_db =
    ({| users := users example_db;
        tasks := <[1 := {| Task.title := "Write report"; Task.description := None;
                           Task.priority := "High"; Task.assignee_id := Some 1;
                           Task.status := "Review"; Task.due_date := Some 1000000;
                           Task.created_at := 500; Task.updated_at := 1000 |}]> ∅;
        comments := comments example_db;
        tasks_auto_increment := 2 |},
     res_json
       (JMessageTask "Task updated successfully"
          (with_badge (TasksRouter.getTaskBadge 1000)
             (task_row example_db 1
                {| Task.title := "Write report"; Task.description := None;
                   Task.priority := "High"; Task.assignee_id := Some 1;
                   Task.status := "Review"; Task.due_date := Some 1000000;
                   Task.created_at := 500; Task.updated_at := 1000 |})))).
Proof. reflexivity. Qed.

(** PUT /api/tasks/1 with the empty body [{}] meets the guard. *)
Example put_empty_body :
  tasks_put example_isISO8601 example_datetime 1000
    (example_request (Some "Bearer alice") {[ "id" := JStr "1" ]} ∅ ∅ as_alice)
    example_db =
    (example_db, res_status_json 400 (JMessage "No fields to update")).
Proof. reflexivity. Qed.

(** Alice, its author, edits comment 1. *)
Example comment_put_by_alice :
  statusCode
    (comments_put example_isISO8601 1000
       (example_request (Some "Bearer alice") {[ "id" := JStr "1" ]} ∅
          {[ "body" := JStr " edited " ]} as_alice)
       example_db).2 = 200 ∧
  Comment.body <$>
    comments (comments_put example_isISO8601 1000
                (example_request (Some "Bearer alice") {[ "id" := JStr "1" ]} ∅
                   {[ "body" := JStr " edited " ]} as_alice)
                example_db).1 !! 1 = Some "edited".
Proof. split; reflexivity. Qed.

(** ** The theorems at work on the example store *)

Lemma getTaskBadge_guard_witness :
  TasksRouter.getTaskBadge 1000000000 (Some 0) "Done" = "On Track".
Proof.
  apply (getTaskBadge_guard 1000000000 (Some 0) "Done").
  right. reflexivity.
Defined.

Lemma getTaskBadge_by_hours_witness :
  TasksRouter.getTaskBadge 1000 (Some 1000) "Review" = "At Risk".
Proof.
  apply (getTaskBadge_by_hours 1000 1000 "Review").
  discriminate.
Defined.

Lemma badge_on_every_task_witness :
  with_badge (TasksRouter.getTaskBadge 1000) (task_row example_db 1 example_task)
    ∈ tasks_of (tasks_get_all example_isISO8601 1000 get_review_request example_db).2.
Proof.
  apply (badge_on_every_task example_isISO8601 example_datetime example_jwt_verify
           GET_tasks 1000 get_review_request example_db).
  - reflexivity.
  - reflexivity.
  - reflexivity.
  - reflexivity.
  - intros _. reflexivity.
Defined.

Lemma task_status_lifecycle_witness :
  statusCode (tasks_put example_isISO8601 example_datetime 1000
                put_done_request example_db).2 = 200 ∧
  ∃ t', tasks (tasks_put example_isISO8601 example_datetime 1000
                 put_done_request example_db).1 !! 1 = Some t' ∧
        Task.status t' = "Done".
Proof.
  apply (task_status_lifecycle example_isISO8601 example_datetime 1000
           put_done_request example_db) with (t := example_task).
  - reflexivity.
  - lia.
  - reflexivity.
  - reflexivity.
  - unfold statuses. repeat first [apply list_elem_of_here | apply list_elem_of_further].
Defined.

(** C4 as the specification words it, refuted: the request POST /api/tasks
    with body [{"title": "New", "priority": "Low", "status": "Done"}] creates
    a task whose status is Backlog, not the Done it names. *)
Lemma post_status_not_the_one_named :
  ¬ (∀ (validator_isISO8601 : string → bool) (mysql_datetime : string → option Z)
       (now : Z) (req : Request) (db : Db) (n : Z) (t : Task.t),
       tasks (tasks_post validator_isISO8601 mysql_datetime now req db).1 !! n = Some t →
       tasks db !! n = None →
       Task.status t = status_unless_specified req).
Proof.
  intros H.
  assert (E : tasks (tasks_post example_isISO8601 example_datetime 1000
                       post_done_request example_db).1 !! 2 = Some post_done_row)
    by reflexivity.
  specialize (H _ _ _ _ _ _ _ E eq_refl).
  vm_compute in H. discriminate H.
Qed.

Lemma tasks_put_frame_witness :
  ∃ t', tasks (tasks_put example_isISO8601 example_datetime 1000
                 put_priority_request example_db).1 !! 1 = Some t' ∧
        (∀ c, c ∈ updatable_fields → req_body put_priority_request !! c = None →
              column c t' = column c example_task) ∧
        column "created_at" t' = column "created_at" example_task ∧
        statusCode (tasks_put example_isISO8601 example_datetime 1000
                      put_priority_request example_db).2 = 200 ∧
        Task.updated_at example_task = 500 ∧
        Task.updated_at t' = 1000.
Proof.
  destruct (tasks_put_frame example_isISO8601 example_datetime 1000
              put_priority_request example_db 1 example_task eq_refl eq_refl)
    as (t' & H1 & H2 & H3 & _ & H5).
  exists t'.
  split; [exact H1 | ]. split; [exact H2 | ]. split; [exact H3 | ].
  split; [reflexivity | ]. split; [reflexivity | ].
  apply H5; [lia | ].
  split; [reflexivity | ].
  split.
  { exists "priority".
    split; [repeat first [apply list_elem_of_here | apply list_elem_of_further] | ].
    eexists. reflexivity. }
  split; [intros v Hv; vm_compute in Hv; discriminate | ].
  split; [intros v Hv; vm_compute in Hv; discriminate | ].
  split.
  { intros v Hv. vm_compute in Hv. injection Hv as <-.
    exists "High". split; [reflexivity | ].
    repeat first [apply list_elem_of_here | apply list_elem_of_further]. }
  split; [intros v Hv; vm_compute in Hv; discriminate | ].
  split; intros v Hv; vm_compute in Hv; discriminate.
Defined.

(** C6 as the specification words it, refuted: 400 'Assignee not found' is
    not the answer to every request whose assignee_id names no user. POST
    /api/tasks with body [{"title": "   ", "priority": "Low", "assignee_id":
    99}] is answered 400 'Validation failed', and PUT /api/tasks/999 with
    body [{"assignee_id": 99}], where no task 999 is stored, 404. *)
Lemma assignee_not_found_not_the_only_answer :
  ¬ (∀ (validator_isISO8601 : string → bool) (mysql_datetime : string → option Z)
       (now : Z) (req : Request) (db : Db) (v : JsValue),
       req_body req !! "assignee_id" = Some v →
       (∀ a, to_int (Some v) = Some a → users db !! a = None) →
       (tasks_post validator_isISO8601 mysql_datetime now req db).2 =
         res_status_json 400 (JMessage "Assignee not found")) ∧
  ¬ (∀ (validator_isISO8601 : string → bool) (mysql_datetime : string → option Z)
       (now : Z) (req : Request) (db : Db) (v : JsValue),
       req_body req !! "assignee_id" = Some v →
       (∀ a, to_int (Some v) = Some a → users db !! a = None) →
       (tasks_put validator_isISO8601 mysql_datetime now req db).2 =
         res_status_json 400 (JMessage "Assignee not found")).
Proof.
  assert (Hno : ∀ a, to_int (Some (JNum 99)) = Some a → users example_db !! a = None).
  { intros a Ha. vm_compute in Ha. injection Ha as <-. reflexivity. }
  split; intros H.
  - specialize (H example_isISO8601 example_datetime 1000 post_blank_dangling_request
                  example_db (JNum 99) eq_refl Hno).
    vm_compute in H. discriminate H.
  - specialize (H example_isISO8601 example_datetime 1000 put_missing_dangling_request
                  example_db (JNum 99) eq_refl Hno).
    vm_compute in H. discriminate H.
Qed.

Lemma assignee_must_exist_witness :
  (tasks_post example_isISO8601 example_datetime 1000 put_dangling_request example_db).1 =
    example_db ∧
  (tasks_post example_isISO8601 example_datetime 1000 put_dangling_request example_db).2 =
    res_status_json 400 (JMessage "Assignee not found") ∧
  (tasks_put example_isISO8601 example_datetime 1000 put_dangling_request example_db).1 =
    example_db ∧
  (tasks_put example_isISO8601 example_datetime 1000 put_dangling_request example_db).2 =
    res_status_json 400 (JMessage "Assignee not found").
Proof.
  destruct (assignee_must_exist example_isISO8601 example_datetime 1000
              put_dangling_request example_db (JNum 99) eq_refl)
    as ((P1 & _ & P3 & _) & (Q1 & Q2 & _ & _) & _).
  { intros a Ha. vm_compute in Ha. injection Ha as <-. reflexivity. }
  split; [exact P1 | ].
  split; [apply P3; reflexivity | ].
  split; [exact Q1 | ].
  apply Q2; [reflexivity | ]. eexists. reflexivity.
Defined.

(** C7 as the specification words it, refuted. Bob's PUT /api/comments/1
    on Alice's comment, the body a single no-break space, is answered 400,
    not 403; and Bob's DELETE /api/tasks/1 deletes Alice's comment on task
    1. *)
Lemma comment_not_shielded_from_others :
  ¬ (∀ (validator_isISO8601 : string → bool)
       (now : Z) (req : Request) (db : Db) (user : UserInfo) (n : Z) (c : Comment.t),
       req_user req = Some user →
       comments db !! n = Some c →
       Comment.author_id c ≠ user_id user →
       to_int (req_params req !! "id") = Some n →
       statusCode (comments_put validator_isISO8601 now req db).2 = 403) ∧
  ¬ (∀ (validator_isISO8601 : string → bool) (mysql_datetime : string → option Z)
       (r : Route)
       (now : Z) (req : Request) (db : Db) (user : UserInfo) (n : Z) (c : Comment.t),
       req_user req = Some user →
       comments db !! n = Some c →
       Comment.author_id c ≠ user_id user →
       comments (handler_of validator_isISO8601 mysql_datetime r now req db).1 !! n =
         Some c).
Proof.
  split; intros H.
  - specialize (H example_isISO8601 1000 comment_put_blank_by_bob example_db
                  {| user_id := 2; user_email := "bob@example.com"; user_name := "Bob" |}
                  1 example_comment eq_refl eq_refl ltac:(discriminate) eq_refl).
    vm_compute in H. discriminate H.
  - specialize (H example_isISO8601 example_datetime DELETE_tasks_id
                  1000 delete_first_by_bob example_db
                  {| user_id := 2; user_email := "bob@example.com"; user_name := "Bob" |}
                  1 example_comment eq_refl eq_refl ltac:(discriminate)).
    vm_compute in H. discriminate H.
Qed.

Lemma comment_author_only_witness :
  comments_put example_isISO8601 1000 comment_put_by_bob example_db =
    (example_db,
     res_status_json 403 (JMessage "Access denied: You can only edit your own comments")) ∧
  comments_delete example_isISO8601 1000 comment_put_by_bob example_db =
    (example_db,
     res_status_json 403
       (JMessage "Access denied: You can only delete your own comments")) ∧
  comments (tasks_delete example_isISO8601 1000 comment_put_by_bob example_db).1 !! 1 =
    None.
Proof.
  destruct (comment_author_only example_isISO8601 1000 comment_put_by_bob example_db
              {| user_id := 2; user_email := "bob@example.com"; user_name := "Bob" |}
              1 example_comment eq_refl eq_refl ltac:(discriminate))
    as (Hnamed & _ & _ & Hcascade).
  destruct (Hnamed eq_refl) as (Hput & _ & Hdelete & _).
  split; [ | split].
  - apply Hput; [lia | ]. split; apply Nat.leb_le; reflexivity.
  - apply Hdelete. lia.
  - apply (Hcascade 1 example_task); [reflexivity | lia | reflexivity | reflexivity].
Defined.

(** C8 as the specification words it, refuted. GET /api/tasks with the
    header [Basic alice], which holds no bearer token, is not answered 401:
    the middleware verifies the second word whatever the first, and the
    listing is served. GET /api/tasks with a token that [jwt.verify] turns
    down with NotBeforeError is answered 500, not 403. *)
Lemma authentication_not_as_worded :
  ¬ (∀ (validator_isISO8601 : string → bool) (mysql_datetime : string → option Z)
       (jwt_verify : string → VerifyResult) (r : Route)
       (now : Z) (req : Request) (db : Db),
       (∀ token, req_authorization req ≠ Some ("Bearer " ++ token)) →
       statusCode (app validator_isISO8601 mysql_datetime jwt_verify r now req db).2 =
         401) ∧
  ¬ (∀ (validator_isISO8601 : string → bool) (mysql_datetime : string → option Z)
       (jwt_verify : string → VerifyResult) (r : Route)
       (now : Z) (req : Request) (db : Db) (token : string),
       bearer_token req = Some token → token ≠ "" →
       (∀ userId, jwt_verify token ≠ Decoded userId) →
       statusCode (app validator_isISO8601 mysql_datetime jwt_verify r now req db).2 =
         403).
Proof.
  split; intros H.
  - specialize (H example_isISO8601 example_datetime example_jwt_verify GET_tasks
                  1000 get_basic_request example_db).
    assert (Hscheme : ∀ token,
              req_authorization get_basic_request ≠ Some ("Bearer " ++ token)).
    { intros token E. simpl in E. discriminate E. }
    specialize (H Hscheme). vm_compute in H. discriminate H.
  - specialize (H example_isISO8601 example_datetime example_jwt_verify GET_tasks
                  1000 get_early_request example_db "early" eq_refl ltac:(discriminate)).
    assert (Hfails : ∀ userId, example_jwt_verify "early" ≠ Decoded userId).
    { intros userId E. vm_compute in E. discriminate E. }
    specialize (H Hfails). vm_compute in H. discriminate H.
Qed.

Lemma authentication_required_witness :
  app example_isISO8601 example_datetime example_jwt_verify GET_tasks 1000
      get_expired_request example_db =
    (example_db, res_status_json 403 (JMessage "Token expired")) ∧
  app example_isISO8601 example_datetime example_jwt_verify GET_tasks 1000
      get_early_request example_db =
    (example_db, res_status_json 500 (JMessage "Authentication error")).
Proof.
  split.
  - apply (authentication_required example_isISO8601 example_datetime example_jwt_verify
             (handler_of example_isISO8601 example_datetime GET_tasks)
             1000 get_expired_request example_db) with (token := "expired").
    + reflexivity.
    + discriminate.
    + reflexivity.
  - apply (authentication_required example_isISO8601 example_datetime example_jwt_verify
             (handler_of example_isISO8601 example_datetime GET_tasks)
             1000 get_early_request example_db) with (token := "early").
    + reflexivity.
    + discriminate.
    + reflexivity.
Defined.

(** ** The further theorems at work *)

Lemma getTaskBadge_never_improves_witness :
  (severity (TasksRouter.getTaskBadge 0%Z (Some 90000000%Z) "Review")
     ≤ severity (TasksRouter.getTaskBadge 90000001%Z (Some 90000000%Z) "Review"))%nat.
Proof.
  apply (getTaskBadge_never_improves 0 90000001 (Some 90000000) "Review").
  lia.
Defined.

Lemma tasks_get_all_filters_witness :
  with_badge (TasksRouter.getTaskBadge 1000) (task_row example_db 1 example_task)
    ∈ tasks_of (tasks_get_all example_isISO8601 1000 get_review_request example_db).2.
Proof.
  apply (tasks_get_all_filters example_isISO8601 1000 get_review_request example_db).
  - reflexivity.
  - exists 1, example_task.
    split; [reflexivity | ]. split; [reflexivity | ].
    split; [intros H; discriminate H | ].
    split; [intros H; discriminate H | intros _; reflexivity].
Defined.

Lemma tasks_get_all_bad_filter_witness :
  statusCode (tasks_get_all example_isISO8601 1000 get_closed_request example_db).2 = 400 ∧
  tasks_of (tasks_get_all example_isISO8601 1000 get_closed_request example_db).2 = [] ∧
  (tasks_get_all example_isISO8601 1000 get_closed_request example_db).1 = example_db.
Proof.
  apply (tasks_get_all_bad_filter example_isISO8601 1000 get_closed_request example_db).
  left. exists (JStr "Closed"). split; [reflexivity | ].
  intros H. unfold statuses in H.
  repeat (apply elem_of_cons in H as [H | H]; [discriminate H | ]).
  apply elem_of_nil in H. exact H.
Defined.

Lemma users_me_tasks_is_assignee_filter_witness :
  users_me_tasks 1000 get_mine_request example_db =
    tasks_get_all example_isISO8601 1000 get_mine_request example_db.
Proof.
  apply (users_me_tasks_is_assignee_filter example_isISO8601 1000
           get_mine_request get_mine_request example_db
           {| user_id := 1; user_email := "alice@example.com"; user_name := "Alice" |}).
  - reflexivity.
  - simpl. lia.
  - reflexivity.
  - reflexivity.
  - reflexivity.
Defined.

Lemma tasks_post_then_get_witness :
  tasks_get_one example_isISO8601 1001 get_second_request
    (tasks_post example_isISO8601 example_datetime 1001 post_done_request example_db).1 =
    ((tasks_post example_isISO8601 example_datetime 1001 post_done_request example_db).1,
     res_json
       (JTask (with_badge (TasksRouter.getTaskBadge 1001)
                 (task_row example_db 2
                    {| Task.title := "New"; Task.description := None;
                       Task.priority := "Low"; Task.assignee_id := None;
                       Task.status := "Backlog"; Task.due_date := None;
                       Task.created_at := 1001; Task.updated_at := 1001 |})))).
Proof.
  apply (tasks_post_then_get example_isISO8601 example_datetime 1001
           post_done_request get_second_request example_db).
  - simpl. lia.
  - reflexivity.
  - reflexivity.
Defined.

Lemma tasks_post_required_witness :
  statusCode
    (tasks_post example_isISO8601 example_datetime 1000 post_blank_request example_db).2
    = 400 ∧
  (tasks_post example_isISO8601 example_datetime 1000 post_blank_request example_db).1
    = example_db ∧
  validationResult example_isISO8601 tasks_post_chains post_blank_request ≠ [].
Proof.
  apply (tasks_post_required example_isISO8601 example_datetime 1000
           post_blank_request example_db).
  right. reflexivity.
Defined.


Lemma tasks_delete_then_gone_witness :
  tasks_get_one example_isISO8601 2000 delete_first_request
    (tasks_delete example_isISO8601 1000 delete_first_request example_db).1 =
    ((tasks_delete example_isISO8601 1000 delete_first_request example_db).1,
     res_status_json 404 (JMessage "Task not found")).
Proof.
  apply (tasks_delete_then_gone example_isISO8601 example_datetime 1000 2000
           delete_first_request delete_first_request example_db);
    reflexivity.
Defined.

Lemma enums_valid_preserved_witness :
  Task.priority put_priority_row ∈ priorities ∧
  Task.status put_priority_row ∈ statuses.
Proof.
  apply (enums_valid_preserved example_isISO8601 example_datetime example_jwt_verify
           PUT_tasks_id 1000 put_priority_request example_db) with (n := 1).
  - intros n t H. unfold example_db in H. simpl in H.
    destruct (decide (n = 1)) as [-> | Hne].
    + rewrite lookup_insert_eq in H. injection H as <-.
      split; [unfold priorities | unfold statuses]; simpl;
        repeat first [apply list_elem_of_here | apply list_elem_of_further].
    + rewrite lookup_insert_ne, lookup_empty in H by congruence. discriminate H.
  - reflexivity.
Defined.

Lemma comments_reference_preserved_witness :
  is_Some
    (tasks (app example_isISO8601 example_datetime example_jwt_verify
              PUT_tasks_id 1000 put_priority_request example_db).1
       !! Comment.task_id example_comment) ∧
  is_Some
    (users (app example_isISO8601 example_datetime example_jwt_verify
              PUT_tasks_id 1000 put_priority_request example_db).1
       !! Comment.author_id example_comment).
Proof.
  assert (Hdb : comments_reference example_db).
  { intros k c H. unfold example_db in H. simpl in H.
    destruct (decide (k = 1)) as [-> | Hne].
    - rewrite lookup_insert_eq in H. injection H as <-.
      split; eexists; reflexivity.
    - rewrite lookup_insert_ne, lookup_empty in H by congruence. discriminate H. }
  exact (comments_reference_preserved example_isISO8601 example_datetime
           example_jwt_verify PUT_tasks_id 1000 put_priority_request example_db
           Hdb 1 example_comment eq_refl).
Defined.

Lemma comments_put_by_author_witness :
  comments_put example_isISO8601 1000 comment_put_by_alice_request example_db =
    ({| users := users example_db; tasks := tasks example_db;
        comments :=
          <[1 := {| Comment.task_id := 1; Comment.author_id := 1;
                    Comment.body := "edited"; Comment.created_at := 600 |}]>
            (comments example_db);
        tasks_auto_increment := 2 |},
     res_json
       (JMessageComment "Comment updated successfully"
          {| fc_id := 1; fc_taskId := 1; fc_body := "edited"; fc_createdAt := 600;
             fc_author := {| author_id := 1; author_name := "Alice";
                             author_email := "alice@example.com" |} |})).
Proof.
  apply (comments_put_by_author example_isISO8601 1000 comment_put_by_alice_request
           example_db 1 example_comment
           {| user_id := 1; user_email := "alice@example.com"; user_name := "Alice" |}
           alice).
  - reflexivity.
  - reflexivity.
  - reflexivity.
  - lia.
  - reflexivity.
  - reflexivity.
  - apply Z.leb_le. reflexivity.
Defined.

Lemma comments_delete_by_author_witness :
  comments_delete example_isISO8601 1000 delete_first_request example_db =
    ({| users := users example_db; tasks := tasks example_db;
        comments := delete 1 (comments example_db);
        tasks_auto_increment := tasks_auto_increment example_db |},
     res_json (JMessage "Comment deleted successfully")) ∧
  comments_delete example_isISO8601 2000 delete_first_request
    (comments_delete example_isISO8601 1000 delete_first_request example_db).1 =
    ((comments_delete example_isISO8601 1000 delete_first_request example_db).1,
     res_status_json 404 (JMessage "Comment not found")).
Proof.
  apply (comments_delete_by_author example_isISO8601 1000 2000 delete_first_request
           example_db 1 example_comment
           {| user_id := 1; user_email := "alice@example.com"; user_name := "Alice" |}).
  - reflexivity.
  - reflexivity.
  - lia.
  - reflexivity.
  - reflexivity.
Defined.

Lemma bearer_token_second_word_witness :
  bearer_token (example_request (Some "Token alice") ∅ ∅ ∅ None) = Some "alice".
Proof.
  apply (bearer_token_second_word (example_request (Some "Token alice") ∅ ∅ ∅ None)
           "Token" "alice"); reflexivity.
Defined.

Lemma client_request_authenticated_witness :
  protected example_jwt_verify (tasks_get_all example_isISO8601) 1000
      (request_interceptor browser_alice get_tasks_config) example_db =
    tasks_get_all example_isISO8601 1000
      (set_user {| user_id := 1; user_email := "alice@example.com";
                   user_name := "Alice" |}
         (request_interceptor browser_alice get_tasks_config)) example_db.
Proof.
  apply (client_request_authenticated example_jwt_verify
           (tasks_get_all example_isISO8601) 1000 browser_alice get_tasks_config
           example_db "alice" 1).
  - reflexivity.
  - discriminate.
  - reflexivity.
  - reflexivity.
Defined.

Lemma rejected_token_kept_by_client_witness :
  statusCode
    (protected example_jwt_verify (tasks_get_all example_isISO8601) 1000
       (request_interceptor browser_expired get_tasks_config) example_db).2 = 403 ∧
  response_interceptor
    (Some (statusCode
       (protected example_jwt_verify (tasks_get_all example_isISO8601) 1000
          (request_interceptor browser_expired get_tasks_config) example_db).2))
    browser_expired = browser_expired.
Proof.
  apply (rejected_token_kept_by_client example_jwt_verify
           (tasks_get_all example_isISO8601) 1000 browser_expired get_tasks_config
           example_db "expired").
  - reflexivity.
  - discriminate.
  - reflexivity.
  - right. reflexivity.
Defined.

Lemma comments_post_created_witness :
  comments_post example_isISO8601 2 1000 comment_post_request example_db =
    ({| users := users example_db; tasks := tasks example_db;
        comments :=
          <[2 := {| Comment.task_id := 1; Comment.author_id := 1;
                    Comment.body := "Second"; Comment.created_at := 1000 |}]>
            (comments example_db);
        tasks_auto_increment := tasks_auto_increment example_db |},
     res_status_json 201
       (JMessageComment "Comment created successfully" comment_post_formatted)).
Proof.
  apply (comments_post_created example_isISO8601 2 1000 comment_post_request
           example_db 1
           {| user_id := 1; user_email := "alice@example.com"; user_name := "Alice" |}
           alice).
  - reflexivity.
  - reflexivity.
  - reflexivity.
  - lia.
  - eexists. reflexivity.
  - reflexivity.
  - split; apply Nat.leb_le; reflexivity.
  - apply Z.leb_le. reflexivity.
Defined.

Lemma comments_post_then_get_witness :
  ∃ l, (comments_get example_isISO8601 2000 comments_get_request
          (comments_post example_isISO8601 2 1000 comment_post_request example_db).1).2
         = inr l ∧
       comment_post_formatted ∈ l.
Proof.
  apply (comments_post_then_get example_isISO8601 2 1000 2000 comment_post_request
           comments_get_request example_db comment_post_formatted).
  - reflexivity.
  - reflexivity.
Defined.

Lemma tasks_put_badge_witness :
  ∃ due, example_datetime "2031-01-01T00:00:00" = Some due ∧
         badge (with_badge (TasksRouter.getTaskBadge 1000)
                  (task_row example_db 1
                     {| Task.title := "Write report"; Task.description := None;
                        Task.priority := "Medium"; Task.assignee_id := Some 1;
                        Task.status := "Review"; Task.due_date := Some 1924992000000;
                        Task.created_at := 500; Task.updated_at := 1000 |})) =
           if due <? 1000 then "Overdue"
           else if due - 1000 <=? 86400000 then "At Risk"
           else "On Track".
Proof.
  apply (tasks_put_badge example_isISO8601 example_datetime 1000 put_due_request
           example_db).
  - reflexivity.
  - simpl. apply list_elem_of_here.
  - reflexivity.
  - discriminate.
Defined.

Lemma board_shows_every_task_witness :
  concat (snd <$> getTasksByStatus
            (tasks_of (tasks_get_all example_isISO8601 1000 get_review_request
                         example_db).2))
    ≡ₚ tasks_of (tasks_get_all example_isISO8601 1000 get_review_request example_db).2.
Proof.
  apply (board_shows_every_task example_isISO8601 1000 get_review_request example_db).
  intros n t H. unfold example_db in H. simpl in H.
  destruct (decide (n = 1)) as [-> | Hne].
  - rewrite lookup_insert_eq in H. injection H as <-.
    split; [unfold priorities | unfold statuses]; simpl;
      repeat first [apply list_elem_of_here | apply list_elem_of_further].
  - rewrite lookup_insert_ne, lookup_empty in H by congruence. discriminate H.
Defined.

Lemma tasks_routes_ignore_caller_witness :
  tasks_put example_isISO8601 example_datetime 1000 put_priority_request example_db =
    tasks_put example_isISO8601 example_datetime 1000 put_priority_by_bob example_db.
Proof.
  apply (tasks_routes_ignore_caller example_isISO8601 example_datetime 1000
           put_priority_request put_priority_by_bob example_db).
  repeat split.
Defined.

Lemma client_list_after_delete_witness :
  deleteTask_tasks 1
    (statusCode (tasks_delete example_isISO8601 1000 delete_first_request example_db).2)
    (tasks_of (tasks_get_all example_isISO8601 2000 get_review_request example_db).2)
  ≡ₚ tasks_of
       (tasks_get_all example_isISO8601 2000 get_review_request
          (tasks_delete example_isISO8601 1000 delete_first_request example_db).1).2.
Proof.
  apply (client_list_after_delete example_isISO8601 1000 2000 delete_first_request
           get_review_request example_db 1).
  reflexivity.
Defined.
